(** * Singing pipeline: chunking, enrichment, reconciliation, timeline

    A shallow embedding of the word-alignment and timeline code of the
    repository (the Python scripts under [src/]) and the properties its
    specification states about them.

    Conventions of the embedding:
    - Python [int] is [Z]; list positions are [nat] where the code only
      counts, [Z] where it computes with them.
    - Python [float] is the exact rational [Q]: binary rounding is not
      modelled, every statement about seconds and milliseconds is a
      statement of exact arithmetic ([==] is equality of rationals).
    - [dict] entries that may be missing or [null] are three-valued
      ([Py.field]); Python lists that are shared between caller and
      callee live in a heap of list objects addressed by [loc].
    - an uncaught exception is [None] in the option monad; a caught one is
      a value the code branches on. *)

From Stdlib Require Import ZArith QArith Qround Qabs Lia Lqa List Bool Ascii Sorted.
From stdpp Require Import base option list gmap strings pretty sorting.

Local Open Scope Z_scope.

(** ** Python primitives *)
Module Py.

(** A numeric [dict] entry as the consumers test it: the key can be
    missing, hold [None] (JSON [null]) or hold a float. *)
Inductive field : Type :=
| Absent
| Null
| Num (q : Q).

(** [k in d and d[k]]: present, not [None], and not zero. *)
Definition truthy (f : field) : bool :=
  match f with
  | Num q => negb (Qeq_bool q 0)
  | _ => false
  end.

(** [int(x)] on a float: truncation toward zero. *)
Definition int_of (x : Q) : Z := Z.quot (Qnum x) (Z.pos (Qden x)).

(** [sum(l) / len(l)] *)
Definition qsum (l : list Q) : Q := fold_left Qplus l (0 # 1)%Q.
Definition mean (l : list Q) : Q := (qsum l / inject_Z (Z.of_nat (length l)))%Q.

(** [range(a, b)] on integers. *)
Definition range (a b : Z) : list Z := map (fun k => a + Z.of_nat k) (seq 0 (Z.to_nat (b - a))).

(** [l[i]]: a negative index counts from the end, an index out of range
    raises [IndexError]. *)
Definition getitem {A} (l : list A) (i : Z) : option A :=
  let n := Z.of_nat (length l) in
  if i <? 0 then (if 0 <=? n + i then l !! Z.to_nat (n + i) else None)
  else l !! Z.to_nat i.

(** [enumerate(l)] *)
Definition enumerate {A} (l : list A) : list (nat * A) := imap (fun i x => (i, x)) l.

(** [max(a, b)] and [min(a, b)] on numbers: the first argument wins a tie. *)
Definition max (a b : Q) : Q := if Qlt_le_dec a b then b else a.
Definition min (a b : Q) : Q := if Qlt_le_dec b a then b else a.

(** [lo <= t <= hi] on floats. *)
Definition between (lo t hi : Q) : bool := Qle_bool lo t && Qle_bool t hi.

(** [values[mask]] for a numpy boolean mask: an [IndexError] when the
    two lengths differ. *)
Definition mask_select {A} (mask : list bool) (values : list A) : option (list A) :=
  if decide (length mask = length values)
  then Some (map snd (List.filter fst (zip mask values)))
  else None.

(** [np.max(l)], [np.min(l)] on a non-empty list ([0] is never read). *)
Definition np_max (l : list Q) : Q :=
  match l with [] => 0%Q | x :: r => fold_left max r x end.
Definition np_min (l : list Q) : Q :=
  match l with [] => 0%Q | x :: r => fold_left min r x end.

(** [s.strip()] for the ASCII blanks. *)
Definition is_blank (c : ascii) : bool :=
  let n := nat_of_ascii c in
  (n =? 32)%nat || ((9 <=? n)%nat && (n <=? 13)%nat).

Fixpoint lstrip (s : string) : string :=
  match s with
  | String c s' => if is_blank c then lstrip s' else s
  | EmptyString => EmptyString
  end.

Definition strip (s : string) : string :=
  String.rev (lstrip (String.rev (lstrip s))).

(** [os.path.join(a, b)] for a relative [b] and a directory [a] that does
    not end in a separator. *)
Definition path_join (a b : string) : string := a +:+ "/" +:+ b.

End Py.

(** ** pydub

    [AudioSegment] is addressed in milliseconds by every call the scripts
    make ([len], slices, [silent], [overlay]). The model keeps one
    amplitude cell per millisecond of mono audio; frame-rate conversions
    inside the library are below that resolution. *)
Module Pydub.

Abbreviation AudioSegment := (list Z) (only parsing).

(** [len(a)], in milliseconds. *)
Definition len (a : AudioSegment) : Z := Z.of_nat (length a).

(** [AudioSegment.silent(duration=ms)] and [AudioSegment.empty()]. *)
Definition silent (duration : Z) : AudioSegment := replicate (Z.to_nat duration) 0.
Definition empty : AudioSegment := [].

(** [a[start:stop]] with non-negative millisecond positions, which may be
    floats: both are capped at [len(a)] and truncated to a cell. *)
Definition slice (a : AudioSegment) (start stop : Q) : AudioSegment :=
  let lo := Z.to_nat (Py.int_of (Py.min start (inject_Z (len a)))) in
  let hi := Z.to_nat (Py.int_of (Py.min stop (inject_Z (len a)))) in
  take (hi - lo) (drop lo a).

(** 16-bit saturating sum of two samples ([audioop.add]). *)
Definition clip16 (x : Z) : Z := Z.max (-32768) (Z.min 32767 x).
Definition mix (x y : Z) : Z := clip16 (x + y).

Fixpoint mix_zip (base seg : list Z) : list Z :=
  match base, seg with
  | b :: base', s :: seg' => mix b s :: mix_zip base' seg'
  | _, [] => base
  | [], _ => []
  end.

(** [base.overlay(seg, position=ms)] for a non-negative [position]: the
    cells before [position] are written back, [seg] is cut at the end of
    [base] and mixed in, and the rest of [base] follows. *)
Definition overlay (base seg : AudioSegment) (position : Z) : AudioSegment :=
  let p := Z.to_nat position in
  take p base ++ mix_zip (drop p base) seg.

(** [a + b] ([append] with no crossfade). *)
Definition append (a b : AudioSegment) : AudioSegment := a ++ b.

End Pydub.

(** ** The persisted dual-frame word record

    [transcription.word_timings_dual_frame] of a segment analysis: written
    by analyze_specific_segment.py, read by the chunker. *)
Module DualFrame.

Record time_frame : Type := {
  t_start : Q;
  t_end : Q;
  t_duration : Q
}.

Record word_timing : Type := {
  index : Z;
  word : string;
  time_relative : time_frame;
  time_absolute : time_frame;
  avg_pitch_hz : Py.field;
  avg_energy_db : Py.field
}.

End DualFrame.

(** ** analyze_specific_segment.py: dual-frame word records *)
Module SpecificSegment.

(** One entry of [transcription.words] as the transcription engine
    returns it. *)
Record whisper_word : Type := {
  w_word : string;
  w_start : Q;
  w_end : Q
}.

Record pitch_point : Type := {
  time_relative : Q;
  pitch_hz : Q
}.

(** Lines 128-129: the pitch values inside the word's span. *)
Definition word_pitches (pitch_contour : list pitch_point) (lo hi : Q) : list Q :=
  map pitch_hz (List.filter (fun p => Py.between lo (time_relative p) hi) pitch_contour).

(** Line 133: [(rms_times >= start) & (rms_times <= end)]. *)
Definition energy_mask (rms_times : list Q) (lo hi : Q) : list bool :=
  map (fun t => Py.between lo t hi) rms_times.

(** The body of the word loop (lines 105-137). A feature key is set only
    when some sample falls inside the span. [rms_times] and [rms_db] are
    both computed from the one [rms] vector (lines 65-67): [rms] holds
    the pairs of a frame's time and level. *)
Definition word_data (start_time : Q) (pitch_contour : list pitch_point)
    (rms : list (Q * Q)) (i : nat) (word : whisper_word)
    : DualFrame.word_timing :=
  let rms_times := map fst rms in
  let rms_db := map snd rms in
  let time_relative_start := w_start word in
  let time_relative_end := w_end word in
  let time_absolute_start := (start_time + time_relative_start)%Q in
  let time_absolute_end := (start_time + time_relative_end)%Q in
  let pitches := word_pitches pitch_contour time_relative_start time_relative_end in
  let mask := energy_mask rms_times time_relative_start time_relative_end in
  {| DualFrame.index := Z.of_nat i;
     DualFrame.word := Py.strip (w_word word);
     DualFrame.time_relative :=
       {| DualFrame.t_start := time_relative_start;
          DualFrame.t_end := time_relative_end;
          DualFrame.t_duration := (time_relative_end - time_relative_start)%Q |};
     DualFrame.time_absolute :=
       {| DualFrame.t_start := time_absolute_start;
          DualFrame.t_end := time_absolute_end;
          DualFrame.t_duration := (time_absolute_end - time_absolute_start)%Q |};
     DualFrame.avg_pitch_hz :=
       match pitches with
       | [] => Py.Absent
       | _ => Py.Num (Py.mean pitches)
       end;
     DualFrame.avg_energy_db :=
       if existsb id mask
       then Py.Num (Py.mean (map snd (List.filter fst (zip mask rms_db))))
       else Py.Absent |}.


End SpecificSegment.

(** ** analyze_vocals_precise.py: the timing enricher *)
Module Precise.

Record pitch_point : Type := {
  time : Q;
  pitch_hz : Q
}.

(** A word as [transcribe_with_word_timestamps] builds it. *)
Record word_timing : Type := {
  index : Z;
  word : string;
  start : Q;
  stop : Q;
  duration : Q;
  onset_offset : option Q
}.

(** The keys [enrich_word_timings_with_features] adds to a word; [None]
    is Python's [None]. *)
Record enriched_word : Type := {
  timing : word_timing;
  avg_energy_db : option Q;
  max_energy_db : option Q;
  avg_pitch_hz : option Q;
  min_pitch_hz : option Q;
  max_pitch_hz : option Q;
  pitch_range_hz : option Q;
  avg_note : option string
}.

Definition word_pitches (pitch_contour : list pitch_point) (lo hi : Q) : list Q :=
  map pitch_hz (List.filter (fun p => Py.between lo (time p) hi) pitch_contour).

Definition energy_mask (rms_times : list Q) (lo hi : Q) : list bool :=
  map (fun t => Py.between lo t hi) rms_times.

(** The loop body (lines 328-356); [hz_to_note] is librosa's. The mask
    is applied only when it selects something; [None] is the
    [IndexError] of a mask that does not fit [rms_db]. *)
Definition enrich_word (hz_to_note : Q -> option string)
    (pitch_contour : list pitch_point) (rms_times rms_db : list Q)
    (w : word_timing) : option enriched_word :=
  let mask := energy_mask rms_times (start w) (stop w) in
  energy ← (if existsb id mask
            then energies ← Py.mask_select mask rms_db;
                 Some (Some (Py.mean energies), Some (Py.np_max energies))
            else Some (None, None));
  let pitches := word_pitches pitch_contour (start w) (stop w) in
  let has_pitch := match pitches with [] => false | _ => true end in
  Some {| timing := w;
          avg_energy_db := energy.1;
          max_energy_db := energy.2;
          avg_pitch_hz := if has_pitch then Some (Py.mean pitches) else None;
          min_pitch_hz := if has_pitch then Some (Py.np_min pitches) else None;
          max_pitch_hz := if has_pitch then Some (Py.np_max pitches) else None;
          pitch_range_hz :=
            if has_pitch then Some (Py.np_max pitches - Py.np_min pitches)%Q else None;
          avg_note := if has_pitch then hz_to_note (Py.mean pitches) else None |}.

(** [enrich_word_timings_with_features] (lines 319-365). *)
Definition enrich_word_timings_with_features (hz_to_note : Q -> option string)
    (word_timings : list word_timing) (pitch_contour : list pitch_point)
    (rms_times rms_db : list Q) : option (list enriched_word) :=
  mapM (enrich_word hz_to_note pitch_contour rms_times rms_db) word_timings.

End Precise.

(** ** generate_all_spanish_segments.py: the chunker *)
Module Chunker.

(** *** The line ranges *)

(** One turn of [for line_num in range(4)] (lines 135-140): the loop
    state is the list of ranges built so far and [current_idx]. *)
Definition range_step (total_words words_per_line remainder : Z)
    (st : list (Z * Z) * Z) (line_num : Z) : list (Z * Z) * Z :=
  let '(line_word_ranges, current_idx) := st in
  let line_size := words_per_line + (if line_num <? remainder then 1 else 0) in
  let end_idx := Z.min (current_idx + line_size - 1) (total_words - 1) in
  (line_word_ranges ++ [(current_idx, end_idx)], end_idx + 1).

(** Lines 124-140: [total_words // 4], [total_words % 4] and the loop. *)
Definition line_word_ranges (total_words : Z) : list (Z * Z) :=
  let words_per_line := total_words / 4 in
  let remainder := total_words mod 4 in
  fst (fold_left (range_step total_words words_per_line remainder)
         (Py.range 0 4) ([], 0)).

(** *** The interpreter state the chunker works on *)

(** Python list objects are addressed by location: the caller's
    [target_lines] and the entries of the module-level lyrics tables are
    such objects. Files written and read are waveforms by path. *)
Abbreviation loc := nat (only parsing).

Record state : Type := {
  heap : gmap loc (list string);
  fs : gmap string Pydub.AudioSegment
}.

Definition set_fs (f : gmap string Pydub.AudioSegment) (st : state) : state :=
  {| heap := heap st; fs := f |}.

(** Lines 146-147: [while len(target_lines) < 4: target_lines.append("")]
    on the list object itself. Four turns are always enough (see
    [pad_in_place_done]). *)
Fixpoint pad_in_place (fuel : nat) (target_lines : loc) (h : gmap loc (list string))
    : gmap loc (list string) :=
  match fuel with
  | O => h
  | S fuel' =>
      match h !! target_lines with
      | Some l =>
          if decide (length l < 4)%nat
          then pad_in_place fuel' target_lines (<[target_lines := l ++ [""]]> h)
          else h
      | None => h
      end
  end.

Record chunk : Type := {
  line_number : Z;
  chunk_path : string;
  target_text : string;
  duration : Q;
  time_range : Q * Q;
  avg_pitch_hz : option Q;
  avg_energy_db : option Q;
  word_count : Z
}.

(** Lines 182-196: the values of the words in the range that pass the
    truthiness test, and their average when there is one. *)
Definition truthy_values (get : DualFrame.word_timing -> Py.field)
    (words : list DualFrame.word_timing) : list Q :=
  flat_map (fun w => if Py.truthy (get w)
                     then match get w with Py.Num q => [q] | _ => [] end
                     else []) words.

Definition average (values : list Q) : option Q :=
  match values with
  | [] => None
  | _ => Some (Py.mean values)
  end.

(** [padding_ms = 50] (line 165). *)
Definition padding_ms : Q := 50.

(** The body of the chunk loop (lines 157-216) for one range: the chunk
    record and the clip exported to [chunk_path]. [None] is an
    [IndexError] of one of the subscripts. *)
Definition make_chunk (audio : Pydub.AudioSegment)
    (word_timings : list DualFrame.word_timing) (target_lines : list string)
    (output_dir : string) (line_idx : nat) (start_word_idx end_word_idx : Z)
    : option (chunk * Pydub.AudioSegment) :=
  first_word ← Py.getitem word_timings start_word_idx;
  last_word ← Py.getitem word_timings end_word_idx;
  let start_time_relative := DualFrame.t_start (DualFrame.time_relative first_word) in
  let end_time_relative := DualFrame.t_end (DualFrame.time_relative last_word) in
  let start_time_ms := (start_time_relative * 1000)%Q in
  let end_time_ms := (end_time_relative * 1000)%Q in
  let chunk_start := Py.max 0 (start_time_ms - padding_ms) in
  let chunk_end := Py.min (inject_Z (Pydub.len audio)) (end_time_ms + padding_ms) in
  let chunk_audio := Pydub.slice audio chunk_start chunk_end in
  let path := Py.path_join output_dir
                ("chunk_line_" +:+ pretty (Z.of_nat line_idx + 1) +:+ ".wav") in
  let duration := ((chunk_end - chunk_start) / 1000)%Q in
  words ← mapM (Py.getitem word_timings) (Py.range start_word_idx (end_word_idx + 1));
  let pitch_values := truthy_values DualFrame.avg_pitch_hz words in
  let energy_values := truthy_values DualFrame.avg_energy_db words in
  line ← Py.getitem target_lines (Z.of_nat line_idx);
  Some ({| line_number := Z.of_nat line_idx + 1;
           chunk_path := path;
           target_text := line;
           duration := duration;
           time_range := (start_time_relative, end_time_relative);
           avg_pitch_hz := average pitch_values;
           avg_energy_db := average energy_values;
           word_count := end_word_idx - start_word_idx + 1 |},
        chunk_audio).

(** Lines 153-216: the loop over [enumerate(line_word_ranges)], left by
    [break] at the first range that starts past the last word. *)
Fixpoint chunk_loop (audio : Pydub.AudioSegment)
    (word_timings : list DualFrame.word_timing) (target_lines : list string)
    (output_dir : string) (ranges : list (nat * (Z * Z)))
    (chunks : list chunk) (files : gmap string Pydub.AudioSegment)
    : option (list chunk * gmap string Pydub.AudioSegment) :=
  match ranges with
  | [] => Some (chunks, files)
  | (line_idx, (start_word_idx, end_word_idx)) :: rest =>
      if Z.of_nat (length word_timings) <=? start_word_idx
      then Some (chunks, files)
      else
        '(c, clip) ← make_chunk audio word_timings target_lines output_dir
                       line_idx start_word_idx end_word_idx;
        chunk_loop audio word_timings target_lines output_dir rest
          (chunks ++ [c]) (<[chunk_path c := clip]> files)
  end.

(** [create_line_chunks_from_json] (lines 107-220). [analysis_data] is
    represented by its word list; [target_lines] is the caller's list
    object. After line 148 the local name is bound to a fresh slice that
    nothing else can reach, so it is carried as a value. *)
Definition create_line_chunks_from_json (segment_audio_path : string)
    (word_timings : list DualFrame.word_timing) (target_lines : loc)
    (output_dir : string) (st : state) : option (list chunk * state) :=
  audio ← fs st !! segment_audio_path;
  if decide (length word_timings = 0%nat) then Some ([], st)
  else
    let total_words := Z.of_nat (length word_timings) in
    let ranges := line_word_ranges total_words in
    lines ← heap st !! target_lines;
    let h := if decide (length lines ≠ 4%nat)
             then pad_in_place 4 target_lines (heap st) else heap st in
    padded ← h !! target_lines;
    let local_lines := if decide (length lines ≠ 4%nat) then take 4 padded else padded in
    '(chunks, files) ← chunk_loop audio word_timings local_lines output_dir
                         (Py.enumerate ranges) [] (fs st);
    Some (chunks, {| heap := h; fs := files |}).

(** *** Synthesis per chunk and the merge *)

(** What iterating [cosyvoice.inference_cross_lingual(...)] does: it
    yields all its outputs, or raises after some of them. *)
Inductive synthesis : Type :=
| Yields (outputs : list Pydub.AudioSegment)
| Raises (outputs_before : list Pydub.AudioSegment).

(** A synthesis failure: the engine raises, or it yields nothing. *)
Definition failed (r : synthesis) : bool :=
  match r with
  | Raises _ => true
  | Yields [] => true
  | Yields _ => false
  end.

(** The synthesis collaborator: [tts_text] and the reference prompt in,
    waveforms out. *)
Record CosyVoice : Type := {
  sample_rate : Z;
  inference_cross_lingual : string -> Pydub.AudioSegment -> synthesis
}.

(** [generate_target_chunk] (lines 222-285). Loading the reference clip
    is outside the [try]: a missing clip is an uncaught exception
    ([None]). The result of the function is [Some None] for Python's
    [None] and [Some (Some output_path)] for a saved file. *)
Definition generate_target_chunk (cosyvoice : CosyVoice) (chunk_info : chunk)
    (output_path : string) (files : gmap string Pydub.AudioSegment)
    : option (option string * gmap string Pydub.AudioSegment) :=
  ref_waveform ← files !! chunk_path chunk_info;
  match inference_cross_lingual cosyvoice (target_text chunk_info) ref_waveform with
  | Raises _ => Some (None, files)
  | Yields [] => Some (None, files)
  | Yields audio_chunks =>
      let audio := concat audio_chunks in
      Some (Some output_path, <[output_path := audio]> files)
  end.

(** [chunk_path and os.path.exists(chunk_path)] *)
Definition usable (files : gmap string Pydub.AudioSegment) (chunk_path : option string)
    : option Pydub.AudioSegment :=
  match chunk_path with
  | Some p => if decide (p = "") then None else files !! p
  | None => None
  end.

(** [merge_target_chunks] (lines 287-307): it has no failure path. *)
Definition merge_target_chunks (chunk_outputs : list (option string))
    (output_path : string) (files : gmap string Pydub.AudioSegment)
    : string * gmap string Pydub.AudioSegment :=
  let merged_audio :=
    fold_left (fun merged chunk_path =>
                 match usable files chunk_path with
                 | Some chunk => Pydub.append merged chunk
                 | None => merged
                 end) chunk_outputs Pydub.empty in
  (output_path, <[output_path := merged_audio]> files).

(** Lines 368-372 of [process_segment]: one synthesis call per chunk, the
    result appended whatever it is. *)
Fixpoint generate_chunk_outputs (cosyvoice : CosyVoice) (output_dir language part_name : string)
    (chunks : list chunk) (chunk_outputs : list (option string))
    (files : gmap string Pydub.AudioSegment)
    : option (list (option string) * gmap string Pydub.AudioSegment) :=
  match chunks with
  | [] => Some (chunk_outputs, files)
  | chunk_info :: rest =>
      let output_path :=
        Py.path_join output_dir
          (language +:+ "_" +:+ part_name +:+ "_line_"
             +:+ pretty (line_number chunk_info) +:+ ".wav") in
      '(result, files') ← generate_target_chunk cosyvoice chunk_info output_path files;
      generate_chunk_outputs cosyvoice output_dir language part_name rest
        (chunk_outputs ++ [result]) files'
  end.

(** [process_segment] from line 351 on. The discovery of the segment's
    waveform and analysis file (lines 317-349) is represented by what it
    finds: [segment_audio] and the word list of the analysis. *)
Definition process_segment (segment_audio : string)
    (word_timings : list DualFrame.word_timing) (target_lines : loc)
    (part_name : string) (cosyvoice : CosyVoice) (workspace_root language : string)
    (st : state) : option (string * state) :=
  let chunks_dir :=
    Py.path_join (Py.path_join (Py.path_join workspace_root "data") "temp_chunks")
      (language +:+ "_" +:+ part_name) in
  '(chunks, st1) ← create_line_chunks_from_json segment_audio word_timings
                     target_lines chunks_dir st;
  let output_dir := Py.path_join (Py.path_join workspace_root "data") "generated_vocals" in
  '(chunk_outputs, files) ← generate_chunk_outputs cosyvoice output_dir language
                              part_name chunks [] (fs st1);
  let final_output :=
    Py.path_join output_dir (language +:+ "_" +:+ part_name +:+ "_merged.wav") in
  let '(out, files') := merge_target_chunks chunk_outputs final_output files in
  Some (out, set_fs files' st1).

(** The module-level lyrics tables ([SPANISH_LYRICS] and its siblings)
    map a part name to a list object; [main] hands that very object to
    [process_segment] as [target_lines]. *)
Definition lyrics_entry (table : gmap string loc) (part_name : string)
    (h : gmap loc (list string)) : option (list string) :=
  l ← table !! part_name; h !! l.

End Chunker.

(** ** generate_spanish_segment.py: chunks from fixed ranges *)
Module SpanishSegment.

Definition spanish_lines : list string :=
  [ "Toma mi mano, ven aquí";
    "Un secreto te voy a contar";
    "Con Giramila ven a bailar";
    "En un castillo ven a jugar" ].

Definition line_word_ranges : list (Z * Z) :=
  [(0, 4); (5, 9); (10, 13); (14, 17)].

Record chunk : Type := {
  line_number : Z;
  chunk_path : string;
  spanish_text : string;
  duration : Q;
  time_range : Q * Q
}.

(** [padding_ms = 100] (line 62). *)
Definition padding_ms : Q := 100.

(** The loop body (lines 57-84). *)
Definition make_chunk (audio : Pydub.AudioSegment)
    (word_timings : list DualFrame.word_timing) (output_dir : string)
    (line_idx : nat) (start_word_idx end_word_idx : Z)
    : option (chunk * Pydub.AudioSegment) :=
  first_word ← Py.getitem word_timings start_word_idx;
  last_word ← Py.getitem word_timings end_word_idx;
  let start_time_ms := (DualFrame.t_start (DualFrame.time_relative first_word) * 1000)%Q in
  let end_time_ms := (DualFrame.t_end (DualFrame.time_relative last_word) * 1000)%Q in
  let chunk_start := Py.max 0 (start_time_ms - padding_ms) in
  let chunk_end := Py.min (inject_Z (Pydub.len audio)) (end_time_ms + padding_ms) in
  let chunk_audio := Pydub.slice audio chunk_start chunk_end in
  let path := Py.path_join output_dir
                ("chunk_line_" +:+ pretty (Z.of_nat line_idx + 1) +:+ ".wav") in
  let duration := ((chunk_end - chunk_start) / 1000)%Q in
  _ ← mapM (Py.getitem word_timings) (Py.range start_word_idx (end_word_idx + 1));
  line ← Py.getitem spanish_lines (Z.of_nat line_idx);
  Some ({| line_number := Z.of_nat line_idx + 1;
           chunk_path := path;
           spanish_text := line;
           duration := duration;
           time_range := ((start_time_ms / 1000)%Q, (end_time_ms / 1000)%Q) |},
        chunk_audio).

Fixpoint chunk_loop (audio : Pydub.AudioSegment)
    (word_timings : list DualFrame.word_timing) (output_dir : string)
    (ranges : list (nat * (Z * Z)))
    (chunks : list chunk) (files : gmap string Pydub.AudioSegment)
    : option (list chunk * gmap string Pydub.AudioSegment) :=
  match ranges with
  | [] => Some (chunks, files)
  | (line_idx, (start_word_idx, end_word_idx)) :: rest =>
      '(c, clip) ← make_chunk audio word_timings output_dir
                     line_idx start_word_idx end_word_idx;
      chunk_loop audio word_timings output_dir rest
        (chunks ++ [c]) (<[chunk_path c := clip]> files)
  end.

(** [create_line_chunks] (lines 20-86); fewer than 18 words is an
    [IndexError]. *)
Definition create_line_chunks (segment_audio_path : string)
    (word_timings : list DualFrame.word_timing) (output_dir : string)
    (files : gmap string Pydub.AudioSegment)
    : option (list chunk * gmap string Pydub.AudioSegment) :=
  audio ← files !! segment_audio_path;
  chunk_loop audio word_timings output_dir (Py.enumerate line_word_ranges) [] files.

End SpanishSegment.

(** ** generate_from_analysis.py: duration matching per segment *)
Module FromAnalysis.




End FromAnalysis.

(** ** merge_spanish_timeline.py: the timeline assembler *)
Module Timeline.

(** One entry of [segment_info] (lines 91-98). *)
Record segment : Type := {
  part_name : string;
  actual_part : string;
  start_time : Q;
  end_time : Q;
  duration : Q;
  vocal_file : string
}.

(** [segment_info.sort(key=start_time)]: a stable sort. *)
Fixpoint insert_by_start (x : segment) (l : list segment) : list segment :=
  match l with
  | [] => [x]
  | y :: l' =>
      if Qlt_le_dec (start_time x) (start_time y) then x :: y :: l'
      else y :: insert_by_start x l'
  end.

Definition sort_by_start (l : list segment) : list segment :=
  fold_left (fun sorted x => insert_by_start x sorted) l [].

(** What lines 133-142 decide for a clip. *)
Inductive action : Type :=
| Keep
| Speedup (speed_factor : Q).

Definition duration_action (vocal_duration seg_duration : Q) : action :=
  let time_diff := Qabs (vocal_duration - seg_duration) in
  if Qlt_le_dec 1 time_diff
  then if Qlt_le_dec seg_duration vocal_duration
       then Speedup (vocal_duration / seg_duration)
       else Keep
  else Keep.

(** One turn of the overlay loop (lines 122-150). [speedup] is pydub's
    effect of that name, which can raise; so can a division by a zero
    target duration and the load of a missing file. *)
Definition overlay_step (speedup : Pydub.AudioSegment -> Q -> option Pydub.AudioSegment)
    (files : gmap string Pydub.AudioSegment) (base_track : Pydub.AudioSegment)
    (seg : segment) : option Pydub.AudioSegment :=
  vocal_audio ← files !! vocal_file seg;
  let vocal_duration := (inject_Z (Pydub.len vocal_audio) / 1000)%Q in
  vocal_audio' ←
    match duration_action vocal_duration (duration seg) with
    | Keep => Some vocal_audio
    | Speedup speed_factor =>
        if Qeq_bool (duration seg) 0 then None else speedup vocal_audio speed_factor
    end;
  let overlay_position_ms := Py.int_of (start_time seg * 1000) in
  Some (Pydub.overlay base_track vocal_audio' overlay_position_ms).

Fixpoint overlay_all (speedup : Pydub.AudioSegment -> Q -> option Pydub.AudioSegment)
    (files : gmap string Pydub.AudioSegment) (base_track : Pydub.AudioSegment)
    (segs : list segment) : option Pydub.AudioSegment :=
  match segs with
  | [] => Some base_track
  | seg :: rest =>
      base_track' ← overlay_step speedup files base_track seg;
      overlay_all speedup files base_track' rest
  end.

(** [max(seg['end_time'] for seg in segment_info)] *)
Definition max_end_time (segs : list segment) : Q :=
  match segs with
  | [] => 0%Q
  | seg :: rest => fold_left Py.max (map end_time rest) (end_time seg)
  end.

(** The silent base track of lines 112-119. *)
Definition base_track (segs : list segment) : Pydub.AudioSegment :=
  Pydub.silent (Py.int_of (max_end_time segs * 1000)).

(** [merge_vocals_to_timeline] from line 100 on; the discovery of the
    segment folders (lines 30-98) is represented by the [segment_info]
    list it builds. The result is [Some None] for the early [return
    None]. *)
Definition merge_vocals_to_timeline
    (speedup : Pydub.AudioSegment -> Q -> option Pydub.AudioSegment)
    (workspace_root language : string) (segment_info : list segment)
    (files : gmap string Pydub.AudioSegment)
    : option (option string * gmap string Pydub.AudioSegment) :=
  let segment_info := sort_by_start segment_info in
  match segment_info with
  | [] => Some (None, files)
  | _ =>
      track ← overlay_all speedup files (base_track segment_info) segment_info;
      let output_path :=
        Py.path_join (Py.path_join (Py.path_join workspace_root "data") "generated_vocals")
          (language +:+ "_full_vocals_merged.wav") in
      Some (Some output_path, <[output_path := track]> files)
  end.

End Timeline.

(** ** trim_segment.py *)
Module Trim.

(** [pathlib.Path] by its parent directory, stem and suffix. *)
Record Path : Type := {
  parent : string;
  stem : string;
  suffix : string
}.

#[global] Instance Path_eq_dec : EqDecision Path.
Proof. solve_decision. Defined.

#[global] Instance Path_countable : Countable Path.
Proof.
  refine (inj_countable' (fun p => (parent p, stem p, suffix p))
            (fun t => {| parent := t.1.1; stem := t.1.2; suffix := t.2 |}) _).
  intros []. reflexivity.
Defined.

(** One entry of [word_segments] ([create_word_segments]). *)
Record word_segment : Type := {
  ws_index : Z;
  ws_word : string;
  ws_file : string;
  ws_start : Q;
  ws_end : Q;
  ws_duration : Q
}.

(** The nested dicts of an analysis report. *)
Record segment_range : Type := {
  sr_start : Q;
  sr_end : Q;
  sr_duration : Q
}.

Record audio_analysis : Type := {
  duration : Q;
  sample_rate : Z;
  tempo : Q;
  beat_times : list Q;
  onset_times : list Q;
  pitch_contour : list Precise.pitch_point;
  energy_contour : list (Q * Q);
  gaps : list segment_range
}.

Record transcription : Type := {
  full_text : string;
  word_timings : list Precise.enriched_word;
  segments : list (string * Q * Q);
  language : string
}.

Record summary : Type := {
  total_words : Z;
  total_syllables_estimate : Z;
  tempo_bpm : Q;
  silent_gaps : Z
}.

(** The report as [json.dump] writes it and [json.load] reads it. *)
Record document : Type := {
  d_run_id : string;
  d_source_file : string;
  d_segment_file : Path;
  d_segment_range : segment_range;
  d_audio_analysis : audio_analysis;
  d_transcription : transcription;
  d_word_segments : list word_segment;
  d_summary : summary
}.

(** In memory the nested dicts are objects of their own: the top-level
    dict holds references to them, and [dict.copy()] copies references. *)
Abbreviation loc := nat (only parsing).

Inductive object : Type :=
| SegmentRange (r : segment_range)
| AudioAnalysis (a : audio_analysis)
| Transcription (t : transcription)
| Summary (s : summary).

Record report : Type := {
  run_id : string;
  source_file : string;
  segment_file : Path;
  r_segment_range : loc;
  r_audio_analysis : loc;
  r_transcription : loc;
  word_segments : list word_segment;
  r_summary : loc
}.

Record state : Type := {
  json_files : gmap Path document;
  wav_files : gmap Path Pydub.AudioSegment;
  heap : gmap loc object
}.

Definition alloc (o : object) (h : gmap loc object) : loc * gmap loc object :=
  let l := fresh (dom h) in (l, <[l := o]> h).

(** [json.load]: every nested dict becomes a new object. *)
Definition load (d : document) (h : gmap loc object) : report * gmap loc object :=
  let '(l1, h1) := alloc (SegmentRange (d_segment_range d)) h in
  let '(l2, h2) := alloc (AudioAnalysis (d_audio_analysis d)) h1 in
  let '(l3, h3) := alloc (Transcription (d_transcription d)) h2 in
  let '(l4, h4) := alloc (Summary (d_summary d)) h3 in
  ({| run_id := d_run_id d;
      source_file := d_source_file d;
      segment_file := d_segment_file d;
      r_segment_range := l1;
      r_audio_analysis := l2;
      r_transcription := l3;
      word_segments := d_word_segments d;
      r_summary := l4 |}, h4).

Definition get_segment_range (h : gmap loc object) (l : loc) : option segment_range :=
  match h !! l with Some (SegmentRange r) => Some r | _ => None end.
Definition get_audio_analysis (h : gmap loc object) (l : loc) : option audio_analysis :=
  match h !! l with Some (AudioAnalysis a) => Some a | _ => None end.
Definition get_transcription (h : gmap loc object) (l : loc) : option transcription :=
  match h !! l with Some (Transcription t) => Some t | _ => None end.
Definition get_summary (h : gmap loc object) (l : loc) : option summary :=
  match h !! l with Some (Summary s) => Some s | _ => None end.

(** [json.dump]: the dict with every reference followed. *)
Definition dump (r : report) (h : gmap loc object) : option document :=
  sr ← get_segment_range h (r_segment_range r);
  aa ← get_audio_analysis h (r_audio_analysis r);
  tr ← get_transcription h (r_transcription r);
  su ← get_summary h (r_summary r);
  Some {| d_run_id := run_id r;
          d_source_file := source_file r;
          d_segment_file := segment_file r;
          d_segment_range := sr;
          d_audio_analysis := aa;
          d_transcription := tr;
          d_word_segments := word_segments r;
          d_summary := su |}.

Definition word_of (w : Precise.enriched_word) : string := Precise.word (Precise.timing w).
Definition index_of (w : Precise.enriched_word) : Z := Precise.index (Precise.timing w).

(** Lines 29-32: the first word equal to the target up to case;
    [lower] is [str.lower]. *)
Definition find_target (lower : string -> string) (target_word : string)
    (word_timings : list Precise.enriched_word) : option Precise.enriched_word :=
  List.find (fun w => bool_decide (lower (word_of w) = lower target_word)) word_timings.

(** Lines 71-89: the filtered lists, [analysis.copy()] and the
    assignments through [updated_analysis]. The two assignments to
    top-level keys change the copy; the others go through a reference
    that the copy shares with [analysis]. *)
Definition trim_update (analysis : report) (trimmed_path : Path)
    (target_word_data : Precise.enriched_word) (h : gmap loc object)
    : option (report * gmap loc object) :=
  let trim_end_time := Precise.stop (Precise.timing target_word_data) in
  let target_index := index_of target_word_data in
  tr ← get_transcription h (r_transcription analysis);
  let filtered_words :=
    List.filter (fun w => index_of w <=? target_index) (word_timings tr) in
  let filtered_word_segments :=
    List.filter (fun w => ws_index w <=? target_index) (word_segments analysis) in
  let updated_analysis := analysis in
  let updated_analysis :=
    {| run_id := run_id updated_analysis;
       source_file := source_file updated_analysis;
       segment_file := trimmed_path;
       r_segment_range := r_segment_range updated_analysis;
       r_audio_analysis := r_audio_analysis updated_analysis;
       r_transcription := r_transcription updated_analysis;
       word_segments := word_segments updated_analysis;
       r_summary := r_summary updated_analysis |} in
  sr ← get_segment_range h (r_segment_range updated_analysis);
  sr0 ← get_segment_range h (r_segment_range analysis);
  let h := <[r_segment_range updated_analysis :=
               SegmentRange {| sr_start := sr_start sr;
                               sr_end := (sr_start sr0 + trim_end_time)%Q;
                               sr_duration := sr_duration sr |}]> h in
  sr ← get_segment_range h (r_segment_range updated_analysis);
  let h := <[r_segment_range updated_analysis :=
               SegmentRange {| sr_start := sr_start sr;
                               sr_end := sr_end sr;
                               sr_duration := trim_end_time |}]> h in
  aa ← get_audio_analysis h (r_audio_analysis updated_analysis);
  let h := <[r_audio_analysis updated_analysis :=
               AudioAnalysis {| duration := trim_end_time;
                                sample_rate := sample_rate aa;
                                tempo := tempo aa;
                                beat_times := beat_times aa;
                                onset_times := onset_times aa;
                                pitch_contour := pitch_contour aa;
                                energy_contour := energy_contour aa;
                                gaps := gaps aa |}]> h in
  tr ← get_transcription h (r_transcription updated_analysis);
  let h := <[r_transcription updated_analysis :=
               Transcription {| full_text := full_text tr;
                                word_timings := filtered_words;
                                segments := segments tr;
                                language := language tr |}]> h in
  let updated_analysis :=
    {| run_id := run_id updated_analysis;
       source_file := source_file updated_analysis;
       segment_file := segment_file updated_analysis;
       r_segment_range := r_segment_range updated_analysis;
       r_audio_analysis := r_audio_analysis updated_analysis;
       r_transcription := r_transcription updated_analysis;
       word_segments := filtered_word_segments;
       r_summary := r_summary updated_analysis |} in
  su ← get_summary h (r_summary updated_analysis);
  let h := <[r_summary updated_analysis :=
               Summary {| total_words := Z.of_nat (length filtered_words);
                          total_syllables_estimate := total_syllables_estimate su;
                          tempo_bpm := tempo_bpm su;
                          silent_gaps := silent_gaps su |}]> h in
  let updated_text := String.concat " " (map word_of filtered_words) in
  tr ← get_transcription h (r_transcription updated_analysis);
  let h := <[r_transcription updated_analysis :=
               Transcription {| full_text := updated_text;
                                word_timings := word_timings tr;
                                segments := segments tr;
                                language := language tr |}]> h in
  Some (updated_analysis, h).

Definition report_path (analysis_folder : string) : Path :=
  {| parent := analysis_folder; stem := "analysis_report"; suffix := ".json" |}.
Definition updated_report_path (analysis_folder : string) : Path :=
  {| parent := analysis_folder; stem := "analysis_report_trimmed"; suffix := ".json" |}.
Definition trimmed_wav_path (analysis_folder : string) (segment_file : Path) : Path :=
  {| parent := analysis_folder; stem := stem segment_file +:+ "_trimmed"; suffix := ".wav" |}.

(** [trim_segment_to_word] (lines 6-110). [Some (None, _)] is one of the
    early [return]s, [Some (Some trimmed_path, _)] the normal end, [None]
    an uncaught exception. *)
Definition trim_segment_to_word (lower : string -> string) (analysis_folder : string)
    (target_word : string) (st : state) : option (option Path * state) :=
  match json_files st !! report_path analysis_folder with
  | None => Some (None, st)
  | Some d =>
      let '(analysis, h) := load d (heap st) in
      tr ← get_transcription h (r_transcription analysis);
      match find_target lower target_word (word_timings tr) with
      | None => Some (None, {| json_files := json_files st;
                               wav_files := wav_files st; heap := h |})
      | Some target_word_data =>
          match wav_files st !! segment_file analysis with
          | None => Some (None, {| json_files := json_files st;
                                   wav_files := wav_files st; heap := h |})
          | Some audio =>
              let trim_end_time := Precise.stop (Precise.timing target_word_data) in
              let trimmed_audio :=
                Pydub.slice audio 0 (inject_Z (Py.int_of (trim_end_time * 1000))) in
              let trimmed_path := trimmed_wav_path analysis_folder (segment_file analysis) in
              let wavs := <[trimmed_path := trimmed_audio]> (wav_files st) in
              '(updated_analysis, h') ← trim_update analysis trimmed_path target_word_data h;
              d' ← dump updated_analysis h';
              Some (Some trimmed_path,
                    {| json_files := <[updated_report_path analysis_folder := d']> (json_files st);
                       wav_files := wavs;
                       heap := h' |})
          end
      end
  end.

End Trim.

(** ** The specification's wording, for comparison with the code *)
Module Spec.

(** Section 4.3: the values of "every sample whose time falls within
    [start, end] inclusive", in the order of the series. A sample is
    left out when its time is before [lo] or after [hi]. *)
Fixpoint samples_within (lo hi : Q) (samples : list (Q * Q)) : list Q :=
  match samples with
  | [] => []
  | (t, v) :: rest =>
      if Qlt_le_dec t lo then samples_within lo hi rest
      else if Qlt_le_dec hi t then samples_within lo hi rest
      else v :: samples_within lo hi rest
  end.



End Spec.

(** ** A small analysis report, for the examples *)
Module Sample.

Definition word (i : Z) (text : string) (a b : Q) : Precise.enriched_word :=
  {| Precise.timing :=
       {| Precise.index := i; Precise.word := text; Precise.start := a;
          Precise.stop := b; Precise.duration := (b - a)%Q;
          Precise.onset_offset := None |};
     Precise.avg_energy_db := None;
     Precise.max_energy_db := None;
     Precise.avg_pitch_hz := None;
     Precise.min_pitch_hz := None;
     Precise.max_pitch_hz := None;
     Precise.pitch_range_hz := None;
     Precise.avg_note := None |}.

Definition segment_wav : Trim.Path :=
  {| Trim.parent := "run"; Trim.stem := "segment_5.0-25.0s"; Trim.suffix := ".wav" |}.

(** Three words over 20 s of audio, with pitch samples at 0.5 s and 5 s. *)
Definition report : Trim.document :=
  {| Trim.d_run_id := "run";
     Trim.d_source_file := "vocals.wav";
     Trim.d_segment_file := segment_wav;
     Trim.d_segment_range :=
       {| Trim.sr_start := 5; Trim.sr_end := 25; Trim.sr_duration := 20 |};
     Trim.d_audio_analysis :=
       {| Trim.duration := 20;
          Trim.sample_rate := 16000;
          Trim.tempo := 120;
          Trim.beat_times := [];
          Trim.onset_times := [];
          Trim.pitch_contour :=
            [ {| Precise.time := 0.5; Precise.pitch_hz := 220 |};
              {| Precise.time := 5; Precise.pitch_hz := 330 |} ];
          Trim.energy_contour := [];
          Trim.gaps := [] |};
     Trim.d_transcription :=
       {| Trim.full_text := "ser feliz ya";
          Trim.word_timings :=
            [ word 0 "ser" 0 0.4; word 1 "feliz" 0.5 1; word 2 "ya" 4.8 5.2 ];
          Trim.segments := [];
          Trim.language := "portuguese" |};
     Trim.d_word_segments := [];
     Trim.d_summary :=
       {| Trim.total_words := 3;
          Trim.total_syllables_estimate := 4;
          Trim.tempo_bpm := 120;
          Trim.silent_gaps := 0 |} |}.


End Sample.

(** ** More Python primitives: strings and formatting *)
Module PyStr.

(** [s.replace(old, new)] for one-character [old] and [new]. *)
Fixpoint replace_char (old new : ascii) (s : string) : string :=
  match s with
  | EmptyString => EmptyString
  | String c s' => String (if Ascii.eqb c old then new else c) (replace_char old new s')
  end.

(** [f"{i:0{width}d}"] for [i >= 0]: the decimal digits, with zeros in
    front up to [width] characters. *)
Fixpoint zeros (n : nat) : string :=
  match n with
  | O => EmptyString
  | S n' => String "0" (zeros n')
  end.

Definition format_0d (width : nat) (i : nat) : string :=
  let digits := pretty i in
  zeros (width - String.length digits) +:+ digits.

(** [min(l, key=key)]: the first element with the smallest key;
    [None] is the [ValueError] of an empty sequence. *)
Definition min_by (key : Q -> Q) (l : list Q) : option Q :=
  match l with
  | [] => None
  | x :: r =>
      Some (fold_left (fun best o => if Qlt_le_dec (key o) (key best) then o else best) r x)
  end.

(** The number that the decimal digits at the front of a string stand
    for: what [int] reads back from a formatted index. *)
Definition digit_value (c : ascii) : option N :=
  let n := N_of_ascii c in
  if (48 <=? n)%N && (n <=? 57)%N then Some (n - 48)%N else None.

Fixpoint read_decimal (acc : N) (s : string) : N :=
  match s with
  | EmptyString => acc
  | String c s' =>
      match digit_value c with
      | Some d => read_decimal (acc * 10 + d) s'
      | None => acc
      end
  end.

End PyStr.

(** ** analyze_vocals_precise.py: region, gaps, notes, words, report *)
Module PreciseAnalysis.

(** [librosa.frames_to_time(frame, sr=sr, hop_length=hop_length)]:
    [frame * hop_length / sr]. *)
Definition frames_to_time (sr hop_length : Z) (frame : Z) : Q :=
  (inject_Z (frame * hop_length) / inject_Z sr)%Q.

(** [np.where(energy > threshold)[0]] *)
Definition active_frames (energy : list Q) (threshold : Q) : list Z :=
  map (fun p => Z.of_nat p.1)
    (List.filter (fun p => if Qlt_le_dec threshold p.2 then true else false)
       (Py.enumerate energy)).

(** [auto_detect_vocal_region] (lines 13-55) from what librosa and numpy
    hand back: the RMS [energy] of the frames (hop 512 at 16 kHz), its
    70th percentile [threshold], and the number [n_samples] of samples,
    so that [get_duration] is [n_samples / 16000]. *)
Definition auto_detect_vocal_region (energy : list Q) (threshold : Q) (n_samples : Z)
    (min_duration max_duration : Q) : Q * Q :=
  let sr := 16000 in
  match active_frames energy threshold with
  | [] => (5, 25)%Q
  | first :: rest =>
      let frame_times := map (frames_to_time sr 512) (first :: rest) in
      let start_time := frames_to_time sr 512 first in
      let end_time :=
        Py.min (start_time + max_duration) (List.last frame_times start_time) in
      let end_time :=
        if Qlt_le_dec (end_time - start_time) min_duration
        then Py.min (start_time + min_duration) (inject_Z n_samples / inject_Z sr)
        else end_time in
      (start_time, end_time)
  end.

(** [hz_to_note] (lines 75-83); [librosa_hz_to_note] is the library's
    function, [None] when it raises. *)
Definition hz_to_note (librosa_hz_to_note : Q -> option string) (freq : Q)
    : option string :=
  if Qle_bool freq 0 || negb (Qle_bool freq 8000) then None
  else librosa_hz_to_note freq.

(** *** Silence gaps (lines 183-204) *)

Record gap_state : Type := {
  gaps : list Trim.segment_range;
  in_gap : bool;
  gap_start : Q
}.

(** The loop over [enumerate(silence_mask)]. *)
Fixpoint gap_loop (rms_times : list Q) (mask : list (nat * bool)) (st : gap_state)
    : option gap_state :=
  match mask with
  | [] => Some st
  | (i, is_silent) :: rest =>
      if is_silent && negb (in_gap st)
      then
        t ← Py.getitem rms_times (Z.of_nat i);
        gap_loop rms_times rest {| gaps := gaps st; in_gap := true; gap_start := t |}
      else if negb is_silent && in_gap st
      then
        gap_end ← Py.getitem rms_times (Z.of_nat i);
        let gaps' :=
          if Qlt_le_dec 0.15 (gap_end - gap_start st)
          then gaps st ++ [ {| Trim.sr_start := gap_start st;
                               Trim.sr_end := gap_end;
                               Trim.sr_duration := (gap_end - gap_start st)%Q |} ]
          else gaps st in
        gap_loop rms_times rest
          {| gaps := gaps'; in_gap := false; gap_start := gap_start st |}
      else gap_loop rms_times rest st
  end.

(** Lines 171-172 and 185-204 for the RMS vector [rms] of a signal at
    sample rate [sr]; [threshold] is [np.percentile(rms, 15)]. *)
Definition detect_gaps (sr : Z) (rms : list Q) (threshold : Q)
    : option (list Trim.segment_range) :=
  let hop_length := 512 in
  let rms_times :=
    map (frames_to_time sr hop_length) (Py.range 0 (Z.of_nat (length rms))) in
  let silence_mask := map (fun x => if Qlt_le_dec x threshold then true else false) rms in
  st ← gap_loop rms_times (Py.enumerate silence_mask)
         {| gaps := []; in_gap := false; gap_start := 0 |};
  Some (gaps st).

(** *** Notes (lines 133-154 and 220-223) *)







(** *** Word timings (lines 245-316) *)

(** What the transcription call returns: [words] and [segments] are
    [None] when the attribute is missing. *)
Record whisper_transcription : Type := {
  text : string;
  words : option (list SpecificSegment.whisper_word);
  segments : option (list (string * Q * Q));
  language : option string
}.

Record transcription_data : Type := {
  full_text : string;
  word_timings : list Precise.word_timing;
  t_segments : list (string * Q * Q);
  t_language : string
}.

(** The body of the word loop (lines 274-297). *)
Definition word_data (onset_times : option (list Q)) (i : nat)
    (word : SpecificSegment.whisper_word) : Precise.word_timing :=
  let start := SpecificSegment.w_start word in
  let duration := (SpecificSegment.w_end word - start)%Q in
  {| Precise.index := Z.of_nat i;
     Precise.word := Py.strip (SpecificSegment.w_word word);
     Precise.start := start;
     Precise.stop := SpecificSegment.w_end word;
     Precise.duration := duration;
     Precise.onset_offset :=
       match onset_times with
       | Some (o :: onsets) =>
           nearest_onset ← PyStr.min_by (fun o => Qabs (o - start)) (o :: onsets);
           Some (start - nearest_onset)%Q
       | _ => None
       end |}.

(** [transcribe_with_word_timestamps] after the transcription call. *)
Definition transcribe_with_word_timestamps (transcription : whisper_transcription)
    (onset_times : option (list Q)) : transcription_data :=
  {| full_text := text transcription;
     word_timings :=
       match words transcription with
       | Some ws => imap (word_data onset_times) ws
       | None => []
       end;
     t_segments :=
       match segments transcription with
       | Some segs => map (fun seg => (Py.strip seg.1.1, seg.1.2, seg.2)) segs
       | None => []
       end;
     t_language := default "unknown" (language transcription) |}.

(** *** Word clips (lines 368-423) *)

Record word_file_info : Type := {
  index : Z;
  word : string;
  file : string;
  filepath : string;
  start : Q;
  stop : Q;
  duration : Q;
  avg_pitch_hz : option Q;
  avg_note : option string;
  avg_energy_db : option Q
}.

Definition safe_word (word : string) : string :=
  PyStr.replace_char " " "_"
    (PyStr.replace_char "\" "_" (PyStr.replace_char "/" "_" word)).

(** One turn of the loop: the record and the clip exported to
    [filepath]. The word carries its enrichment keys, so both [in] tests
    of lines 411 and 414 hold. *)
Definition word_segment (audio : Pydub.AudioSegment) (output_dir : string)
    (i : nat) (word_info : Precise.enriched_word)
    : word_file_info * Pydub.AudioSegment :=
  let w := Precise.timing word_info in
  let start_ms := Py.int_of (Precise.start w * 1000) in
  let end_ms := Py.int_of (Precise.stop w * 1000) in
  let padding := 50 in
  let start_ms := Z.max 0 (start_ms - padding) in
  let end_ms := Z.min (Pydub.len audio) (end_ms + padding) in
  let clip := Pydub.slice audio (inject_Z start_ms) (inject_Z end_ms) in
  let filename :=
    "word_" +:+ PyStr.format_0d 3 i +:+ "_" +:+ safe_word (Precise.word w) +:+ ".wav" in
  ({| index := Z.of_nat i;
      word := Precise.word w;
      file := filename;
      filepath := Py.path_join output_dir filename;
      start := Precise.start w;
      stop := Precise.stop w;
      duration := Precise.duration w;
      avg_pitch_hz := Precise.avg_pitch_hz word_info;
      avg_note := Precise.avg_note word_info;
      avg_energy_db := Precise.avg_energy_db word_info |}, clip).

(** [create_word_segments]; [None] is the error of a missing
    [audio_path]. *)
Definition create_word_segments (audio_path : string)
    (word_timings : list Precise.enriched_word) (output_dir : string)
    (files : gmap string Pydub.AudioSegment)
    : option (list word_file_info * gmap string Pydub.AudioSegment) :=
  audio ← files !! audio_path;
  Some (fold_left
          (fun acc x =>
             let '(info, clip) := word_segment audio output_dir x.1 x.2 in
             (acc.1 ++ [info], <[filepath info := clip]> acc.2))
          (Py.enumerate word_timings) ([], files)).

(** *** The report of [main] (lines 617-708) *)

(** [str(path)] *)
Definition path_str (p : Trim.Path) : string :=
  Py.path_join (Trim.parent p) (Trim.stem p +:+ Trim.suffix p).

(** An entry of [word_segments] with the keys the report record keeps. *)
Definition as_word_segment (info : word_file_info) : Trim.word_segment :=
  {| Trim.ws_index := index info;
     Trim.ws_word := word info;
     Trim.ws_file := file info;
     Trim.ws_start := start info;
     Trim.ws_end := stop info;
     Trim.ws_duration := duration info |}.

(** Steps 3 to 7 of [main]: transcription, enrichment, word clips and
    the [complete_analysis] dict that is saved as the report, with the
    keys that [Trim.document] keeps (the report also names the
    visualisations, and its summary repeats the language and the first
    five dominant notes). [audio_analysis] is what
    [analyze_audio_detailed] returned for the segment, [rms_times] and
    [rms_db] what librosa gives for it. [None] is an uncaught
    exception. *)
Definition main_report (librosa_hz_to_note : Q -> option string)
    (timestamp vocals_file run_folder : string) (segment_output : Trim.Path)
    (start_time end_time : Q) (audio_analysis : Trim.audio_analysis)
    (rms_times rms_db : list Q) (transcription : whisper_transcription)
    (files : gmap string Pydub.AudioSegment)
    : option (Trim.document * gmap string Pydub.AudioSegment) :=
  let transcription_data :=
    transcribe_with_word_timestamps transcription
      (Some (Trim.onset_times audio_analysis)) in
  enriched_word_timings ←
    Precise.enrich_word_timings_with_features (hz_to_note librosa_hz_to_note)
      (word_timings transcription_data) (Trim.pitch_contour audio_analysis)
      rms_times rms_db;
  '(word_files, files') ←
    create_word_segments (path_str segment_output) enriched_word_timings
      (Py.path_join run_folder "word_segments") files;
  Some ({| Trim.d_run_id := timestamp;
           Trim.d_source_file := vocals_file;
           Trim.d_segment_file := segment_output;
           Trim.d_segment_range :=
             {| Trim.sr_start := start_time;
                Trim.sr_end := end_time;
                Trim.sr_duration := (end_time - start_time)%Q |};
           Trim.d_audio_analysis := audio_analysis;
           Trim.d_transcription :=
             {| Trim.full_text := full_text transcription_data;
                Trim.word_timings := enriched_word_timings;
                Trim.segments := t_segments transcription_data;
                Trim.language := t_language transcription_data |};
           Trim.d_word_segments := map as_word_segment word_files;
           Trim.d_summary :=
             {| Trim.total_words := Z.of_nat (length enriched_word_timings);
                Trim.total_syllables_estimate :=
                  Z.of_nat (length (Trim.onset_times audio_analysis));
                Trim.tempo_bpm := Trim.tempo audio_analysis;
                Trim.silent_gaps := Z.of_nat (length (Trim.gaps audio_analysis)) |} |},
        files').

End PreciseAnalysis.

(** ** generate_from_analysis.py: the merge of the generated segments *)
Module MergeFromAnalysis.

(** An entry of [generated_segments] as the merge loop reads it. *)
Record seg_info : Type := {
  index : Z;
  spanish_text : string;
  original_start : Q;
  file : string
}.

(** One turn of the loop of lines 200-215 on
    [(final_audio, current_position)]; [None] is the error of a missing
    file. *)
Definition merge_step (files : gmap string Pydub.AudioSegment)
    (st : Pydub.AudioSegment * Q) (seg : seg_info) : option (Pydub.AudioSegment * Q) :=
  let '(final_audio, current_position) := st in
  let seg_start := original_start seg in
  let '(final_audio, current_position) :=
    if Qlt_le_dec current_position seg_start
    then
      let gap_duration := ((seg_start - current_position) * 1000)%Q in
      (Pydub.append final_audio (Pydub.silent (Py.int_of gap_duration)), seg_start)
    else (final_audio, current_position) in
  segment_audio ← files !! file seg;
  Some (Pydub.append final_audio segment_audio,
        (current_position + inject_Z (Pydub.len segment_audio) / 1000)%Q).

Fixpoint merge_loop (files : gmap string Pydub.AudioSegment)
    (generated_segments : list seg_info) (st : Pydub.AudioSegment * Q)
    : option (Pydub.AudioSegment * Q) :=
  match generated_segments with
  | [] => Some st
  | seg :: rest => st' ← merge_step files st seg; merge_loop files rest st'
  end.

(** Lines 197-219: the final audio, exported to [final_path]. *)
Definition merge_segments (generated_segments : list seg_info) (final_path : string)
    (files : gmap string Pydub.AudioSegment)
    : option (Pydub.AudioSegment * gmap string Pydub.AudioSegment) :=
  '(final_audio, _) ← merge_loop files generated_segments (Pydub.silent 0, 0%Q);
  Some (final_audio, <[final_path := final_audio]> files).

End MergeFromAnalysis.

(** ** mix_spanish_with_instrumental.py *)
Module Mix.

(** [seg + volume_change] on an [AudioSegment] ([apply_gain]): every
    sample is multiplied by [db_to_float volume_change] and cut to 16
    bits. [db_to_float] is pydub's function of that name. *)
Definition apply_gain (db_to_float : Q -> Q) (seg : Pydub.AudioSegment)
    (volume_change : Q) : Pydub.AudioSegment :=
  map (fun s => Pydub.clip16 (Qfloor (inject_Z s * db_to_float volume_change))) seg.

(** [mix_vocals_with_instrumental] (lines 4-67); [None] is the error of
    a file that cannot be loaded. *)
Definition mix_vocals_with_instrumental (db_to_float : Q -> Q)
    (vocals_path instrumental_path output_path : string)
    (vocals_volume instrumental_volume : Q)
    (files : gmap string Pydub.AudioSegment)
    : option (string * gmap string Pydub.AudioSegment) :=
  vocals ← files !! vocals_path;
  instrumental ← files !! instrumental_path;
  let vocals :=
    if negb (Qeq_bool vocals_volume 0)
    then apply_gain db_to_float vocals vocals_volume else vocals in
  let instrumental :=
    if negb (Qeq_bool instrumental_volume 0)
    then apply_gain db_to_float instrumental instrumental_volume else instrumental in
  let max_duration := Z.max (Pydub.len vocals) (Pydub.len instrumental) in
  let vocals :=
    if Pydub.len vocals <? max_duration
    then let silence_duration := max_duration - Pydub.len vocals in
         Pydub.append vocals (Pydub.silent silence_duration)
    else vocals in
  let instrumental :=
    if Pydub.len instrumental <? max_duration
    then let silence_duration := max_duration - Pydub.len instrumental in
         Pydub.append instrumental (Pydub.silent silence_duration)
    else instrumental in
  let mixed := Pydub.overlay vocals instrumental 0 in
  Some (output_path, <[output_path := mixed]> files).

End Mix.

(** ** Orders on the placements of the timeline, for the statements about
    [Timeline.sort_by_start] *)
Module TimelineOrder.

(** The key of the sort, compared. *)
Definition starts_le (a b : Timeline.segment) : Prop :=
  (Timeline.start_time a <= Timeline.start_time b)%Q.
Definition starts_lt (a b : Timeline.segment) : Prop :=
  (Timeline.start_time a < Timeline.start_time b)%Q.

(** No two entries of the list start at the same time. *)
Definition distinct_starts (l : list Timeline.segment) : Prop :=
  forall (i j : nat) a b,
    l !! i = Some a -> l !! j = Some b -> i <> j ->
    ~ (Timeline.start_time a == Timeline.start_time b)%Q.

End TimelineOrder.

(** ** Small inputs, for the examples *)
Module Inputs.

Definition mano : DualFrame.word_timing :=
  {| DualFrame.index := 0; DualFrame.word := "mano";
     DualFrame.time_relative :=
       {| DualFrame.t_start := 0.5; DualFrame.t_end := 1.2;
          DualFrame.t_duration := 0.7 |};
     DualFrame.time_absolute :=
       {| DualFrame.t_start := 6.5; DualFrame.t_end := 7.2;
          DualFrame.t_duration := 0.7 |};
     DualFrame.avg_pitch_hz := Py.Absent;
     DualFrame.avg_energy_db := Py.Absent |}.

(** A segment of three cells and a lyrics table entry of four lines. *)
Definition chunk_disk : Chunker.state :=
  {| Chunker.heap := {[ 0%nat := ["a"; "b"; "c"; "d"] ]};
     Chunker.fs := {[ "seg.wav" := [0; 0; 0] ]} |}.


(** The analysis of the sample segment and a transcription of two words. *)
Definition audio_analysis : Trim.audio_analysis := Trim.d_audio_analysis Sample.report.

Definition transcription : PreciseAnalysis.whisper_transcription :=
  {| PreciseAnalysis.text := "ser feliz";
     PreciseAnalysis.words :=
       Some [ {| SpecificSegment.w_word := " ser"; SpecificSegment.w_start := 0;
                 SpecificSegment.w_end := 0.4 |};
              {| SpecificSegment.w_word := " feliz"; SpecificSegment.w_start := 0.5;
                 SpecificSegment.w_end := 1 |} ];
     PreciseAnalysis.segments := None;
     PreciseAnalysis.language := Some "portuguese" |}.

(** Two placements of 2 ms each, with a gap of 2 ms between them. *)
Definition early : Timeline.segment :=
  {| Timeline.part_name := "part1"; Timeline.actual_part := "part1";
     Timeline.start_time := 0; Timeline.end_time := 0.002;
     Timeline.duration := 0.002; Timeline.vocal_file := "p1" |}.
Definition late : Timeline.segment :=
  {| Timeline.part_name := "part2"; Timeline.actual_part := "part2";
     Timeline.start_time := 0.004; Timeline.end_time := 0.006;
     Timeline.duration := 0.002; Timeline.vocal_file := "p2" |}.
Definition vocals : gmap string Pydub.AudioSegment :=
  {[ "p1" := [7; 8]; "p2" := [9; 9] ]}.

End Inputs.

(** * Properties *)

Lemma line_word_ranges_unfold (n : Z) :
  Chunker.line_word_ranges n =
  let b := n / 4 in
  let r := n mod 4 in
  let e0 := Z.min (0 + (b + (if 0 <? r then 1 else 0)) - 1) (n - 1) in
  let e1 := Z.min (e0 + 1 + (b + (if 1 <? r then 1 else 0)) - 1) (n - 1) in
  let e2 := Z.min (e1 + 1 + (b + (if 2 <? r then 1 else 0)) - 1) (n - 1) in
  let e3 := Z.min (e2 + 1 + (b + (if 3 <? r then 1 else 0)) - 1) (n - 1) in
  [(0, e0); (e0 + 1, e1); (e1 + 1, e2); (e2 + 1, e3)].
Proof. reflexivity. Qed.

Ltac split_remainder r :=
  repeat match goal with
         | |- context [?k <? r] => destruct (Z.ltb_spec k r)
         end.

(** The four line ranges of [n >= 1] words: their sizes, their order and
    what they cover. *)
Lemma line_word_ranges_partition (n : Z) (Hn : 1 <= n) :
  let base := n / 4 in
  let remainder := n mod 4 in
  let rs := Chunker.line_word_ranges n in
  length rs = 4%nat
  /\ (forall (k : nat) s e, rs !! k = Some (s, e) ->
        e - s + 1 = base + (if Z.of_nat k <? remainder then 1 else 0))
  /\ (exists e, rs !! 0%nat = Some (0, e))
  /\ (forall (k : nat) s e s' e',
        rs !! k = Some (s, e) -> rs !! S k = Some (s', e') -> s' = e + 1)
  /\ (exists s, rs !! 3%nat = Some (s, n - 1))
  /\ (forall i, 0 <= i < n ->
        exists (k : nat) s e,
          rs !! k = Some (s, e) /\ s <= i <= e
          /\ forall (k' : nat) s' e',
               rs !! k' = Some (s', e') -> s' <= i <= e' -> k' = k)
  /\ Chunker.line_word_ranges 18 = [(0, 4); (5, 9); (10, 13); (14, 17)].
Proof.
  intros base remainder rs.
  assert (Hdiv : n = 4 * base + remainder) by (apply Z.div_mod; lia).
  assert (Hrem : 0 <= remainder < 4) by (apply Z.mod_pos_bound; lia).
  subst rs. rewrite line_word_ranges_unfold.
  fold base remainder. cbv zeta.
  generalize dependent remainder. generalize dependent base.
  intros b r Hdiv Hrem.
  repeat split.
  - intros k s e Hk.
    destruct k as [|[|[|[|k]]]]; simpl in Hk; try discriminate;
      injection Hk as <- <-; simpl Z.of_nat; split_remainder r; lia.
  - eexists. reflexivity.
  - intros k s e s' e' Hk Hk'.
    destruct k as [|[|[|[|k]]]]; simpl in Hk, Hk'; try discriminate;
      injection Hk as <- <-; injection Hk' as <- <-; reflexivity.
  - eexists. simpl. f_equal. f_equal. split_remainder r; lia.
  - intros i Hi.
    set (e0 := Z.min (0 + (b + (if 0 <? r then 1 else 0)) - 1) (n - 1)).
    set (e1 := Z.min (e0 + 1 + (b + (if 1 <? r then 1 else 0)) - 1) (n - 1)).
    set (e2 := Z.min (e1 + 1 + (b + (if 2 <? r then 1 else 0)) - 1) (n - 1)).
    set (e3 := Z.min (e2 + 1 + (b + (if 3 <? r then 1 else 0)) - 1) (n - 1)).
    assert (He3 : e3 = n - 1) by (subst e3 e2 e1 e0; split_remainder r; lia).
    assert (Hpick : (0 <= i <= e0) \/ (e0 + 1 <= i <= e1)
                    \/ (e1 + 1 <= i <= e2) \/ (e2 + 1 <= i <= e3)) by lia.
    assert (Huniq : forall (k' : nat) s' e' (k : nat) s e,
               [(0, e0); (e0 + 1, e1); (e1 + 1, e2); (e2 + 1, e3)] !! k' = Some (s', e') ->
               [(0, e0); (e0 + 1, e1); (e1 + 1, e2); (e2 + 1, e3)] !! k = Some (s, e) ->
               s' <= i <= e' -> s <= i <= e -> k' = k).
    { assert (H0 : e0 <= n - 1) by (subst e0; lia).
      assert (H01 : e0 <= e1) by (subst e1; split_remainder r; lia).
      assert (H12 : e1 <= e2) by (subst e2; split_remainder r; lia).
      assert (H23 : e2 <= e3) by (subst e3; split_remainder r; lia).
      clearbody e0 e1 e2 e3.
      intros k' s' e' k s e Hk' Hk.
      destruct k' as [|[|[|[|k']]]]; simpl in Hk'; try discriminate;
        injection Hk' as <- <-;
        destruct k as [|[|[|[|k]]]]; simpl in Hk; try discriminate;
        injection Hk as <- <-; intros; first [reflexivity | exfalso; lia]. }
    destruct Hpick as [H|[H|[H|H]]].
    + exists 0%nat, 0, e0. split; [reflexivity|]. split; [exact H|].
      intros k' s' e' Hk' Hin. eapply Huniq; eauto.
    + exists 1%nat, (e0 + 1), e1. split; [reflexivity|]. split; [exact H|].
      intros k' s' e' Hk' Hin. eapply Huniq; eauto.
    + exists 2%nat, (e1 + 1), e2. split; [reflexivity|]. split; [exact H|].
      intros k' s' e' Hk' Hin. eapply Huniq; eauto.
    + exists 3%nat, (e2 + 1), e3. split; [reflexivity|]. split; [exact H|].
      intros k' s' e' Hk' Hin. eapply Huniq; eauto.
Qed.

(** ** Dual-frame word records *)

Lemma between_spec (lo t hi : Q) :
  Py.between lo t hi = true <-> (lo <= t /\ t <= hi)%Q.
Proof.
  unfold Py.between. rewrite andb_true_iff, !Qle_bool_iff. reflexivity.
Qed.




(** ** The timing enricher *)

Lemma between_cases (lo t hi : Q) :
  Py.between lo t hi =
  if Qlt_le_dec t lo then false else if Qlt_le_dec hi t then false else true.
Proof.
  destruct (Py.between lo t hi) eqn:E.
  - apply between_spec in E as [H1 H2].
    destruct (Qlt_le_dec t lo) as [H|_]; [exfalso; lra|].
    destruct (Qlt_le_dec hi t) as [H|_]; [exfalso; lra|]. reflexivity.
  - destruct (Qlt_le_dec t lo) as [H|H1]; [reflexivity|].
    destruct (Qlt_le_dec hi t) as [H|H2]; [reflexivity|].
    assert (Py.between lo t hi = true) by (apply between_spec; split; assumption).
    congruence.
Qed.

Lemma samples_within_In (lo hi : Q) (samples : list (Q * Q)) (v : Q) :
  In v (Spec.samples_within lo hi samples)
  <-> exists t, In (t, v) samples /\ (lo <= t)%Q /\ (t <= hi)%Q.
Proof.
  induction samples as [|[t x] rest IH]; simpl.
  - split; [tauto | intros (? & [] & _)].
  - destruct (Qlt_le_dec t lo) as [H1|H1]; [|destruct (Qlt_le_dec hi t) as [H2|H2]];
      simpl; rewrite ?IH; split.
    + intros (t' & Hin & Hb). exists t'. tauto.
    + intros (t' & [[= <- <-]|Hin] & Hlo & Hhi); [exfalso; lra | eauto].
    + intros (t' & Hin & Hb). exists t'. tauto.
    + intros (t' & [[= <- <-]|Hin] & Hlo & Hhi); [exfalso; lra | eauto].
    + intros [<-|(t' & Hin & Hb)]; [exists t; tauto | exists t'; tauto].
    + intros (t' & [[= <- <-]|Hin] & Hlo & Hhi); [left; reflexivity | right; eauto].
Qed.

Lemma mask_filter_within (lo hi : Q) (times values : list Q) :
  map snd (List.filter fst (zip (map (fun t => Py.between lo t hi) times) values))
  = Spec.samples_within lo hi (zip times values).
Proof.
  revert values. induction times as [|t times IH]; intros [|v values]; simpl; try reflexivity.
  rewrite between_cases.
  destruct (Qlt_le_dec t lo); [apply IH|].
  destruct (Qlt_le_dec hi t); [apply IH|].
  simpl. f_equal. apply IH.
Qed.

Lemma mask_any_within (lo hi : Q) (times values : list Q) :
  length times = length values ->
  existsb id (map (fun t => Py.between lo t hi) times)
  = match Spec.samples_within lo hi (zip times values) with [] => false | _ => true end.
Proof.
  revert values. induction times as [|t times IH]; intros [|v values]; simpl;
    try reflexivity; try discriminate.
  intros [= Hlen]. rewrite between_cases. unfold id at 1.
  destruct (Qlt_le_dec t lo); [apply IH, Hlen|].
  destruct (Qlt_le_dec hi t); [apply IH, Hlen|]. reflexivity.
Qed.

Lemma zip_fst_snd {A B} (l : list (A * B)) : zip (map fst l) (map snd l) = l.
Proof. induction l as [|[a b] l IH]; simpl; [reflexivity | now rewrite IH]. Qed.

Lemma filter_within {A} (time value : A -> Q) (lo hi : Q) (l : list A) :
  map value (List.filter (fun p => Py.between lo (time p) hi) l)
  = Spec.samples_within lo hi (map (fun p => (time p, value p)) l).
Proof.
  induction l as [|p l IH]; simpl; [reflexivity|].
  rewrite between_cases.
  destruct (Qlt_le_dec (time p) lo); [apply IH|].
  destruct (Qlt_le_dec hi (time p)); [apply IH|].
  simpl. f_equal. apply IH.
Qed.

Lemma enrich_word_spec hz_to_note pitch_contour rms_times rms_db (w : Precise.word_timing) :
  length rms_times = length rms_db ->
  let pitches :=
    Spec.samples_within (Precise.start w) (Precise.stop w)
      (map (fun p => (Precise.time p, Precise.pitch_hz p)) pitch_contour) in
  let energies :=
    Spec.samples_within (Precise.start w) (Precise.stop w) (zip rms_times rms_db) in
  exists e,
    Precise.enrich_word hz_to_note pitch_contour rms_times rms_db w = Some e
    /\ Precise.timing e = w
    /\ Precise.avg_pitch_hz e
       = match pitches with [] => None | _ => Some (Py.mean pitches) end
    /\ Precise.min_pitch_hz e
       = match pitches with [] => None | _ => Some (Py.np_min pitches) end
    /\ Precise.max_pitch_hz e
       = match pitches with [] => None | _ => Some (Py.np_max pitches) end
    /\ Precise.avg_energy_db e
       = match energies with [] => None | _ => Some (Py.mean energies) end
    /\ Precise.max_energy_db e
       = match energies with [] => None | _ => Some (Py.np_max energies) end.
Proof.
  intros Hlen pitches energies.
  unfold Precise.enrich_word, Precise.energy_mask, Precise.word_pitches.
  rewrite (mask_any_within _ _ _ rms_db Hlen).
  unfold Py.mask_select. rewrite length_map.
  destruct (decide (length rms_times = length rms_db)) as [_|Hne]; [|contradiction].
  rewrite mask_filter_within, filter_within.
  fold pitches energies.
  destruct energies as [|e0 energies']; destruct pitches as [|p0 pitches'];
    cbn; eexists; repeat split.
Qed.

(** C7. The timing enricher of analyze_vocals_precise.py and the word
    loop of analyze_specific_segment.py aggregate, for a word with span
    [start, end], the pitch samples and the energy samples whose time [t]
    satisfies [start <= t <= end], and no others. With no such pitch
    sample the pitch fields are [None] (the enricher) or left out (the
    segment analysis); likewise for the energy fields: a number stands
    in a field only as the aggregate of at least one sample. *)
Theorem enricher_closed_interval :
  (forall hz_to_note pitch_contour rms_times rms_db (ws : list Precise.word_timing),
      length rms_times = length rms_db ->
      exists es,
        Precise.enrich_word_timings_with_features hz_to_note ws pitch_contour
          rms_times rms_db = Some es
        /\ Forall2
             (fun w e =>
                let pitches :=
                  Spec.samples_within (Precise.start w) (Precise.stop w)
                    (map (fun p => (Precise.time p, Precise.pitch_hz p)) pitch_contour) in
                let energies :=
                  Spec.samples_within (Precise.start w) (Precise.stop w)
                    (zip rms_times rms_db) in
                Precise.timing e = w
                /\ Precise.avg_pitch_hz e
                   = match pitches with [] => None | _ => Some (Py.mean pitches) end
                /\ Precise.min_pitch_hz e
                   = match pitches with [] => None | _ => Some (Py.np_min pitches) end
                /\ Precise.max_pitch_hz e
                   = match pitches with [] => None | _ => Some (Py.np_max pitches) end
                /\ Precise.avg_energy_db e
                   = match energies with [] => None | _ => Some (Py.mean energies) end
                /\ Precise.max_energy_db e
                   = match energies with [] => None | _ => Some (Py.np_max energies) end)
             ws es)
  /\ (forall start_time pitch_contour rms i (word : SpecificSegment.whisper_word),
        let pitches :=
          Spec.samples_within (SpecificSegment.w_start word) (SpecificSegment.w_end word)
            (map (fun p => (SpecificSegment.time_relative p, SpecificSegment.pitch_hz p))
               pitch_contour) in
        let energies :=
          Spec.samples_within (SpecificSegment.w_start word) (SpecificSegment.w_end word)
            rms in
        let d := SpecificSegment.word_data start_time pitch_contour rms i word in
        DualFrame.avg_pitch_hz d
        = match pitches with [] => Py.Absent | _ => Py.Num (Py.mean pitches) end
        /\ DualFrame.avg_energy_db d
           = match energies with [] => Py.Absent | _ => Py.Num (Py.mean energies) end)
  /\ (forall lo hi samples v,
        In v (Spec.samples_within lo hi samples)
        <-> exists t, In (t, v) samples /\ (lo <= t)%Q /\ (t <= hi)%Q).
Proof.
  split; [|split].
  - intros hz pc rt rd ws Hlen.
    unfold Precise.enrich_word_timings_with_features.
    induction ws as [|w ws (es & Hes & IH)].
    + exists []. split; [reflexivity | constructor].
    + destruct (enrich_word_spec hz pc rt rd w Hlen) as (e & He & Hspec).
      exists (e :: es). split.
      * cbn. rewrite He. cbn. rewrite Hes. reflexivity.
      * constructor; [exact Hspec | exact IH].
  - intros start_time pc rms i word pitches energies d.
    subst d. unfold SpecificSegment.word_data; cbn.
    unfold SpecificSegment.word_pitches, SpecificSegment.energy_mask.
    rewrite filter_within. fold pitches.
    rewrite (mask_any_within _ _ _ (map snd rms)) by now rewrite !length_map.
    rewrite mask_filter_within, zip_fst_snd. fold energies.
    split; [destruct pitches | destruct energies]; reflexivity.
  - apply samples_within_In.
Qed.

(** C7 at a word spanning [0.5, 1]: the samples at the two ends are
    aggregated, the one at 2 is not. *)
Lemma enricher_closed_interval_witness :
  exists es,
    Precise.enrich_word_timings_with_features (fun _ => None)
      [ {| Precise.index := 0; Precise.word := "a"; Precise.start := 0.5;
           Precise.stop := 1; Precise.duration := 0.5; Precise.onset_offset := None |} ]
      [ {| Precise.time := 0.5; Precise.pitch_hz := 220 |};
        {| Precise.time := 2; Precise.pitch_hz := 330 |} ]
      [0; 0.5; 1; 1.5]%Q [-10; 0; -20; -30]%Q = Some es
    /\ length es = 1%nat.
Proof.
  destruct (proj1 enricher_closed_interval (fun _ => None)
              [ {| Precise.time := 0.5; Precise.pitch_hz := 220 |};
                {| Precise.time := 2; Precise.pitch_hz := 330 |} ]
              [0; 0.5; 1; 1.5]%Q [-10; 0; -20; -30]%Q
              [ {| Precise.index := 0; Precise.word := "a"; Precise.start := 0.5;
                   Precise.stop := 1; Precise.duration := 0.5;
                   Precise.onset_offset := None |} ]
              eq_refl) as (es & Hes & Hall).
  exists es. split; [exact Hes|].
  symmetry. exact (Forall2_length _ _ _ Hall).
Defined.

(** ** Duration reconciliation *)

Lemma int_of_nonneg_bounds (x : Q) :
  (0 <= x)%Q -> (inject_Z (Py.int_of x) <= x)%Q /\ (x < inject_Z (Py.int_of x) + 1)%Q.
Proof.
  intros Hx.
  assert (Hfloor : Py.int_of x = Qfloor x).
  { unfold Py.int_of, Qfloor. destruct x as [a b]; simpl.
    apply Z.quot_div_nonneg; [|reflexivity].
    unfold Qle in Hx; simpl in Hx. lia. }
  rewrite Hfloor. split; [apply Qfloor_le|].
  pose proof (Qlt_floor x) as H. rewrite inject_Z_plus in H. exact H.
Qed.






(** ** The timeline assembler *)

Lemma mix_zip_length (base seg : list Z) : length (Pydub.mix_zip base seg) = length base.
Proof.
  revert seg. induction base as [|b base IH]; intros [|s seg]; simpl; auto.
Qed.

Lemma mix_zip_lookup (base seg : list Z) (j : nat) :
  Pydub.mix_zip base seg !! j
  = match base !! j, seg !! j with
    | Some b, Some s => Some (Pydub.mix b s)
    | Some b, None => Some b
    | None, _ => None
    end.
Proof.
  revert seg j. induction base as [|b base IH]; intros [|s seg] [|j]; simpl; try reflexivity.
  - destruct (base !! j); reflexivity.
  - apply IH.
Qed.

Lemma overlay_length (base seg : Pydub.AudioSegment) (position : Z) :
  Pydub.len (Pydub.overlay base seg position) = Pydub.len base.
Proof.
  unfold Pydub.len, Pydub.overlay. f_equal.
  rewrite length_app, mix_zip_length, length_take, length_drop. lia.
Qed.
















(** ** The chunker *)

Lemma line_word_ranges_bounds (n : Z) :
  1 <= n ->
  length (Chunker.line_word_ranges n) = 4%nat
  /\ Forall (fun r => 0 <= r.1 /\ r.2 <= n - 1 /\ (r.1 < n -> r.1 <= r.2))
       (Chunker.line_word_ranges n).
Proof.
  intros Hn.
  assert (Hdiv : n = 4 * (n / 4) + n mod 4) by (apply Z.div_mod; lia).
  assert (Hrem : 0 <= n mod 4 < 4) by (apply Z.mod_pos_bound; lia).
  rewrite line_word_ranges_unfold. cbv zeta.
  generalize dependent (n mod 4). generalize dependent (n / 4).
  intros b r Hdiv Hrem.
  split; [reflexivity|].
  repeat constructor; simpl; split_remainder r; lia.
Qed.

Lemma getitem_nonneg {A} (l : list A) (i : Z) :
  0 <= i -> Py.getitem l i = l !! Z.to_nat i.
Proof. intros Hi. unfold Py.getitem. destruct (Z.ltb_spec i 0); [lia | reflexivity]. Qed.

Lemma getitem_is_Some {A} (l : list A) (i : Z) :
  0 <= i < Z.of_nat (length l) -> is_Some (Py.getitem l i).
Proof.
  intros Hi. rewrite getitem_nonneg by lia. apply lookup_lt_is_Some. lia.
Qed.

Lemma getitem_map {A B} (f : A -> B) (l : list A) (i : Z) :
  Py.getitem (map f l) i = f <$> Py.getitem l i.
Proof.
  unfold Py.getitem. rewrite length_map.
  destruct (i <? 0); [destruct (0 <=? _)|]; try reflexivity; apply list_lookup_fmap.
Qed.

Lemma range_elem (a b x : Z) : In x (Py.range a b) -> a <= x < b.
Proof.
  unfold Py.range. rewrite in_map_iff. intros (k & <- & Hk).
  apply in_seq in Hk. lia.
Qed.

Lemma mapM_getitem_is_Some {A} (l : list A) (a b : Z) :
  0 <= a -> b <= Z.of_nat (length l) ->
  is_Some (mapM (Py.getitem l) (Py.range a b)).
Proof.
  intros Ha Hb. apply mapM_is_Some. apply Forall_forall. intros x Hx.
  apply list_elem_of_In, range_elem in Hx. apply getitem_is_Some. lia.
Qed.

Lemma list_of_string_app (a b : string) :
  String.list_ascii_of_string (a +:+ b) = String.list_ascii_of_string a ++ String.list_ascii_of_string b.
Proof. induction a as [|c a IH]; simpl; [reflexivity | now rewrite IH]. Qed.

Lemma string_app_inj_r (t s1 s2 : string) : s1 +:+ t = s2 +:+ t -> s1 = s2.
Proof.
  intros H. apply (f_equal String.list_ascii_of_string) in H.
  rewrite !list_of_string_app in H. apply app_inv_tail in H.
  apply (f_equal String.string_of_list_ascii) in H.
  now rewrite !String.string_of_list_ascii_of_string in H.
Qed.

Lemma chunk_file_inj (output_dir : string) (i j : Z) :
  Py.path_join output_dir ("chunk_line_" +:+ pretty i +:+ ".wav")
  = Py.path_join output_dir ("chunk_line_" +:+ pretty j +:+ ".wav") ->
  i = j.
Proof.
  unfold Py.path_join. intros H.
  apply String.app_inj in H. apply String.app_inj in H. apply String.app_inj in H.
  apply string_app_inj_r in H. apply pretty_Z_inj in H. exact H.
Qed.

Lemma make_chunk_inv audio words lines output_dir line_idx s e c clip :
  Chunker.make_chunk audio words lines output_dir line_idx s e = Some (c, clip) ->
  exists first_word last_word,
    Py.getitem words s = Some first_word
    /\ Py.getitem words e = Some last_word
    /\ Py.getitem lines (Z.of_nat line_idx) = Some (Chunker.target_text c)
    /\ Chunker.line_number c = Z.of_nat line_idx + 1
    /\ Chunker.chunk_path c
       = Py.path_join output_dir
           ("chunk_line_" +:+ pretty (Z.of_nat line_idx + 1) +:+ ".wav")
    /\ Chunker.word_count c = e - s + 1
    /\ Chunker.time_range c
       = (DualFrame.t_start (DualFrame.time_relative first_word),
          DualFrame.t_end (DualFrame.time_relative last_word))
    /\ let chunk_start :=
         Py.max 0 (DualFrame.t_start (DualFrame.time_relative first_word) * 1000
                   - Chunker.padding_ms) in
       let chunk_end :=
         Py.min (inject_Z (Pydub.len audio))
           (DualFrame.t_end (DualFrame.time_relative last_word) * 1000
            + Chunker.padding_ms) in
       clip = Pydub.slice audio chunk_start chunk_end
       /\ Chunker.duration c = ((chunk_end - chunk_start) / 1000)%Q.
Proof.
  unfold Chunker.make_chunk.
  destruct (Py.getitem words s) as [first_word|]; [|discriminate].
  destruct (Py.getitem words e) as [last_word|]; [|discriminate].
  cbn [mbind option_bind].
  destruct (mapM _ _) as [ws|]; [|discriminate].
  cbn [mbind option_bind].
  destruct (Py.getitem lines (Z.of_nat line_idx)) as [line|]; [|discriminate].
  cbn [mbind option_bind]. intros [= <- <-].
  exists first_word, last_word. cbn. repeat split.
Qed.

Lemma make_chunk_is_Some audio words lines output_dir line_idx s e :
  0 <= s -> s <= e -> e < Z.of_nat (length words) ->
  (line_idx < length lines)%nat ->
  is_Some (Chunker.make_chunk audio words lines output_dir line_idx s e).
Proof.
  intros Hs Hse He Hidx. unfold Chunker.make_chunk.
  destruct (getitem_is_Some words s) as [fw ->]; [lia|].
  destruct (getitem_is_Some words e) as [lw ->]; [lia|].
  cbn [mbind option_bind].
  destruct (mapM_getitem_is_Some words s (e + 1)) as [ws ->]; [lia | lia |].
  cbn [mbind option_bind].
  destruct (getitem_is_Some lines (Z.of_nat line_idx)) as [line ->]; [lia|].
  cbn [mbind option_bind]. eauto.
Qed.

(** What the chunk loop does to the chunk list and to the files, for
    ranges with pairwise different line numbers. *)
Lemma chunk_loop_inv audio words lines output_dir ranges :
  NoDup ranges.*1 ->
  forall chunks files chunks' files',
    Chunker.chunk_loop audio words lines output_dir ranges chunks files
    = Some (chunks', files') ->
    exists new,
      chunks' = chunks ++ new
      /\ (forall p, (forall i, i ∈ ranges.*1 ->
                       p <> Py.path_join output_dir
                              ("chunk_line_" +:+ pretty (Z.of_nat i + 1) +:+ ".wav")) ->
            files' !! p = files !! p)
      /\ Forall (fun c =>
                   exists line_idx s e clip,
                     (line_idx, (s, e)) ∈ ranges
                     /\ Chunker.make_chunk audio words lines output_dir line_idx s e
                        = Some (c, clip)
                     /\ files' !! Chunker.chunk_path c = Some clip) new.
Proof.
  induction ranges as [|[idx [s e]] ranges IH]; intros Hnd chunks files chunks' files'; simpl.
  - intros [= <- <-]. exists []. rewrite app_nil_r. repeat split; auto.
  - apply NoDup_cons in Hnd as [Hnotin Hnd].
    destruct (Z.of_nat (length words) <=? s).
    { intros [= <- <-]. exists []. rewrite app_nil_r. repeat split; auto. }
    destruct (Chunker.make_chunk audio words lines output_dir idx s e)
      as [[c clip]|] eqn:Hmk; [|discriminate].
    cbn [mbind option_bind]. intros Hloop.
    destruct (IH Hnd _ _ _ _ Hloop) as (new & -> & Hfiles & Hall).
    exists (c :: new). split; [now rewrite <- app_assoc|].
    pose proof (make_chunk_inv _ _ _ _ _ _ _ _ _ Hmk)
      as (fw & lw & _ & _ & _ & _ & Hpath & _).
    split; [|constructor].
    + intros p Hp. rewrite Hfiles.
      * apply lookup_insert_ne. rewrite Hpath. intros E. symmetry in E.
        revert E. apply Hp. simpl. left.
      * intros i Hi. apply Hp. simpl. right. exact Hi.
    + exists idx, s, e, clip. split; [left|]. split; [exact Hmk|].
      rewrite Hfiles; [apply lookup_insert_eq|].
      intros i Hi E. rewrite Hpath in E. apply chunk_file_inj in E.
      apply Hnotin. assert (idx = i) by lia. subst i. exact Hi.
    + eapply Forall_impl; [exact Hall|].
      intros c' (i' & s' & e' & clip' & Hin & Hmk' & Hf).
      exists i', s', e', clip'. split; [right; exact Hin | auto].
Qed.

Lemma enumerate_fst {A} (l : list A) : (Py.enumerate l).*1 = seq 0 (length l).
Proof.
  unfold Py.enumerate.
  assert (H : forall k, (imap (fun i x => (k + i, x)%nat) l).*1 = seq k (length l)).
  { induction l as [|x l IH]; intros k; simpl; [reflexivity|].
    rewrite Nat.add_0_r. f_equal.
    rewrite <- (IH (S k)). f_equal. apply imap_ext. intros i y _. simpl.
    f_equal. lia. }
  apply (H 0%nat).
Qed.

Lemma enumerate_elem {A} (l : list A) (i : nat) (x : A) :
  (i, x) ∈ Py.enumerate l <-> l !! i = Some x.
Proof.
  unfold Py.enumerate. rewrite elem_of_lookup_imap. split.
  - intros (j & y & [= -> ->] & H). exact H.
  - intros H. exists i, x. auto.
Qed.

Lemma pad_in_place_spec (target_lines : nat) (fuel : nat) :
  forall (lines : list string) (h : gmap nat (list string)),
    h !! target_lines = Some lines ->
    (4 - length lines <= fuel)%nat ->
    Chunker.pad_in_place fuel target_lines h
    = if decide (length lines < 4)%nat
      then <[target_lines := lines ++ replicate (4 - length lines) ""]> h
      else h.
Proof.
  induction fuel as [|fuel IH]; intros lines h Hl Hfuel; simpl.
  - rewrite decide_False by lia. reflexivity.
  - rewrite Hl. destruct (decide (length lines < 4)%nat) as [Hlt|Hge]; [|reflexivity].
    rewrite (IH (lines ++ [""])).
    + rewrite length_app. simpl.
      destruct (decide (length lines + 1 < 4)%nat) as [Hlt'|Hge'].
      * rewrite insert_insert_eq. f_equal. rewrite <- app_assoc. f_equal.
        replace (4 - length lines)%nat with (S (4 - (length lines + 1))) by lia.
        reflexivity.
      * f_equal. replace (4 - length lines)%nat with 1%nat by lia. reflexivity.
    + apply lookup_insert_eq.
    + rewrite length_app. simpl. lia.
Qed.

(** The loop of lines 146-147 stops because its test fails, not because
    the model's fuel is used up. *)
Lemma pad_in_place_done (target_lines : nat) (lines : list string)
    (h : gmap nat (list string)) :
  h !! target_lines = Some lines ->
  exists padded,
    Chunker.pad_in_place 4 target_lines h !! target_lines = Some padded
    /\ ~ (length padded < 4)%nat.
Proof.
  intros Hl. rewrite (pad_in_place_spec _ _ lines) by (auto; lia).
  destruct (decide (length lines < 4)%nat).
  - eexists. split; [apply lookup_insert_eq|].
    rewrite length_app, length_replicate. lia.
  - exists lines. auto.
Qed.

Lemma chunk_loop_mono audio words lines output_dir ranges :
  forall chunks files chunks' files',
    Chunker.chunk_loop audio words lines output_dir ranges chunks files
    = Some (chunks', files') ->
    forall p, is_Some (files !! p) -> is_Some (files' !! p).
Proof.
  induction ranges as [|[idx [s e]] ranges IH]; intros chunks files chunks' files'; simpl.
  - intros [= <- <-]. auto.
  - destruct (Z.of_nat (length words) <=? s); [intros [= <- <-]; auto|].
    destruct (Chunker.make_chunk audio words lines output_dir idx s e)
      as [[c clip]|]; [|discriminate].
    cbn [mbind option_bind]. intros Hloop p Hp.
    eapply IH; [exact Hloop|].
    destruct (decide (Chunker.chunk_path c = p)) as [->|Hne].
    + rewrite lookup_insert_eq. eauto.
    + rewrite lookup_insert_ne by exact Hne. exact Hp.
Qed.

Lemma chunk_loop_total audio words lines output_dir ranges :
  Forall (fun r => 0 <= r.2.1 /\ r.2.2 <= Z.of_nat (length words) - 1
                   /\ (r.2.1 < Z.of_nat (length words) -> r.2.1 <= r.2.2)
                   /\ (r.1 < length lines)%nat) ranges ->
  forall chunks files,
    is_Some (Chunker.chunk_loop audio words lines output_dir ranges chunks files).
Proof.
  induction 1 as [|[idx [s e]] ranges (H0 & He & Hse & Hidx) _ IH];
    intros chunks files; simpl in *; [eauto|].
  destruct (Z.leb_spec (Z.of_nat (length words)) s) as [|Hs]; [eauto|].
  destruct (make_chunk_is_Some audio words lines output_dir idx s e)
    as [[c clip] ->]; try lia.
  cbn [mbind option_bind]. apply IH.
Qed.

Lemma enumerate_ranges_good (n : Z) (lines : list string) :
  1 <= n -> length lines = 4%nat ->
  Forall (fun r => 0 <= r.2.1 /\ r.2.2 <= n - 1
                   /\ (r.2.1 < n -> r.2.1 <= r.2.2)
                   /\ (r.1 < length lines)%nat)
    (Py.enumerate (Chunker.line_word_ranges n)).
Proof.
  intros Hn Hlines.
  destruct (line_word_ranges_bounds n Hn) as [Hlen Hall].
  apply Forall_forall. intros [idx [s e]] Hin.
  apply enumerate_elem in Hin.
  pose proof (lookup_lt_Some _ _ _ Hin) as Hlt. rewrite Hlen in Hlt.
  rewrite Forall_forall in Hall.
  specialize (Hall (s, e) (list_elem_of_lookup_2 _ _ _ Hin)).
  simpl in Hall |- *. rewrite Hlines. tauto.
Qed.

(** What [create_line_chunks_from_json] returns for a segment with at
    least one word: it always returns, the heap is the caller's heap
    with the list padded in place, every file that existed still exists,
    and every chunk is the [make_chunk] of one of the line ranges, its
    clip standing under its [chunk_path]. *)
Lemma create_line_chunks_spec segment_audio_path words target_lines output_dir st
    audio lines :
  Chunker.fs st !! segment_audio_path = Some audio ->
  Chunker.heap st !! target_lines = Some lines ->
  words <> [] ->
  exists chunks files local_lines,
    Chunker.create_line_chunks_from_json segment_audio_path words target_lines
      output_dir st
    = Some (chunks,
            {| Chunker.heap :=
                 if decide (length lines < 4)%nat
                 then <[target_lines := lines ++ replicate (4 - length lines) ""]>
                        (Chunker.heap st)
                 else Chunker.heap st;
               Chunker.fs := files |})
    /\ (forall p, is_Some (Chunker.fs st !! p) -> is_Some (files !! p))
    /\ Forall (fun c =>
                 exists (line_idx : nat) s e clip,
                   Chunker.line_word_ranges (Z.of_nat (length words)) !! line_idx
                   = Some (s, e)
                   /\ Chunker.make_chunk audio words local_lines output_dir line_idx s e
                      = Some (c, clip)
                   /\ files !! Chunker.chunk_path c = Some clip) chunks.
Proof.
  intros Haudio Hlines Hwords.
  unfold Chunker.create_line_chunks_from_json.
  rewrite Haudio. cbn [mbind option_bind].
  destruct (decide (length words = 0%nat)) as [H0|_].
  { destruct words; [congruence | discriminate]. }
  rewrite Hlines. cbn [mbind option_bind].
  assert (Hn : 1 <= Z.of_nat (length words)) by (destruct words; [congruence | simpl; lia]).
  set (h := if decide (length lines ≠ 4%nat)
            then Chunker.pad_in_place 4 target_lines (Chunker.heap st)
            else Chunker.heap st).
  assert (Hh : h = if decide (length lines < 4)%nat
                   then <[target_lines := lines ++ replicate (4 - length lines) ""]>
                          (Chunker.heap st)
                   else Chunker.heap st).
  { subst h. destruct (decide (length lines ≠ 4%nat)) as [Hne|Heq].
    - apply pad_in_place_spec; [exact Hlines | lia].
    - rewrite decide_False by lia. reflexivity. }
  assert (Hpadded : h !! target_lines
                    = Some (if decide (length lines < 4)%nat
                            then lines ++ replicate (4 - length lines) ""
                            else lines)).
  { rewrite Hh. destruct (decide (length lines < 4)%nat);
      [apply lookup_insert_eq | exact Hlines]. }
  rewrite Hpadded. cbn [mbind option_bind].
  set (local_lines := if decide (length lines ≠ 4%nat) then take 4 _ else _).
  assert (Hlocal : length local_lines = 4%nat).
  { subst local_lines. destruct (decide (length lines ≠ 4%nat)) as [Hne|Heq].
    - rewrite length_take. destruct (decide (length lines < 4)%nat).
      + rewrite length_app, length_replicate. lia.
      + lia.
    - rewrite decide_False by lia. lia. }
  destruct (chunk_loop_total audio words local_lines output_dir
              (Py.enumerate (Chunker.line_word_ranges (Z.of_nat (length words))))
              (enumerate_ranges_good _ _ Hn Hlocal) [] (Chunker.fs st))
    as [[chunks files] Hloop].
  rewrite Hloop. cbn [mbind option_bind].
  exists chunks, files, local_lines. rewrite <- Hh. split; [reflexivity|].
  split; [eapply chunk_loop_mono; exact Hloop|].
  destruct (chunk_loop_inv audio words local_lines output_dir _
              ltac:(rewrite enumerate_fst; apply NoDup_seq) _ _ _ _ Hloop)
    as (new & Hnew & _ & Hall).
  simpl in Hnew. subst new.
  eapply Forall_impl; [exact Hall|].
  intros c (idx & s & e & clip & Hin & Hmk & Hf).
  exists idx, s, e, clip. split; [apply enumerate_elem; exact Hin | auto].
Qed.

(** C1. For a non-empty word list of [n] words the four line ranges are
    ordered, contiguous and disjoint, start at index 0, end at index
    [n - 1] and cover every index exactly once; range [k] holds
    [n / 4 + 1] words when [k < n mod 4] and [n / 4] words otherwise; for
    18 words the ranges are 0-4, 5-9, 10-13, 14-17. Every chunk that
    [create_line_chunks_from_json] makes is the chunk of one of these
    ranges, numbered from 1, and counts the words of its range. *)
Theorem chunker_ranges_partition (n : Z) (Hn : 1 <= n) :
  let base := n / 4 in
  let remainder := n mod 4 in
  let rs := Chunker.line_word_ranges n in
  length rs = 4%nat
  /\ (forall (k : nat) s e, rs !! k = Some (s, e) ->
        e - s + 1 = base + (if Z.of_nat k <? remainder then 1 else 0))
  /\ (exists e, rs !! 0%nat = Some (0, e))
  /\ (forall (k : nat) s e s' e',
        rs !! k = Some (s, e) -> rs !! S k = Some (s', e') -> s' = e + 1)
  /\ (exists s, rs !! 3%nat = Some (s, n - 1))
  /\ (forall i, 0 <= i < n ->
        exists (k : nat) s e,
          rs !! k = Some (s, e) /\ s <= i <= e
          /\ forall (k' : nat) s' e',
               rs !! k' = Some (s', e') -> s' <= i <= e' -> k' = k)
  /\ Chunker.line_word_ranges 18 = [(0, 4); (5, 9); (10, 13); (14, 17)]
  /\ (forall segment_audio_path (words : list DualFrame.word_timing) target_lines
             output_dir st audio lines,
        Z.of_nat (length words) = n ->
        Chunker.fs st !! segment_audio_path = Some audio ->
        Chunker.heap st !! target_lines = Some lines ->
        exists chunks st',
          Chunker.create_line_chunks_from_json segment_audio_path words target_lines
            output_dir st = Some (chunks, st')
          /\ Forall
               (fun c =>
                  exists (k : nat) s e,
                    rs !! k = Some (s, e)
                    /\ Chunker.line_number c = Z.of_nat k + 1
                    /\ Chunker.word_count c = e - s + 1
                    /\ 1 <= Chunker.word_count c)
               chunks).
Proof.
  intros base remainder rs.
  destruct (line_word_ranges_partition n Hn) as (H1 & H2 & H3 & H4 & H5 & H6 & H7).
  repeat (split; [assumption|]).
  intros path words loc dir st audio lines Hlen Haudio Hlines.
  assert (Hwords : words <> []) by (intros ->; simpl in Hlen; lia).
  destruct (create_line_chunks_spec path words loc dir st audio lines
              Haudio Hlines Hwords) as (chunks & files & local & Hrun & _ & Hall).
  eexists chunks, _. split; [exact Hrun|].
  destruct (line_word_ranges_bounds n Hn) as [_ Hbounds].
  rewrite Forall_forall in Hbounds.
  eapply Forall_impl; [exact Hall|].
  intros c (k & s & e & clip & Hrange & Hmk & _).
  rewrite Hlen in Hrange.
  apply make_chunk_inv in Hmk as (fw & lw & Hfw & _ & _ & Hnum & _ & Hcount & _).
  specialize (Hbounds (s, e) (list_elem_of_lookup_2 _ _ _ Hrange)).
  simpl in Hbounds. destruct Hbounds as (Hs & _ & Hse).
  exists k, s, e. split; [exact Hrange|]. split; [exact Hnum|]. split; [exact Hcount|].
  rewrite getitem_nonneg in Hfw by exact Hs.
  apply lookup_lt_Some in Hfw. lia.
Qed.

(** C1 at 18 words. *)
Lemma chunker_ranges_partition_18 :
  1 <= 18
  /\ length (Chunker.line_word_ranges 18) = 4%nat
  /\ forall i, 0 <= i < 18 ->
       exists (k : nat) s e,
         Chunker.line_word_ranges 18 !! k = Some (s, e) /\ s <= i <= e.
Proof.
  assert (H : 1 <= 18) by lia.
  split; [exact H|].
  destruct (chunker_ranges_partition 18 H) as (Hlen & _ & _ & _ & _ & Hcover & _).
  split; [exact Hlen|].
  intros i Hi. destruct (Hcover i Hi) as (k & s & e & Hk & Hin & _).
  exists k, s, e. split; assumption.
Defined.


Lemma spanish_make_chunk_is_Some audio words output_dir line_idx s e :
  0 <= s -> s <= e -> e < Z.of_nat (length words) -> (line_idx < 4)%nat ->
  is_Some (SpanishSegment.make_chunk audio words output_dir line_idx s e).
Proof.
  intros Hs Hse He Hidx. unfold SpanishSegment.make_chunk.
  destruct (getitem_is_Some words s) as [fw ->]; [lia|].
  destruct (getitem_is_Some words e) as [lw ->]; [lia|].
  cbn [mbind option_bind].
  destruct (mapM_getitem_is_Some words s (e + 1)) as [ws ->]; [lia | lia |].
  cbn [mbind option_bind].
  destruct (getitem_is_Some SpanishSegment.spanish_lines (Z.of_nat line_idx))
    as [line ->]; [simpl; lia|].
  cbn [mbind option_bind]. eauto.
Qed.


Lemma spanish_chunk_loop_total audio words output_dir ranges :
  Forall (fun r => 0 <= r.2.1 /\ r.2.1 <= r.2.2
                   /\ r.2.2 < Z.of_nat (length words) /\ (r.1 < 4)%nat) ranges ->
  forall chunks files,
    is_Some (SpanishSegment.chunk_loop audio words output_dir ranges chunks files).
Proof.
  induction 1 as [|[idx [s e]] ranges (H0 & Hse & He & Hidx) _ IH];
    intros chunks files; simpl in *; [eauto|].
  destruct (spanish_make_chunk_is_Some audio words output_dir idx s e)
    as [[c clip] ->]; try lia.
  cbn [mbind option_bind]. apply IH.
Qed.











Lemma process_segment_inv segment_audio words target_lines part_name cosyvoice
    workspace_root language st out st2 :
  Chunker.process_segment segment_audio words target_lines part_name cosyvoice
    workspace_root language st = Some (out, st2) ->
  exists chunks_dir chunks st1,
    Chunker.create_line_chunks_from_json segment_audio words target_lines chunks_dir st
    = Some (chunks, st1)
    /\ Chunker.heap st2 = Chunker.heap st1.
Proof.
  unfold Chunker.process_segment.
  destruct (Chunker.create_line_chunks_from_json _ _ _ _ _) as [[chunks st1]|] eqn:E;
    [|discriminate].
  cbn [mbind option_bind].
  destruct (Chunker.generate_chunk_outputs _ _ _ _ _ _ _) as [[outs files]|];
    [|discriminate].
  cbn [mbind option_bind]. intros [= <- <-].
  eexists _, chunks, st1. split; [exact E | reflexivity].
Qed.

(** C10 (amended). When the analysis has at least one word and the
    target-text list has fewer than 4 entries,
    [create_line_chunks_from_json] appends empty strings to the caller's
    list object itself: after the call that object holds the old lines
    followed by empty strings, 4 entries in all, whichever name reaches
    it (the entry of the lyrics table as well), and no other list has
    changed. With 4 or more entries no list changes: the truncation binds
    a new list to the local name. With no word at all the function
    returns before the padding and the list is as it was. *)
Theorem target_lines_padded_in_place :
  (forall segment_audio_path (words : list DualFrame.word_timing) target_lines
          output_dir st audio lines,
      Chunker.fs st !! segment_audio_path = Some audio ->
      Chunker.heap st !! target_lines = Some lines ->
      words <> [] ->
      exists chunks st',
        Chunker.create_line_chunks_from_json segment_audio_path words target_lines
          output_dir st = Some (chunks, st')
        /\ ((length lines < 4)%nat ->
            Chunker.heap st'
            = <[target_lines := lines ++ replicate (4 - length lines) ""]> (Chunker.heap st)
            /\ (exists padded,
                  Chunker.heap st' !! target_lines = Some padded
                  /\ length padded = 4%nat
                  /\ padded = lines ++ replicate (4 - length lines) "")
            /\ (forall l, l <> target_lines ->
                  Chunker.heap st' !! l = Chunker.heap st !! l)
            /\ (forall (table : gmap string nat) part_name,
                  table !! part_name = Some target_lines ->
                  Chunker.lyrics_entry table part_name (Chunker.heap st')
                  = Some (lines ++ replicate (4 - length lines) "")))
        /\ ((4 <= length lines)%nat -> Chunker.heap st' = Chunker.heap st))
  /\ (forall segment_audio_path target_lines output_dir st audio,
        Chunker.fs st !! segment_audio_path = Some audio ->
        Chunker.create_line_chunks_from_json segment_audio_path [] target_lines
          output_dir st = Some ([], st))
  /\ (forall segment_audio words target_lines part_name cosyvoice workspace_root
             language st out st2,
        Chunker.process_segment segment_audio words target_lines part_name cosyvoice
          workspace_root language st = Some (out, st2) ->
        exists chunks_dir chunks st1,
          Chunker.create_line_chunks_from_json segment_audio words target_lines
            chunks_dir st = Some (chunks, st1)
          /\ Chunker.heap st2 = Chunker.heap st1).
Proof.
  split; [|split].
  - intros path words loc dir st audio lines Haudio Hlines Hwords.
    destruct (create_line_chunks_spec path words loc dir st audio lines
                Haudio Hlines Hwords) as (chunks & files & local & Hrun & _ & _).
    eexists chunks, _. split; [exact Hrun|]. simpl Chunker.heap.
    split.
    + intros Hlt. rewrite decide_True by exact Hlt.
      split; [reflexivity|]. split; [|split].
      * eexists. split; [apply lookup_insert_eq|]. split; [|reflexivity].
        rewrite length_app, length_replicate. lia.
      * intros l Hl. apply lookup_insert_ne. congruence.
      * intros table part Hpart. unfold Chunker.lyrics_entry. rewrite Hpart.
        cbn [mbind option_bind]. apply lookup_insert_eq.
    + intros Hge. rewrite decide_False by lia. reflexivity.
  - intros path loc dir st audio Haudio.
    unfold Chunker.create_line_chunks_from_json. rewrite Haudio. reflexivity.
  - intros. eapply process_segment_inv; eassumption.
Qed.

(** C10 at a list of three lines. *)
Lemma target_lines_padded_in_place_witness :
  exists chunks st',
    Chunker.create_line_chunks_from_json "seg.wav"
      [ {| DualFrame.index := 0; DualFrame.word := "mano";
           DualFrame.time_relative :=
             {| DualFrame.t_start := 0.5; DualFrame.t_end := 1.2;
                DualFrame.t_duration := 0.7 |};
           DualFrame.time_absolute :=
             {| DualFrame.t_start := 6.5; DualFrame.t_end := 7.2;
                DualFrame.t_duration := 0.7 |};
           DualFrame.avg_pitch_hz := Py.Absent;
           DualFrame.avg_energy_db := Py.Absent |} ]
      0%nat "chunks"
      {| Chunker.heap := {[ 0%nat := ["a"; "b"; "c"] ]};
         Chunker.fs := {[ "seg.wav" := [0; 0; 0] ]} |}
    = Some (chunks, st')
    /\ Chunker.heap st' !! 0%nat = Some ["a"; "b"; "c"; ""].
Proof.
  destruct (proj1 target_lines_padded_in_place "seg.wav"
              [ {| DualFrame.index := 0; DualFrame.word := "mano";
                   DualFrame.time_relative :=
                     {| DualFrame.t_start := 0.5; DualFrame.t_end := 1.2;
                        DualFrame.t_duration := 0.7 |};
                   DualFrame.time_absolute :=
                     {| DualFrame.t_start := 6.5; DualFrame.t_end := 7.2;
                        DualFrame.t_duration := 0.7 |};
                   DualFrame.avg_pitch_hz := Py.Absent;
                   DualFrame.avg_energy_db := Py.Absent |} ]
              0%nat "chunks"
              {| Chunker.heap := {[ 0%nat := ["a"; "b"; "c"] ]};
                 Chunker.fs := {[ "seg.wav" := [0; 0; 0] ]} |}
              [0; 0; 0] ["a"; "b"; "c"]
              (lookup_singleton_eq _ _) (lookup_singleton_eq _ _)
              ltac:(discriminate))
    as (chunks & st' & Hrun & Hshort & _).
  exists chunks, st'. split; [exact Hrun|].
  destruct (Hshort ltac:(simpl; lia)) as (_ & (padded & Hp & _ & ->) & _).
  exact Hp.
Defined.

(** C10, as stated, fails: with no word in the analysis the function
    returns at once, and a list of one line still has one line after the
    call. *)
Lemma no_words_no_padding :
  exists st',
    Chunker.create_line_chunks_from_json "seg.wav" [] 0%nat "chunks"
      {| Chunker.heap := {[ 0%nat := ["Toma mi mano"] ]};
         Chunker.fs := {[ "seg.wav" := [0; 0; 0] ]} |}
    = Some ([], st')
    /\ Chunker.heap st' !! 0%nat = Some ["Toma mi mano"].
Proof.
  eexists. split.
  - unfold Chunker.create_line_chunks_from_json. simpl Chunker.fs.
    rewrite lookup_singleton_eq. reflexivity.
  - simpl. apply lookup_singleton_eq.
Qed.

(** ** Synthesis failures *)

Lemma generate_target_chunk_spec cosyvoice chunk_info output_path
    (files : gmap string Pydub.AudioSegment) ref_waveform :
  files !! Chunker.chunk_path chunk_info = Some ref_waveform ->
  let r := Chunker.inference_cross_lingual cosyvoice
             (Chunker.target_text chunk_info) ref_waveform in
  (Chunker.failed r = true ->
     Chunker.generate_target_chunk cosyvoice chunk_info output_path files
     = Some (None, files))
  /\ (Chunker.failed r = false ->
      exists audio_chunks,
        r = Chunker.Yields audio_chunks
        /\ audio_chunks <> []
        /\ Chunker.generate_target_chunk cosyvoice chunk_info output_path files
           = Some (Some output_path, <[output_path := concat audio_chunks]> files)).
Proof.
  intros Hfile r. unfold Chunker.generate_target_chunk. rewrite Hfile.
  cbn [mbind option_bind]. fold r.
  destruct r as [[|o outs]|before]; simpl; split; intros H; try discriminate;
    try reflexivity.
  exists (o :: outs). split; [reflexivity|]. split; [discriminate | reflexivity].
Qed.

Lemma generate_chunk_outputs_spec cosyvoice output_dir language part_name chunks :
  forall chunk_outputs (files : gmap string Pydub.AudioSegment),
    Forall (fun c => is_Some (files !! Chunker.chunk_path c)) chunks ->
    exists results files',
      Chunker.generate_chunk_outputs cosyvoice output_dir language part_name
        chunks chunk_outputs files = Some (chunk_outputs ++ results, files')
      /\ (forall p, is_Some (files !! p) -> is_Some (files' !! p))
      /\ Forall2
           (fun c result =>
              exists ref_waveform,
                result
                = if Chunker.failed
                       (Chunker.inference_cross_lingual cosyvoice
                          (Chunker.target_text c) ref_waveform)
                  then None
                  else Some (Py.path_join output_dir
                               (language +:+ "_" +:+ part_name +:+ "_line_"
                                  +:+ pretty (Chunker.line_number c) +:+ ".wav")))
           chunks results.
Proof.
  induction chunks as [|c chunks IH]; intros acc files Hall; simpl.
  - exists [], files. rewrite app_nil_r. repeat split; auto.
  - apply Forall_cons in Hall as [[ref Href] Hall].
    set (output_path := Py.path_join output_dir _).
    destruct (generate_target_chunk_spec cosyvoice c output_path files ref Href)
      as [Hfail Hok].
    destruct (Chunker.failed _) eqn:Ef.
    + rewrite (Hfail eq_refl). cbn [mbind option_bind].
      destruct (IH (acc ++ [None]) files Hall) as (results & files' & Hrun & Hmono & Hres).
      exists (None :: results), files'. rewrite Hrun, <- app_assoc.
      split; [reflexivity|]. split; [exact Hmono|].
      constructor; [|exact Hres]. exists ref. rewrite Ef. reflexivity.
    + destruct (Hok eq_refl) as (outs & _ & _ & Hgen). rewrite Hgen.
      cbn [mbind option_bind].
      assert (Hall' : Forall (fun c => is_Some (<[output_path := concat outs]> files
                                                 !! Chunker.chunk_path c)) chunks).
      { eapply Forall_impl; [exact Hall|]. intros c' Hc'. cbv beta in *.
        destruct (decide (output_path = Chunker.chunk_path c')) as [<-|Hne].
        - rewrite lookup_insert_eq. eauto.
        - rewrite lookup_insert_ne by exact Hne. exact Hc'. }
      destruct (IH (acc ++ [Some output_path]) _ Hall')
        as (results & files' & Hrun & Hmono & Hres).
      exists (Some output_path :: results), files'. rewrite Hrun, <- app_assoc.
      split; [reflexivity|]. split.
      * intros p Hp. apply Hmono.
        destruct (decide (output_path = p)) as [<-|Hne].
        -- rewrite lookup_insert_eq. eauto.
        -- rewrite lookup_insert_ne by exact Hne. exact Hp.
      * constructor; [|exact Hres]. exists ref. rewrite Ef. reflexivity.
Qed.

Lemma merge_target_chunks_spec (chunk_outputs : list (option string)) output_path
    (files : gmap string Pydub.AudioSegment) :
  Chunker.merge_target_chunks chunk_outputs output_path files
  = (output_path,
     <[output_path := concat (omap (Chunker.usable files) chunk_outputs)]> files).
Proof.
  unfold Chunker.merge_target_chunks. f_equal. f_equal.
  assert (H : forall acc,
             fold_left (fun merged chunk_path =>
                          match Chunker.usable files chunk_path with
                          | Some chunk => Pydub.append merged chunk
                          | None => merged
                          end) chunk_outputs acc
             = acc ++ concat (omap (Chunker.usable files) chunk_outputs)).
  { induction chunk_outputs as [|o outs IH]; intros acc; simpl.
    - now rewrite app_nil_r.
    - rewrite IH. destruct (Chunker.usable files o); simpl; [|reflexivity].
      unfold Pydub.append. now rewrite <- app_assoc. }
  apply (H []).
Qed.

(** C8. A synthesis call that raises or yields nothing makes
    [generate_target_chunk] return [None] and changes no file; the loop
    of [process_segment] records one result per chunk, [None] for a
    failed chunk and the output path for the others, and goes on to the
    next chunk either way; [merge_target_chunks] has no failure path
    and concatenates the outputs that are present, skipping [None]; so
    [process_segment] returns for every behaviour of the engine. *)
Theorem synthesis_failure_is_isolated :
  (forall cosyvoice chunk_info output_path (files : gmap string Pydub.AudioSegment)
          ref_waveform,
      files !! Chunker.chunk_path chunk_info = Some ref_waveform ->
      let r := Chunker.inference_cross_lingual cosyvoice
                 (Chunker.target_text chunk_info) ref_waveform in
      (Chunker.failed r = true ->
         Chunker.generate_target_chunk cosyvoice chunk_info output_path files
         = Some (None, files))
      /\ (Chunker.failed r = false ->
          exists audio_chunks,
            r = Chunker.Yields audio_chunks
            /\ audio_chunks <> []
            /\ Chunker.generate_target_chunk cosyvoice chunk_info output_path files
               = Some (Some output_path, <[output_path := concat audio_chunks]> files)))
  /\ (forall cosyvoice output_dir language part_name chunks
             (files : gmap string Pydub.AudioSegment),
        Forall (fun c => is_Some (files !! Chunker.chunk_path c)) chunks ->
        exists chunk_outputs files',
          Chunker.generate_chunk_outputs cosyvoice output_dir language part_name
            chunks [] files = Some (chunk_outputs, files')
          /\ length chunk_outputs = length chunks
          /\ Forall2
               (fun c result =>
                  exists ref_waveform,
                    result
                    = if Chunker.failed
                           (Chunker.inference_cross_lingual cosyvoice
                              (Chunker.target_text c) ref_waveform)
                      then None
                      else Some (Py.path_join output_dir
                                   (language +:+ "_" +:+ part_name +:+ "_line_"
                                      +:+ pretty (Chunker.line_number c) +:+ ".wav")))
               chunks chunk_outputs)
  /\ (forall (chunk_outputs : list (option string)) output_path
             (files : gmap string Pydub.AudioSegment),
        Chunker.merge_target_chunks chunk_outputs output_path files
        = (output_path,
           <[output_path := concat (omap (Chunker.usable files) chunk_outputs)]> files))
  /\ (forall (files : gmap string Pydub.AudioSegment) p,
        Chunker.usable files None = None
        /\ (files !! p = None -> Chunker.usable files (Some p) = None))
  /\ (forall segment_audio (words : list DualFrame.word_timing) target_lines part_name
             cosyvoice workspace_root language st audio lines,
        Chunker.fs st !! segment_audio = Some audio ->
        Chunker.heap st !! target_lines = Some lines ->
        exists out st',
          Chunker.process_segment segment_audio words target_lines part_name
            cosyvoice workspace_root language st = Some (out, st')
          /\ is_Some (Chunker.fs st' !! out)).
Proof.
  split; [|split; [|split; [|split]]].
  - intros. apply generate_target_chunk_spec. assumption.
  - intros cosyvoice dir lang part chunks files Hall.
    destruct (generate_chunk_outputs_spec cosyvoice dir lang part chunks [] files Hall)
      as (results & files' & Hrun & _ & Hres).
    exists results, files'. split; [exact Hrun|].
    split; [symmetry; exact (Forall2_length _ _ _ Hres) | exact Hres].
  - apply merge_target_chunks_spec.
  - intros files p. split; [reflexivity|].
    intros Hp. simpl. destruct (decide (p = "")); [reflexivity | exact Hp].
  - intros seg words loc part cosyvoice root lang st audio lines Haudio Hlines.
    unfold Chunker.process_segment.
    set (chunks_dir := Py.path_join _ (lang +:+ "_" +:+ part)).
    assert (Hcreate : exists chunks st1,
               Chunker.create_line_chunks_from_json seg words loc chunks_dir st
               = Some (chunks, st1)
               /\ Forall (fun c => is_Some (Chunker.fs st1 !! Chunker.chunk_path c)) chunks).
    { destruct words as [|w ws].
      - exists [], st. split; [|constructor].
        unfold Chunker.create_line_chunks_from_json. rewrite Haudio. reflexivity.
      - destruct (create_line_chunks_spec seg (w :: ws) loc chunks_dir st audio lines
                    Haudio Hlines ltac:(discriminate))
          as (chunks & files & local & Hrun & _ & Hall).
        eexists chunks, _. split; [exact Hrun|]. simpl Chunker.fs.
        eapply Forall_impl; [exact Hall|].
        intros c (idx & s & e & clip & _ & _ & Hf). rewrite Hf. eauto. }
    destruct Hcreate as (chunks & st1 & -> & Hfiles).
    cbn [mbind option_bind].
    destruct (generate_chunk_outputs_spec cosyvoice
                (Py.path_join (Py.path_join root "data") "generated_vocals")
                lang part chunks [] (Chunker.fs st1) Hfiles)
      as (results & files' & Hrun & _ & _).
    simpl in Hrun. rewrite Hrun. cbn [mbind option_bind].
    rewrite merge_target_chunks_spec.
    eexists _, _. split; [reflexivity|].
    simpl. rewrite lookup_insert_eq. eauto.
Qed.

(** C8 at an engine that raises on every call: the segment of one word
    is still processed to the end. *)
Lemma synthesis_failure_is_isolated_witness :
  exists out st',
    Chunker.process_segment "seg.wav"
      [ {| DualFrame.index := 0; DualFrame.word := "mano";
           DualFrame.time_relative :=
             {| DualFrame.t_start := 0.5; DualFrame.t_end := 1.2;
                DualFrame.t_duration := 0.7 |};
           DualFrame.time_absolute :=
             {| DualFrame.t_start := 6.5; DualFrame.t_end := 7.2;
                DualFrame.t_duration := 0.7 |};
           DualFrame.avg_pitch_hz := Py.Absent;
           DualFrame.avg_energy_db := Py.Absent |} ]
      0%nat "part1"
      {| Chunker.sample_rate := 22050;
         Chunker.inference_cross_lingual := fun _ _ => Chunker.Raises [] |}
      "." "spanish"
      {| Chunker.heap := {[ 0%nat := ["a"; "b"; "c"; "d"] ]};
         Chunker.fs := {[ "seg.wav" := [0; 0; 0] ]} |}
    = Some (out, st').
Proof.
  destruct (proj2 (proj2 (proj2 (proj2 synthesis_failure_is_isolated))) "seg.wav"
              [ {| DualFrame.index := 0; DualFrame.word := "mano";
                   DualFrame.time_relative :=
                     {| DualFrame.t_start := 0.5; DualFrame.t_end := 1.2;
                        DualFrame.t_duration := 0.7 |};
                   DualFrame.time_absolute :=
                     {| DualFrame.t_start := 6.5; DualFrame.t_end := 7.2;
                        DualFrame.t_duration := 0.7 |};
                   DualFrame.avg_pitch_hz := Py.Absent;
                   DualFrame.avg_energy_db := Py.Absent |} ]
              0%nat "part1"
              {| Chunker.sample_rate := 22050;
                 Chunker.inference_cross_lingual := fun _ _ => Chunker.Raises [] |}
              "." "spanish"
              {| Chunker.heap := {[ 0%nat := ["a"; "b"; "c"; "d"] ]};
                 Chunker.fs := {[ "seg.wav" := [0; 0; 0] ]} |}
              [0; 0; 0] ["a"; "b"; "c"; "d"]
              (lookup_singleton_eq _ _) (lookup_singleton_eq _ _))
    as (out & st' & Hrun & _).
  exists out, st'. exact Hrun.
Defined.

(** ** Trimming *)

Lemma load_spec (d : Trim.document) (h : gmap nat Trim.object) :
  exists l1 l2 l3 l4 h',
    Trim.load d h
    = ({| Trim.run_id := Trim.d_run_id d;
          Trim.source_file := Trim.d_source_file d;
          Trim.segment_file := Trim.d_segment_file d;
          Trim.r_segment_range := l1;
          Trim.r_audio_analysis := l2;
          Trim.r_transcription := l3;
          Trim.word_segments := Trim.d_word_segments d;
          Trim.r_summary := l4 |}, h')
    /\ h' !! l1 = Some (Trim.SegmentRange (Trim.d_segment_range d))
    /\ h' !! l2 = Some (Trim.AudioAnalysis (Trim.d_audio_analysis d))
    /\ h' !! l3 = Some (Trim.Transcription (Trim.d_transcription d))
    /\ h' !! l4 = Some (Trim.Summary (Trim.d_summary d))
    /\ l1 <> l2 /\ l1 <> l3 /\ l1 <> l4 /\ l2 <> l3 /\ l2 <> l4 /\ l3 <> l4.
Proof.
  unfold Trim.load, Trim.alloc.
  set (l1 := fresh (dom h)).
  set (h1 := <[l1 := Trim.SegmentRange (Trim.d_segment_range d)]> h).
  set (l2 := fresh (dom h1)).
  set (h2 := <[l2 := Trim.AudioAnalysis (Trim.d_audio_analysis d)]> h1).
  set (l3 := fresh (dom h2)).
  set (h3 := <[l3 := Trim.Transcription (Trim.d_transcription d)]> h2).
  set (l4 := fresh (dom h3)).
  assert (F2 : h1 !! l2 = None) by (apply not_elem_of_dom, is_fresh).
  assert (F3 : h2 !! l3 = None) by (apply not_elem_of_dom, is_fresh).
  assert (F4 : h3 !! l4 = None) by (apply not_elem_of_dom, is_fresh).
  assert (N12 : l1 <> l2).
  { intros E. rewrite <- E in F2. subst h1. rewrite lookup_insert_eq in F2. discriminate. }
  assert (N23 : l2 <> l3).
  { intros E. rewrite <- E in F3. subst h2. rewrite lookup_insert_eq in F3. discriminate. }
  assert (N34 : l3 <> l4).
  { intros E. rewrite <- E in F4. subst h3. rewrite lookup_insert_eq in F4. discriminate. }
  assert (N13 : l1 <> l3).
  { intros E. rewrite <- E in F3. subst h2 h1.
    rewrite lookup_insert_ne, lookup_insert_eq in F3 by congruence. discriminate. }
  assert (N24 : l2 <> l4).
  { intros E. rewrite <- E in F4. subst h3 h2.
    rewrite lookup_insert_ne, lookup_insert_eq in F4 by congruence. discriminate. }
  assert (N14 : l1 <> l4).
  { intros E. rewrite <- E in F4. subst h3 h2 h1.
    rewrite !lookup_insert_ne, lookup_insert_eq in F4 by congruence. discriminate. }
  exists l1, l2, l3, l4. eexists. split; [reflexivity|].
  clear F2 F3 F4. subst h3 h2 h1.
  repeat split; try assumption.
  - rewrite !lookup_insert_ne, lookup_insert_eq by congruence. reflexivity.
  - rewrite !lookup_insert_ne, lookup_insert_eq by congruence. reflexivity.
  - rewrite lookup_insert_ne, lookup_insert_eq by congruence. reflexivity.
  - apply lookup_insert_eq.
Qed.

Lemma dump_load (d : Trim.document) (h : gmap nat Trim.object) :
  Trim.dump (Trim.load d h).1 (Trim.load d h).2 = Some d.
Proof.
  destruct (load_spec d h)
    as (l1 & l2 & l3 & l4 & h' & -> & H1 & H2 & H3 & H4 & _).
  unfold Trim.dump, Trim.get_segment_range, Trim.get_audio_analysis,
    Trim.get_transcription, Trim.get_summary. simpl.
  rewrite H1, H2, H3, H4. simpl. destruct d; reflexivity.
Qed.

(** The assignments of lines 78-89 on a freshly loaded report. The
    document that [dump] reads through [updated_analysis] is the trimmed
    one. The last conjunct reads [audio_analysis] through the original
    [analysis]: [copy()] shares the nested dicts, so that name sees the
    new duration too. *)
Lemma trim_update_spec (analysis : Trim.report) trimmed_path
    (tw : Precise.enriched_word) (h : gmap nat Trim.object) sr aa tr su :
  let l1 := Trim.r_segment_range analysis in
  let l2 := Trim.r_audio_analysis analysis in
  let l3 := Trim.r_transcription analysis in
  let l4 := Trim.r_summary analysis in
  h !! l1 = Some (Trim.SegmentRange sr) ->
  h !! l2 = Some (Trim.AudioAnalysis aa) ->
  h !! l3 = Some (Trim.Transcription tr) ->
  h !! l4 = Some (Trim.Summary su) ->
  l1 <> l2 -> l1 <> l3 -> l1 <> l4 -> l2 <> l3 -> l2 <> l4 -> l3 <> l4 ->
  let trim_end_time := Precise.stop (Precise.timing tw) in
  let filtered_words :=
    List.filter (fun w => Trim.index_of w <=? Trim.index_of tw) (Trim.word_timings tr) in
  exists updated h',
    Trim.trim_update analysis trimmed_path tw h = Some (updated, h')
    /\ Trim.dump updated h'
       = Some {| Trim.d_run_id := Trim.run_id analysis;
                 Trim.d_source_file := Trim.source_file analysis;
                 Trim.d_segment_file := trimmed_path;
                 Trim.d_segment_range :=
                   {| Trim.sr_start := Trim.sr_start sr;
                      Trim.sr_end := (Trim.sr_start sr + trim_end_time)%Q;
                      Trim.sr_duration := trim_end_time |};
                 Trim.d_audio_analysis :=
                   {| Trim.duration := trim_end_time;
                      Trim.sample_rate := Trim.sample_rate aa;
                      Trim.tempo := Trim.tempo aa;
                      Trim.beat_times := Trim.beat_times aa;
                      Trim.onset_times := Trim.onset_times aa;
                      Trim.pitch_contour := Trim.pitch_contour aa;
                      Trim.energy_contour := Trim.energy_contour aa;
                      Trim.gaps := Trim.gaps aa |};
                 Trim.d_transcription :=
                   {| Trim.full_text :=
                        String.concat " " (map Trim.word_of filtered_words);
                      Trim.word_timings := filtered_words;
                      Trim.segments := Trim.segments tr;
                      Trim.language := Trim.language tr |};
                 Trim.d_word_segments :=
                   List.filter (fun w => Trim.ws_index w <=? Trim.index_of tw)
                     (Trim.word_segments analysis);
                 Trim.d_summary :=
                   {| Trim.total_words := Z.of_nat (length filtered_words);
                      Trim.total_syllables_estimate := Trim.total_syllables_estimate su;
                      Trim.tempo_bpm := Trim.tempo_bpm su;
                      Trim.silent_gaps := Trim.silent_gaps su |} |}
    /\ Trim.get_audio_analysis h' (Trim.r_audio_analysis analysis)
       = Some {| Trim.duration := trim_end_time;
                 Trim.sample_rate := Trim.sample_rate aa;
                 Trim.tempo := Trim.tempo aa;
                 Trim.beat_times := Trim.beat_times aa;
                 Trim.onset_times := Trim.onset_times aa;
                 Trim.pitch_contour := Trim.pitch_contour aa;
                 Trim.energy_contour := Trim.energy_contour aa;
                 Trim.gaps := Trim.gaps aa |}.
Proof.
  intros l1 l2 l3 l4 H1 H2 H3 H4 N12 N13 N14 N23 N24 N34 trim_end_time filtered_words.
  unfold Trim.trim_update, Trim.dump, Trim.get_segment_range, Trim.get_audio_analysis,
    Trim.get_transcription, Trim.get_summary.
  cbn [Trim.r_segment_range Trim.r_audio_analysis Trim.r_transcription Trim.r_summary
       Trim.run_id Trim.source_file Trim.segment_file Trim.word_segments].
  fold l1 l2 l3 l4.
  eexists _, _. split; [|split].
  - simplify_map_eq. reflexivity.
  - simplify_map_eq. reflexivity.
  - simplify_map_eq. reflexivity.
Qed.

Lemma filter_contiguous {W} (idx : W -> Z) (words : list W) :
  forall off,
    (forall (k : nat) w, words !! k = Some w -> idx w = off + Z.of_nat k) ->
    forall i,
      List.filter (fun w => idx w <=? i) words = take (Z.to_nat (i - off + 1)) words.
Proof.
  induction words as [|x ws IH]; intros off Hidx i; simpl.
  - now rewrite take_nil.
  - assert (Hx : idx x = off) by (rewrite (Hidx 0%nat x eq_refl); lia).
    assert (Hws : forall (k : nat) w, ws !! k = Some w -> idx w = (off + 1) + Z.of_nat k).
    { intros k w Hk. rewrite (Hidx (S k) w Hk). lia. }
    rewrite (IH (off + 1) Hws i), Hx.
    destruct (Z.leb_spec off i).
    + replace (Z.to_nat (i - off + 1)) with (S (Z.to_nat (i - (off + 1) + 1))) by lia.
      reflexivity.
    + replace (Z.to_nat (i - (off + 1) + 1)) with 0%nat by lia.
      replace (Z.to_nat (i - off + 1)) with 0%nat by lia. reflexivity.
Qed.

Lemma find_target_lookup lower target_word (words : list Precise.enriched_word) tw :
  Trim.find_target lower target_word words = Some tw ->
  exists k : nat,
    words !! k = Some tw
    /\ lower (Trim.word_of tw) = lower target_word.
Proof.
  unfold Trim.find_target. intros H. apply find_some in H as [Hin Hb].
  apply list_elem_of_In, list_elem_of_lookup in Hin as [k Hk].
  exists k. split; [exact Hk|]. apply bool_decide_eq_true in Hb. exact Hb.
Qed.



(** What [trim_segment_to_word] does when the report, the target word
    and the segment audio are there. *)
Lemma trim_spec lower analysis_folder target_word (st : Trim.state) d tw audio :
  Trim.json_files st !! Trim.report_path analysis_folder = Some d ->
  Trim.find_target lower target_word (Trim.word_timings (Trim.d_transcription d))
  = Some tw ->
  Trim.wav_files st !! Trim.d_segment_file d = Some audio ->
  let trim_end_time := Precise.stop (Precise.timing tw) in
  let trimmed_path := Trim.trimmed_wav_path analysis_folder (Trim.d_segment_file d) in
  let filtered_words :=
    List.filter (fun w => Trim.index_of w <=? Trim.index_of tw)
      (Trim.word_timings (Trim.d_transcription d)) in
  let d' :=
    {| Trim.d_run_id := Trim.d_run_id d;
       Trim.d_source_file := Trim.d_source_file d;
       Trim.d_segment_file := trimmed_path;
       Trim.d_segment_range :=
         {| Trim.sr_start := Trim.sr_start (Trim.d_segment_range d);
            Trim.sr_end := (Trim.sr_start (Trim.d_segment_range d) + trim_end_time)%Q;
            Trim.sr_duration := trim_end_time |};
       Trim.d_audio_analysis :=
         {| Trim.duration := trim_end_time;
            Trim.sample_rate := Trim.sample_rate (Trim.d_audio_analysis d);
            Trim.tempo := Trim.tempo (Trim.d_audio_analysis d);
            Trim.beat_times := Trim.beat_times (Trim.d_audio_analysis d);
            Trim.onset_times := Trim.onset_times (Trim.d_audio_analysis d);
            Trim.pitch_contour := Trim.pitch_contour (Trim.d_audio_analysis d);
            Trim.energy_contour := Trim.energy_contour (Trim.d_audio_analysis d);
            Trim.gaps := Trim.gaps (Trim.d_audio_analysis d) |};
       Trim.d_transcription :=
         {| Trim.full_text := String.concat " " (map Trim.word_of filtered_words);
            Trim.word_timings := filtered_words;
            Trim.segments := Trim.segments (Trim.d_transcription d);
            Trim.language := Trim.language (Trim.d_transcription d) |};
       Trim.d_word_segments :=
         List.filter (fun w => Trim.ws_index w <=? Trim.index_of tw)
           (Trim.d_word_segments d);
       Trim.d_summary :=
         {| Trim.total_words := Z.of_nat (length filtered_words);
            Trim.total_syllables_estimate :=
              Trim.total_syllables_estimate (Trim.d_summary d);
            Trim.tempo_bpm := Trim.tempo_bpm (Trim.d_summary d);
            Trim.silent_gaps := Trim.silent_gaps (Trim.d_summary d) |} |} in
  exists h',
    Trim.trim_segment_to_word lower analysis_folder target_word st
    = Some (Some trimmed_path,
            {| Trim.json_files :=
                 <[Trim.updated_report_path analysis_folder := d']> (Trim.json_files st);
               Trim.wav_files :=
                 <[trimmed_path :=
                     Pydub.slice audio 0 (inject_Z (Py.int_of (trim_end_time * 1000)))]>
                   (Trim.wav_files st);
               Trim.heap := h' |}).
Proof.
  intros Hreport Hfind Hwav trim_end_time trimmed_path filtered_words d'.
  unfold Trim.trim_segment_to_word. rewrite Hreport.
  destruct (load_spec d (Trim.heap st))
    as (l1 & l2 & l3 & l4 & h & -> & H1 & H2 & H3 & H4 & N12 & N13 & N14 & N23 & N24 & N34).
  unfold Trim.get_transcription at 1. simpl Trim.r_transcription. rewrite H3.
  cbn [mbind option_bind]. rewrite Hfind.
  simpl Trim.segment_file. rewrite Hwav.
  edestruct (trim_update_spec
               {| Trim.run_id := Trim.d_run_id d;
                  Trim.source_file := Trim.d_source_file d;
                  Trim.segment_file := Trim.d_segment_file d;
                  Trim.r_segment_range := l1;
                  Trim.r_audio_analysis := l2;
                  Trim.r_transcription := l3;
                  Trim.word_segments := Trim.d_word_segments d;
                  Trim.r_summary := l4 |}
               trimmed_path tw h)
    as (updated & h' & Hupd & Hdump & _); try eassumption.
  fold trimmed_path. rewrite Hupd. cbn [mbind option_bind].
  rewrite Hdump. cbn [mbind option_bind].
  exists h'. reflexivity.
Qed.




(** * Further properties of the code *)

(** ** The chunker: count, numbering and files of the chunks *)

Ltac split_remainder_all r :=
  repeat match goal with
         | H : context [?k <? r] |- _ =>
             let E := fresh "E" in
             destruct (k <? r) eqn:E in *;
             [apply Z.ltb_lt in E | apply Z.ltb_ge in E]
         | |- context [?k <? r] =>
             let E := fresh "E" in
             destruct (k <? r) eqn:E in *;
             [apply Z.ltb_lt in E | apply Z.ltb_ge in E]
         end.

Lemma chunk_loop_full audio words lines output_dir ranges :
  NoDup ranges.*1 ->
  forall chunks files chunks' files',
    Chunker.chunk_loop audio words lines output_dir ranges chunks files
    = Some (chunks', files') ->
    exists (k : nat) new,
      chunks' = chunks ++ new
      /\ Forall2 (fun r c =>
                    r.2.1 < Z.of_nat (length words)
                    /\ exists clip,
                         Chunker.make_chunk audio words lines output_dir r.1 r.2.1 r.2.2
                         = Some (c, clip)
                         /\ files' !! Chunker.chunk_path c = Some clip)
           (take k ranges) new
      /\ (forall r, ranges !! k = Some r -> Z.of_nat (length words) <= r.2.1)
      /\ (forall p, (forall i, i ∈ ranges.*1 ->
                       p <> Py.path_join output_dir
                              ("chunk_line_" +:+ pretty (Z.of_nat i + 1) +:+ ".wav")) ->
            files' !! p = files !! p).
Proof.
  induction ranges as [|[idx [s e]] ranges IH]; intros Hnd chunks files chunks' files'; simpl.
  - intros [= <- <-]. exists 0%nat, []. rewrite app_nil_r.
    split; [reflexivity|]. split; [constructor|]. split; [intros r [=] | auto].
  - apply NoDup_cons in Hnd as [Hnotin Hnd].
    destruct (Z.leb_spec (Z.of_nat (length words)) s) as [Hbreak|Hlt].
    { intros [= <- <-]. exists 0%nat, []. rewrite app_nil_r.
      split; [reflexivity|]. split; [constructor|].
      split; [intros r [= <-]; exact Hbreak | auto]. }
    destruct (Chunker.make_chunk audio words lines output_dir idx s e)
      as [[c clip]|] eqn:Hmk; [|discriminate].
    cbn [mbind option_bind]. intros Hloop.
    destruct (IH Hnd _ _ _ _ Hloop) as (k & new & -> & Hall & Hstop & Hframe).
    pose proof (make_chunk_inv _ _ _ _ _ _ _ _ _ Hmk)
      as (fw & lw & _ & _ & _ & _ & Hpath & _).
    exists (S k), (c :: new). split; [now rewrite <- app_assoc|].
    split; [|split; [exact Hstop|]].
    + simpl. constructor; [|exact Hall]. simpl. split; [exact Hlt|].
      exists clip. split; [exact Hmk|].
      rewrite Hframe; [apply lookup_insert_eq|].
      intros i Hi E. rewrite Hpath in E. apply chunk_file_inj in E.
      apply Hnotin. assert (idx = i) by lia. subst i. exact Hi.
    + intros p Hp. rewrite Hframe.
      * apply lookup_insert_ne. rewrite Hpath. intros E. symmetry in E.
        revert E. apply Hp. simpl. left.
      * intros i Hi. apply Hp. simpl. right. exact Hi.
Qed.

Lemma create_line_chunks_unfold segment_audio_path words target_lines output_dir st
    audio lines :
  Chunker.fs st !! segment_audio_path = Some audio ->
  Chunker.heap st !! target_lines = Some lines ->
  words <> [] ->
  Chunker.create_line_chunks_from_json segment_audio_path words target_lines
    output_dir st
  = '(chunks, files) ←
      Chunker.chunk_loop audio words
        (take 4 (lines ++ replicate (4 - length lines) "")) output_dir
        (Py.enumerate (Chunker.line_word_ranges (Z.of_nat (length words))))
        [] (Chunker.fs st);
    Some (chunks,
          {| Chunker.heap :=
               if decide (length lines < 4)%nat
               then <[target_lines := lines ++ replicate (4 - length lines) ""]>
                      (Chunker.heap st)
               else Chunker.heap st;
             Chunker.fs := files |}).
Proof.
  intros Haudio Hlines Hwords.
  unfold Chunker.create_line_chunks_from_json.
  rewrite Haudio. cbn [mbind option_bind].
  destruct (decide (length words = 0%nat)) as [H0|_].
  { destruct words; [congruence | discriminate]. }
  rewrite Hlines. cbn [mbind option_bind].
  destruct (decide (length lines ≠ 4%nat)) as [Hne|Heq].
  - rewrite (pad_in_place_spec _ _ lines) by (auto; lia).
    destruct (decide (length lines < 4)%nat) as [Hlt|Hge].
    + rewrite lookup_insert_eq. cbn [mbind option_bind]. reflexivity.
    + rewrite Hlines. cbn [mbind option_bind].
      replace (4 - length lines)%nat with 0%nat by lia. simpl. rewrite app_nil_r.
      reflexivity.
  - assert (Hlen : length lines = 4%nat) by (destruct (decide (length lines = 4%nat)); tauto).
    rewrite Hlines. cbn [mbind option_bind].
    rewrite decide_False by lia.
    replace (4 - length lines)%nat with 0%nat by lia. simpl. rewrite app_nil_r.
    rewrite take_ge by lia. reflexivity.
Qed.

Lemma padded_lines_length (lines : list string) :
  length (take 4 (lines ++ replicate (4 - length lines) "")) = 4%nat.
Proof. rewrite length_take, length_app, length_replicate. lia. Qed.

Lemma padded_lines_lookup (lines : list string) (k : nat) :
  (k < 4)%nat ->
  take 4 (lines ++ replicate (4 - length lines) "") !! k
  = Some (default "" (lines !! k)).
Proof.
  intros Hk. rewrite lookup_take_lt by exact Hk.
  destruct (lines !! k) as [l|] eqn:E.
  - rewrite lookup_app_l by (eapply lookup_lt_Some; exact E). rewrite E. reflexivity.
  - apply lookup_ge_None in E. rewrite lookup_app_r by exact E.
    simpl. apply lookup_replicate_2. lia.
Qed.

(** X1. When the segment audio and the lyrics entry are there,
    [create_line_chunks_from_json] returns one chunk per line, numbered
    from 1 with no number left out: as many chunks as there are words
    when there are fewer than 4 words (none for no word), 4 otherwise;
    the word counts of the chunks add up to the number of words. *)
Theorem chunker_chunk_count segment_audio_path (words : list DualFrame.word_timing)
    target_lines output_dir st audio lines :
  Chunker.fs st !! segment_audio_path = Some audio ->
  Chunker.heap st !! target_lines = Some lines ->
  exists chunks st',
    Chunker.create_line_chunks_from_json segment_audio_path words target_lines
      output_dir st = Some (chunks, st')
    /\ map Chunker.line_number chunks
       = map (fun k => Z.of_nat k + 1) (seq 0 (Nat.min (length words) 4))
    /\ (length chunks = 4%nat <-> (4 <= length words)%nat)
    /\ fold_right Z.add 0 (map Chunker.word_count chunks) = Z.of_nat (length words).
Proof.
  intros Haudio Hlines.
  destruct (decide (words = [])) as [->|Hwords].
  { exists [], st. unfold Chunker.create_line_chunks_from_json. rewrite Haudio.
    simpl. repeat split; try reflexivity; simpl; lia. }
  rewrite (create_line_chunks_unfold _ _ _ _ _ audio lines Haudio Hlines Hwords).
  set (n := Z.of_nat (length words)).
  assert (Hn : 1 <= n) by (subst n; destruct words; [congruence | simpl; lia]).
  set (local := take 4 _).
  destruct (chunk_loop_total audio words local output_dir
              (Py.enumerate (Chunker.line_word_ranges n))
              (enumerate_ranges_good _ _ Hn (padded_lines_length lines)) [] (Chunker.fs st))
    as [[chunks files] Hloop].
  rewrite Hloop. cbn [mbind option_bind].
  eexists chunks, _. split; [reflexivity|].
  destruct (chunk_loop_full audio words local output_dir _
              ltac:(rewrite enumerate_fst; apply NoDup_seq) _ _ _ _ Hloop)
    as (k & new & Hnew & Hall & Hstop & _).
  simpl in Hnew. subst new.
  assert (Hdiv : n = 4 * (n / 4) + n mod 4) by (apply Z.div_mod; lia).
  assert (Hrem : 0 <= n mod 4 < 4) by (apply Z.mod_pos_bound; lia).
  rewrite line_word_ranges_unfold in Hall, Hstop. cbv zeta in Hall, Hstop.
  set (b := n / 4) in *. set (r := n mod 4) in *. clearbody b r.
  assert (Hfacts : forall c (i : nat) s e clip,
             Chunker.make_chunk audio words local output_dir i s e = Some (c, clip) ->
             Chunker.line_number c = Z.of_nat i + 1 /\ Chunker.word_count c = e - s + 1).
  { intros c i s e clip Hmk.
    apply make_chunk_inv in Hmk as (_ & _ & _ & _ & _ & H1 & _ & H2 & _). auto. }
  unfold Py.enumerate in Hall, Hstop. simpl imap in Hall, Hstop.
  clear Hloop.
  assert (Hlen : exists m : nat, length words = m /\ n = Z.of_nat m)
    by (eexists; split; reflexivity).
  destruct Hlen as (m & Hm & Hnm). rewrite Hm.
  fold n in Hall, Hstop. clearbody n. clear Hm.
  destruct k as [|[|[|[|k]]]]; simpl take in Hall; rewrite ?take_nil in Hall;
    repeat match goal with
           | H : Forall2 _ (_ :: _) _ |- _ =>
               apply Forall2_cons_inv_l in H as (? & ? & (? & ? & ? & _) & ? & ->)
           | H : Forall2 _ [] _ |- _ => apply Forall2_nil_inv_l in H as ->
           | H : Chunker.make_chunk _ _ _ _ _ _ _ = Some _ |- _ =>
               apply Hfacts in H as [? ?]
           end;
    simpl in *;
    try (specialize (Hstop _ eq_refl); simpl in Hstop).
  - exfalso. lia.
  - assert (m = 1%nat) by (split_remainder_all r; lia). subst m. simpl.
    split; [congruence|]. split; [lia|]. split_remainder_all r; lia.
  - assert (m = 2%nat) by (split_remainder_all r; lia). subst m. simpl.
    split; [congruence|]. split; [lia|]. split_remainder_all r; lia.
  - assert (m = 3%nat) by (split_remainder_all r; lia). subst m. simpl.
    split; [congruence|]. split; [lia|]. split_remainder_all r; lia.
  - assert (4 <= m)%nat by (split_remainder_all r; lia).
    replace (m `min` 4)%nat with 4%nat by lia. simpl.
    split; [congruence|]. split; [lia|]. split_remainder_all r; lia.
Qed.


(** The chunks of a segment with at least one word, each with its line,
    its file and its clip, and the files the call leaves alone. *)
(** X1 for a segment of one word: one chunk, for line 1. *)
Lemma chunker_chunk_count_witness :
  exists chunks st',
    Chunker.create_line_chunks_from_json "seg.wav" [Inputs.mano] 0%nat "chunks"
      Inputs.chunk_disk = Some (chunks, st')
    /\ map Chunker.line_number chunks = [1].
Proof.
  destruct (chunker_chunk_count "seg.wav" [Inputs.mano] 0%nat "chunks"
              Inputs.chunk_disk [0; 0; 0] ["a"; "b"; "c"; "d"]
              (lookup_singleton_eq _ _) (lookup_singleton_eq _ _))
    as (chunks & st' & Hrun & Hnumbers & _).
  exists chunks, st'. split; [exact Hrun | exact Hnumbers].
Defined.

Lemma create_line_chunks_files segment_audio_path words target_lines output_dir st
    audio lines :
  Chunker.fs st !! segment_audio_path = Some audio ->
  Chunker.heap st !! target_lines = Some lines ->
  words <> [] ->
  exists chunks st',
    Chunker.create_line_chunks_from_json segment_audio_path words target_lines
      output_dir st = Some (chunks, st')
    /\ NoDup (map Chunker.line_number chunks)
    /\ Forall (fun c =>
                 1 <= Chunker.line_number c <= 4
                 /\ Chunker.target_text c
                    = default "" (lines !! Z.to_nat (Chunker.line_number c - 1))
                 /\ Chunker.chunk_path c
                    = Py.path_join output_dir
                        ("chunk_line_" +:+ pretty (Chunker.line_number c) +:+ ".wav")
                 /\ is_Some (Chunker.fs st' !! Chunker.chunk_path c)) chunks
    /\ (forall p, (forall k, 1 <= k <= 4 ->
                     p <> Py.path_join output_dir
                            ("chunk_line_" +:+ pretty k +:+ ".wav")) ->
          Chunker.fs st' !! p = Chunker.fs st !! p).
Proof.
  intros Haudio Hlines Hwords.
  rewrite (create_line_chunks_unfold _ _ _ _ _ audio lines Haudio Hlines Hwords).
  set (n := Z.of_nat (length words)).
  assert (Hn : 1 <= n) by (subst n; destruct words; [congruence | simpl; lia]).
  set (local := take 4 _).
  destruct (chunk_loop_total audio words local output_dir
              (Py.enumerate (Chunker.line_word_ranges n))
              (enumerate_ranges_good _ _ Hn (padded_lines_length lines)) [] (Chunker.fs st))
    as [[chunks files] Hloop].
  rewrite Hloop. cbn [mbind option_bind].
  eexists chunks, _. split; [reflexivity|]. simpl Chunker.fs.
  destruct (chunk_loop_full audio words local output_dir _
              ltac:(rewrite enumerate_fst; apply NoDup_seq) _ _ _ _ Hloop)
    as (k & new & Hnew & Hall & _ & Hframe).
  simpl in Hnew. subst new.
  destruct (line_word_ranges_bounds n Hn) as [Hlen _].
  assert (Hidx : Forall2 (fun r c =>
                   (r.1 < 4)%nat
                   /\ Chunker.line_number c = Z.of_nat r.1 + 1
                   /\ Chunker.target_text c = default "" (lines !! r.1)
                   /\ Chunker.chunk_path c
                      = Py.path_join output_dir
                          ("chunk_line_" +:+ pretty (Chunker.line_number c) +:+ ".wav")
                   /\ is_Some (files !! Chunker.chunk_path c))
                  (take k (Py.enumerate (Chunker.line_word_ranges n))) chunks).
  { apply Forall2_same_length_lookup_2; [exact (Forall2_length _ _ _ Hall)|].
    intros j [idx [s e]] c Hr Hc.
    destruct (Forall2_lookup_lr _ _ _ _ _ _ Hall Hr Hc) as (_ & clip & Hmk & Hfile).
    cbn [fst snd] in Hmk, Hfile |- *.
    assert (Hin : (idx < 4)%nat).
    { rewrite <- Hlen. apply lookup_take_Some in Hr as [Hr _].
      eapply lookup_lt_Some, enumerate_elem, list_elem_of_lookup_2, Hr. }
    apply make_chunk_inv in Hmk as (_ & _ & _ & _ & Htext & Hnum & Hpath & _).
    split; [exact Hin|]. split; [exact Hnum|].
    rewrite getitem_nonneg in Htext by lia. rewrite Nat2Z.id in Htext.
    subst local. rewrite padded_lines_lookup in Htext by exact Hin.
    split; [congruence|]. rewrite Hnum. split; [exact Hpath|]. rewrite Hfile. eauto. }
  split; [|split].
  - assert (Hmap : map Chunker.line_number chunks
                   = map (fun i => Z.of_nat i + 1)
                       (take k (Py.enumerate (Chunker.line_word_ranges n))).*1).
    { clear -Hidx. induction Hidx as [|r c rs cs (_ & Hnum & _) _ IH]; simpl;
        [reflexivity | now rewrite IH, Hnum]. }
    rewrite Hmap. rewrite fmap_take, enumerate_fst.
    apply NoDup_fmap_2; [intros i j; lia|].
    apply (sublist_NoDup _ (seq 0 (length (Chunker.line_word_ranges n))));
      [apply NoDup_seq | apply sublist_take].
  - apply (Forall2_Forall_r _ _ _ _ Hidx). apply Forall_forall. intros r _ c.
    intros (Hlt & Hnum & Htext & Hpath & Hfile).
    split; [lia|]. split; [|auto].
    rewrite Htext. f_equal. f_equal. lia.
  - intros p Hp. apply Hframe. intros i Hi.
    rewrite enumerate_fst, Hlen in Hi. apply elem_of_seq in Hi.
    apply Hp. lia.
Qed.

(** X2. Every chunk has a line number from 1 to 4, carries the target
    line of that number (the empty string when the lyrics entry is
    shorter), and its clip is in the file [chunk_line_<number>.wav] of
    the output folder; the call changes no file but
    [chunk_line_1.wav] to [chunk_line_4.wav] of that folder. *)
Theorem chunk_lines_alignment segment_audio_path (words : list DualFrame.word_timing)
    target_lines output_dir st audio lines :
  Chunker.fs st !! segment_audio_path = Some audio ->
  Chunker.heap st !! target_lines = Some lines ->
  exists chunks st',
    Chunker.create_line_chunks_from_json segment_audio_path words target_lines
      output_dir st = Some (chunks, st')
    /\ Forall (fun c =>
                 1 <= Chunker.line_number c <= 4
                 /\ Chunker.target_text c
                    = default "" (lines !! Z.to_nat (Chunker.line_number c - 1))
                 /\ Chunker.chunk_path c
                    = Py.path_join output_dir
                        ("chunk_line_" +:+ pretty (Chunker.line_number c) +:+ ".wav")
                 /\ is_Some (Chunker.fs st' !! Chunker.chunk_path c)) chunks
    /\ (forall p, (forall k, 1 <= k <= 4 ->
                     p <> Py.path_join output_dir
                            ("chunk_line_" +:+ pretty k +:+ ".wav")) ->
          Chunker.fs st' !! p = Chunker.fs st !! p).
Proof.
  intros Haudio Hlines.
  destruct (decide (words = [])) as [->|Hwords].
  { exists [], st. unfold Chunker.create_line_chunks_from_json. rewrite Haudio.
    simpl. repeat split; auto. }
  destruct (create_line_chunks_files _ _ _ output_dir _ _ _ Haudio Hlines Hwords)
    as (chunks & st' & Hrun & _ & Hall & Hframe).
  exists chunks, st'. auto.
Qed.

(** X2 for a segment of one word: its chunk carries a line of the table. *)
Lemma chunk_lines_alignment_witness :
  exists chunks st',
    Chunker.create_line_chunks_from_json "seg.wav" [Inputs.mano] 0%nat "chunks"
      Inputs.chunk_disk = Some (chunks, st')
    /\ Forall (fun c => 1 <= Chunker.line_number c <= 4) chunks.
Proof.
  destruct (chunk_lines_alignment "seg.wav" [Inputs.mano] 0%nat "chunks"
              Inputs.chunk_disk [0; 0; 0] ["a"; "b"; "c"; "d"]
              (lookup_singleton_eq _ _) (lookup_singleton_eq _ _))
    as (chunks & st' & Hrun & Hall & _).
  exists chunks, st'. split; [exact Hrun|].
  eapply Forall_impl; [exact Hall|]. intros c [H _]. exact H.
Defined.

Lemma string_app_assoc (a b c : string) : (a +:+ b) +:+ c = a +:+ (b +:+ c).
Proof.
  assert (H : String.list_ascii_of_string ((a +:+ b) +:+ c)
              = String.list_ascii_of_string (a +:+ (b +:+ c)))
    by (rewrite !list_of_string_app; symmetry; apply app_assoc).
  apply (f_equal String.string_of_list_ascii) in H.
  now rewrite !String.string_of_list_ascii_of_string in H.
Qed.


(** ** The chunker: what the merged file of a segment holds *)





(** ** generate_spanish_segment.py: the fixed ranges *)

Lemma spanish_make_chunk_text audio words output_dir line_idx s e c clip :
  SpanishSegment.make_chunk audio words output_dir line_idx s e = Some (c, clip) ->
  is_Some (Py.getitem words e)
  /\ SpanishSegment.line_number c = Z.of_nat line_idx + 1
  /\ Py.getitem SpanishSegment.spanish_lines (Z.of_nat line_idx)
     = Some (SpanishSegment.spanish_text c).
Proof.
  unfold SpanishSegment.make_chunk.
  destruct (Py.getitem words s) as [first_word|]; [|discriminate].
  destruct (Py.getitem words e) as [last_word|]; [|discriminate].
  cbn [mbind option_bind].
  destruct (mapM _ _) as [ws|]; [|discriminate].
  cbn [mbind option_bind].
  destruct (Py.getitem SpanishSegment.spanish_lines (Z.of_nat line_idx)) as [line|];
    [|discriminate].
  cbn [mbind option_bind]. intros [= <- <-]. cbn. eauto.
Qed.

Lemma spanish_chunk_loop_calls audio words output_dir ranges :
  forall chunks files chunks' files',
    SpanishSegment.chunk_loop audio words output_dir ranges chunks files
    = Some (chunks', files') ->
    exists new,
      chunks' = chunks ++ new
      /\ Forall2 (fun r c =>
                    exists clip,
                      SpanishSegment.make_chunk audio words output_dir r.1 r.2.1 r.2.2
                      = Some (c, clip)) ranges new.
Proof.
  induction ranges as [|[idx [s e]] ranges IH]; intros chunks files chunks' files'; simpl.
  - intros [= <- <-]. exists []. rewrite app_nil_r. split; [reflexivity | constructor].
  - destruct (SpanishSegment.make_chunk audio words output_dir idx s e)
      as [[c clip]|] eqn:Hmk; [|discriminate].
    cbn [mbind option_bind]. intros Hloop.
    destruct (IH _ _ _ _ Hloop) as (new & -> & Hall).
    exists (c :: new). split; [now rewrite <- app_assoc|].
    constructor; [|exact Hall]. exists clip. exact Hmk.
Qed.

(** X4. [create_line_chunks] of generate_spanish_segment.py returns
    exactly when the segment audio is there and the analysis has at
    least 18 words: with fewer the fixed ranges run past the word list
    and the call stops with an [IndexError]. When it returns, the chunks
    are numbered 1 to 4 and carry the four Spanish lines in order. *)
Theorem spanish_chunks_need_18_words segment_audio_path
    (words : list DualFrame.word_timing) output_dir
    (files : gmap string (list Z)) :
  (is_Some (SpanishSegment.create_line_chunks segment_audio_path words output_dir files)
   <-> is_Some (files !! segment_audio_path) /\ (18 <= length words)%nat)
  /\ (forall chunks files',
        SpanishSegment.create_line_chunks segment_audio_path words output_dir files
        = Some (chunks, files') ->
        map SpanishSegment.line_number chunks = [1; 2; 3; 4]
        /\ map SpanishSegment.spanish_text chunks = SpanishSegment.spanish_lines).
Proof.
  assert (Hinv : forall chunks files',
             SpanishSegment.create_line_chunks segment_audio_path words output_dir files
             = Some (chunks, files') ->
             is_Some (files !! segment_audio_path) /\ (18 <= length words)%nat
             /\ map SpanishSegment.line_number chunks = [1; 2; 3; 4]
             /\ map SpanishSegment.spanish_text chunks = SpanishSegment.spanish_lines).
  { intros chunks files'. unfold SpanishSegment.create_line_chunks.
    destruct (files !! segment_audio_path) as [audio|]; [|discriminate].
    cbn [mbind option_bind]. intros Hloop.
    apply spanish_chunk_loop_calls in Hloop as (new & Hnew & Hall).
    simpl in Hnew. subst new.
    unfold Py.enumerate, SpanishSegment.line_word_ranges in Hall. simpl imap in Hall.
    repeat match goal with
           | H : Forall2 _ (_ :: _) _ |- _ =>
               apply Forall2_cons_inv_l in H as (? & ? & (? & ?) & ? & ->)
           | H : Forall2 _ [] _ |- _ => apply Forall2_nil_inv_l in H as ->
           | H : SpanishSegment.make_chunk _ _ _ _ _ _ = Some _ |- _ =>
               apply spanish_make_chunk_text in H as (? & ? & ?)
           end.
    cbn [fst snd] in *.
    split; [eauto|]. split.
    - match goal with
      | H : is_Some (Py.getitem words 17) |- _ =>
          rewrite getitem_nonneg in H by lia; apply lookup_lt_is_Some in H
      end. lia.
    - cbn [map].
      repeat match goal with
             | H : SpanishSegment.line_number _ = _ |- _ =>
                 simpl in H; rewrite H; clear H
             | H : Py.getitem SpanishSegment.spanish_lines _ = Some _ |- _ =>
                 unfold Py.getitem, SpanishSegment.spanish_lines in H; simpl in H;
                 injection H as H; rewrite <- H; clear H
             end.
      simpl. split; reflexivity. }
  split; [split|].
  - intros [[chunks files'] Hrun]. apply Hinv in Hrun. tauto.
  - intros [[audio Haudio] Hwords]. unfold SpanishSegment.create_line_chunks.
    rewrite Haudio. cbn [mbind option_bind].
    apply spanish_chunk_loop_total. repeat constructor; simpl; lia.
  - intros chunks files' Hrun. apply Hinv in Hrun. tauto.
Qed.

(** ** The detected vocal region *)

Lemma frames_to_time_mono (sr hop a b : Z) :
  0 < sr -> 0 <= hop -> a <= b ->
  (PreciseAnalysis.frames_to_time sr hop a <= PreciseAnalysis.frames_to_time sr hop b)%Q.
Proof.
  intros Hsr Hhop Hab. unfold PreciseAnalysis.frames_to_time.
  apply Qmult_le_compat_r.
  - rewrite <- Zle_Qle. nia.
  - apply Qinv_le_0_compat. change 0%Q with (inject_Z 0). rewrite <- Zle_Qle. lia.
Qed.

Lemma active_frames_from (threshold : Q) (energy : list Q) :
  forall k : nat,
    let l := map (fun p : nat * Q => Z.of_nat p.1)
               (List.filter (fun p : nat * Q => if Qlt_le_dec threshold p.2 then true else false)
                  (imap (fun i x => ((k + i)%nat, x)) energy)) in
    Forall (fun z => Z.of_nat k <= z < Z.of_nat (k + length energy)) l.
Proof.
  induction energy as [|x energy IH]; intros k; simpl; [constructor|].
  assert (Hext : imap ((fun i x => ((k + i)%nat, x)) ∘ S) energy
                 = imap (fun i x => ((S k + i)%nat, x)) energy).
  { apply imap_ext. intros i y _. simpl. f_equal. lia. }
  rewrite Hext.
  assert (Htail := IH (S k)). simpl in Htail.
  assert (Htail' : Forall (fun z => Z.of_nat k <= z < Z.of_nat (k + S (length energy)))
                     (map (fun p : nat * Q => Z.of_nat p.1)
                        (List.filter (fun p : nat * Q => if Qlt_le_dec threshold p.2 then true else false)
                           (imap (fun i x => (S (k + i), x)) energy)))).
  { eapply Forall_impl; [exact Htail|]. intros z Hz. simpl in Hz. lia. }
  destruct (Qlt_le_dec threshold x); simpl; [|exact Htail'].
  constructor; [|exact Htail']. lia.
Qed.

Lemma active_frames_sorted_from (threshold : Q) (energy : list Q) :
  forall k : nat,
    StronglySorted Z.lt
      (map (fun p : nat * Q => Z.of_nat p.1)
         (List.filter (fun p : nat * Q => if Qlt_le_dec threshold p.2 then true else false)
            (imap (fun i x => ((k + i)%nat, x)) energy))).
Proof.
  induction energy as [|x energy IH]; intros k; simpl; [constructor|].
  assert (Hext : imap ((fun i x => ((k + i)%nat, x)) ∘ S) energy
                 = imap (fun i x => ((S k + i)%nat, x)) energy).
  { apply imap_ext. intros i y _. simpl. f_equal. lia. }
  rewrite Hext.
  destruct (Qlt_le_dec threshold x); simpl; [|apply (IH (S k))].
  constructor; [apply (IH (S k))|].
  eapply Forall_impl; [apply (active_frames_from threshold energy (S k))|].
  intros z Hz. simpl in Hz. lia.
Qed.

Lemma active_frames_spec (energy : list Q) (threshold : Q) :
  Forall (fun z => 0 <= z < Z.of_nat (length energy))
    (PreciseAnalysis.active_frames energy threshold)
  /\ StronglySorted Z.lt (PreciseAnalysis.active_frames energy threshold).
Proof.
  split.
  - apply (active_frames_from threshold energy 0).
  - apply (active_frames_sorted_from threshold energy 0).
Qed.

Lemma last_Forall {A} (P : A -> Prop) (l : list A) (d : A) :
  Forall P l -> P d -> P (List.last l d).
Proof.
  induction 1 as [|x l Hx Hl IH]; intros Hd; simpl; [exact Hd|].
  destruct l; [exact Hx | apply IH; exact Hd].
Qed.

(** X5. [auto_detect_vocal_region], for [0 <= min_duration <=
    max_duration] and an energy vector of at most [1 + n_samples / 512]
    frames: with no frame above the threshold the answer is the default
    (5, 25); otherwise the region starts at the time of the first active
    frame, ends no earlier than it starts and no later than the audio,
    is never longer than [max_duration], and is at least [min_duration]
    long whenever the audio goes on that long after the start. *)
Theorem vocal_region_bounds (energy : list Q) (threshold : Q) (n_samples : Z)
    (min_duration max_duration : Q) :
  (0 <= min_duration)%Q -> (min_duration <= max_duration)%Q ->
  Z.of_nat (length energy) <= 1 + n_samples / 512 ->
  let region :=
    PreciseAnalysis.auto_detect_vocal_region energy threshold n_samples
      min_duration max_duration in
  let duration := (inject_Z n_samples / 16000)%Q in
  (PreciseAnalysis.active_frames energy threshold = [] -> region = (5, 25)%Q)
  /\ (forall first rest,
        PreciseAnalysis.active_frames energy threshold = first :: rest ->
        region.1 = PreciseAnalysis.frames_to_time 16000 512 first
        /\ (region.1 <= region.2)%Q
        /\ (region.2 <= duration)%Q
        /\ (region.2 - region.1 <= max_duration)%Q
        /\ ((region.1 + min_duration <= duration)%Q ->
            (min_duration <= region.2 - region.1)%Q)).
Proof.
  intros Hmin Hmax Hframes region duration. subst region.
  unfold PreciseAnalysis.auto_detect_vocal_region.
  split; [intros ->; reflexivity|].
  intros first rest Hactive. rewrite Hactive.
  destruct (active_frames_spec energy threshold) as [Hall Hsorted].
  rewrite Hactive in Hall, Hsorted.
  apply Forall_cons in Hall as [Hfirst Hrest].
  apply StronglySorted_inv in Hsorted as [_ Hlt].
  set (t := PreciseAnalysis.frames_to_time 16000 512).
  assert (Hle : forall z, first <= z < Z.of_nat (length energy) ->
                          (t first <= t z)%Q /\ (t z <= duration)%Q).
  { intros z Hz. split.
    - apply frames_to_time_mono; lia.
    - unfold t, PreciseAnalysis.frames_to_time, duration.
      apply Qmult_le_compat_r; [|discriminate].
      rewrite <- Zle_Qle.
      assert (512 * (n_samples / 512) <= n_samples)
        by (apply Z.mul_div_le; lia).
      lia. }
  set (last_time := List.last (map t (first :: rest)) (t first)).
  assert (Hlast : (t first <= last_time)%Q /\ (last_time <= duration)%Q).
  { subst last_time. apply last_Forall; [|apply Hle; lia].
    apply Forall_map. constructor; [apply Hle; lia|].
    rewrite Forall_forall in Hrest, Hlt. apply Forall_forall. intros z Hz.
    apply Hle. specialize (Hrest z Hz). specialize (Hlt z Hz). lia. }
  destruct (Hle first ltac:(lia)) as [_ Hfd].
  destruct Hlast as [Hl1 Hl2].
  change (inject_Z n_samples / inject_Z 16000)%Q with duration.
  fold t. fold last_time. clearbody last_time duration.
  unfold Py.min.
  destruct (Qlt_le_dec last_time (t first + max_duration));
    match goal with
    | |- context [Qlt_le_dec ?a min_duration] => destruct (Qlt_le_dec a min_duration)
    end;
    try match goal with
        | |- context [Qlt_le_dec duration ?a] => destruct (Qlt_le_dec duration a)
        end;
    cbn [fst snd]; (split; [reflexivity|]); repeat split; intros; lra.
Qed.


(** X5 at four frames of which the two in the middle are active, in
    30 s of audio: the region is stretched to the minimum of 15 s. *)
Lemma vocal_region_bounds_witness :
  let region :=
    PreciseAnalysis.auto_detect_vocal_region [0.1; 0.9; 0.8; 0.1]%Q 0.5 480000 15 25 in
  (region.1 <= region.2)%Q /\ (15 <= region.2 - region.1)%Q.
Proof.
  destruct (vocal_region_bounds [0.1; 0.9; 0.8; 0.1]%Q 0.5 480000 15 25
              ltac:(discriminate) ltac:(discriminate) ltac:(vm_compute; discriminate))
    as [_ H].
  destruct (H 1 [2] eq_refl) as (_ & H1 & _ & _ & H2).
  split; [exact H1|]. apply H2. vm_compute. discriminate.
Defined.

(** ** Silence gaps *)

Lemma frames_to_time_lt (sr hop a b : Z) :
  0 < sr -> 0 < hop -> a < b ->
  (PreciseAnalysis.frames_to_time sr hop a < PreciseAnalysis.frames_to_time sr hop b)%Q.
Proof.
  intros Hsr Hhop Hab. unfold PreciseAnalysis.frames_to_time.
  apply Qmult_lt_compat_r.
  - apply Qinv_lt_0_compat. change 0%Q with (inject_Z 0). rewrite <- Zlt_Qlt. lia.
  - rewrite <- Zlt_Qlt. nia.
Qed.

Lemma gap_loop_app rms_times l1 :
  forall l2 st,
    PreciseAnalysis.gap_loop rms_times (l1 ++ l2) st
    = st' ← PreciseAnalysis.gap_loop rms_times l1 st;
      PreciseAnalysis.gap_loop rms_times l2 st'.
Proof.
  induction l1 as [|[i b] l1 IH]; intros l2 st; simpl; [reflexivity|].
  destruct (b && negb (PreciseAnalysis.in_gap st)).
  - destruct (Py.getitem rms_times (Z.of_nat i)); simpl; [apply IH | reflexivity].
  - destruct (negb b && PreciseAnalysis.in_gap st).
    + destruct (Py.getitem rms_times (Z.of_nat i)); simpl; [apply IH | reflexivity].
    + apply IH.
Qed.

Lemma enumerate_snoc {A} (l : list A) (x : A) :
  Py.enumerate (l ++ [x]) = Py.enumerate l ++ [(length l, x)].
Proof.
  unfold Py.enumerate. rewrite imap_app. simpl. rewrite Nat.add_0_r. reflexivity.
Qed.

Lemma rms_times_getitem (sr : Z) (n i : nat) :
  (i < n)%nat ->
  Py.getitem (map (PreciseAnalysis.frames_to_time sr 512) (Py.range 0 (Z.of_nat n)))
    (Z.of_nat i)
  = Some (PreciseAnalysis.frames_to_time sr 512 (Z.of_nat i)).
Proof.
  intros Hi. rewrite getitem_map, getitem_nonneg by lia. rewrite Nat2Z.id.
  unfold Py.range. rewrite list_lookup_fmap, lookup_seq_lt by lia. simpl.
  reflexivity.
Qed.

Section Gaps.

Variables (sr : Z) (rms : list Q) (threshold : Q).
Hypothesis Hsr : 0 < sr.

Let t (k : nat) : Q := PreciseAnalysis.frames_to_time sr 512 (Z.of_nat k).
Let silent (k : nat) : Prop := exists x, rms !! k = Some x /\ (x < threshold)%Q.
Let audible (k : nat) : Prop := exists x, rms !! k = Some x /\ (threshold <= x)%Q.
Let run (i j : nat) : Prop :=
  (i < j)%nat /\ (forall k, (i <= k < j)%nat -> silent k) /\ audible j
  /\ (i = 0%nat \/ audible (i - 1)).
Let gap_of (i j : nat) : Trim.segment_range :=
  {| Trim.sr_start := t i; Trim.sr_end := t j; Trim.sr_duration := (t j - t i)%Q |}.
Let mask : list bool := map (fun x => if Qlt_le_dec x threshold then true else false) rms.
Let rms_times : list Q :=
  map (PreciseAnalysis.frames_to_time sr 512) (Py.range 0 (Z.of_nat (length rms))).
Let init : PreciseAnalysis.gap_state :=
  {| PreciseAnalysis.gaps := []; PreciseAnalysis.in_gap := false;
     PreciseAnalysis.gap_start := 0 |}.

Local Lemma t_lt (a b : nat) : (a < b)%nat -> (t a < t b)%Q.
Proof. intros H. apply frames_to_time_lt; lia. Qed.

Local Lemma silent_not_audible (k : nat) : silent k -> audible k -> False.
Proof. intros (x & Hx & H1) (y & Hy & H2). rewrite Hx in Hy. injection Hy as <-. lra. Qed.

Lemma gap_loop_prefix (m : nat) :
  (m <= length rms)%nat ->
  exists st,
    PreciseAnalysis.gap_loop rms_times (Py.enumerate (take m mask)) init = Some st
    /\ Forall (fun g => exists i j,
                 run i j /\ (j < m)%nat /\ (0.15 < t j - t i)%Q /\ g = gap_of i j)
         (PreciseAnalysis.gaps st)
    /\ (forall (a b : nat) ga gb,
          PreciseAnalysis.gaps st !! a = Some ga ->
          PreciseAnalysis.gaps st !! b = Some gb ->
          (a < b)%nat -> (Trim.sr_end ga < Trim.sr_start gb)%Q)
    /\ (if PreciseAnalysis.in_gap st
        then exists i,
               (i < m)%nat /\ PreciseAnalysis.gap_start st = t i
               /\ (forall k, (i <= k < m)%nat -> silent k)
               /\ (i = 0%nat \/ audible (i - 1))
               /\ Forall (fun g => (Trim.sr_end g < t i)%Q) (PreciseAnalysis.gaps st)
        else (m = 0%nat \/ audible (m - 1))
             /\ Forall (fun g => (Trim.sr_end g < t m)%Q) (PreciseAnalysis.gaps st))
    /\ (forall i j, run i j -> (j < m)%nat -> (0.15 < t j - t i)%Q ->
          gap_of i j ∈ PreciseAnalysis.gaps st).
Proof.
  induction m as [|m IH]; intros Hm.
  - exists init. simpl. split; [reflexivity|]. split; [constructor|].
    split; [intros a b ga gb [=]|]. split; [split; [now left | constructor]|].
    intros i j _ Hj. lia.
  - destruct (IH ltac:(lia)) as (st & Hrun & HA & HB & HC & HD). clear IH.
    assert (Hx : exists x, rms !! m = Some x) by (apply lookup_lt_is_Some; lia).
    destruct Hx as [x Hx].
    assert (Hmask : mask !! m = Some (if Qlt_le_dec x threshold then true else false)).
    { subst mask. rewrite list_lookup_fmap, Hx. reflexivity. }
    rewrite (take_S_r _ _ _ Hmask), enumerate_snoc, gap_loop_app, Hrun.
    cbn [mbind option_bind].
    assert (Hlen : length (take m mask) = m).
    { rewrite length_take. subst mask. rewrite length_map. lia. }
    rewrite Hlen. simpl PreciseAnalysis.gap_loop.
    subst rms_times. rewrite rms_times_getitem by lia. fold (t m).
    cbn [mbind option_bind].
    assert (HAmono : forall gs,
               Forall (fun g => exists i j,
                         run i j /\ (j < m)%nat /\ (0.15 < t j - t i)%Q /\ g = gap_of i j) gs ->
               Forall (fun g => exists i j,
                         run i j /\ (j < S m)%nat /\ (0.15 < t j - t i)%Q /\ g = gap_of i j) gs).
    { intros gs Hgs. eapply Forall_impl; [exact Hgs|].
      intros g (i & j & H1 & H2 & H3 & H4). exists i, j.
      split; [exact H1|]. split; [lia|]. split; [exact H3 | exact H4]. }
    pose proof (t_lt m (S m) ltac:(lia)) as Htm.
    destruct (Qlt_le_dec x threshold) as [Hsil|Haud];
      destruct (PreciseAnalysis.in_gap st) eqn:Hin; simpl.
    + (* silent, inside a gap *)
      exists st. rewrite Hin. split; [reflexivity|]. split; [auto|]. split; [exact HB|].
      destruct HC as (i & Hi & Hstart & Hsilent & Hmax & Hends).
      split.
      * exists i. split; [lia|]. split; [exact Hstart|]. split; [|auto].
        intros k Hk. destruct (decide (k = m)) as [->|Hne]; [exists x; split; assumption|].
        apply Hsilent. lia.
      * intros i' j Hrun' Hj Hlong. destruct (decide (j = m)) as [->|Hne].
        -- exfalso. destruct Hrun' as (_ & _ & Ha & _).
           apply (silent_not_audible m); [exists x; split; assumption | exact Ha].
        -- apply HD; auto. lia.
    + (* silent, a gap starts *)
      eexists. split; [reflexivity|]. simpl. split; [auto|]. split; [exact HB|].
      destruct HC as [Hprev Hends]. split.
      * exists m. split; [lia|]. split; [reflexivity|]. split.
        -- intros k Hk. assert (k = m) by lia. subst k. exists x. split; assumption.
        -- split; [|exact Hends].
           destruct Hprev as [->|Hprev]; [now left | right; exact Hprev].
      * intros i' j Hrun' Hj Hlong. destruct (decide (j = m)) as [->|Hne].
        -- exfalso. destruct Hrun' as (_ & _ & Ha & _).
           apply (silent_not_audible m); [exists x; split; assumption | exact Ha].
        -- apply HD; auto. lia.
    + (* audible, a gap ends *)
      destruct HC as (i & Hi & Hstart & Hsilent & Hmax & Hends).
      assert (Hrun_im : run i m).
      { split; [exact Hi|]. split; [exact Hsilent|]. split; [exists x; split; assumption | exact Hmax]. }
      assert (Huniq : forall i', run i' m -> i' = i).
      { intros i' (Hi' & Hsil' & _ & Hmax').
        destruct (Nat.lt_trichotomy i' i) as [Hlt|[Heq|Hgt]]; [|exact Heq|].
        - exfalso. destruct Hmax as [->|Hmax]; [lia|].
          apply (silent_not_audible (i - 1)); [apply Hsil'; lia | exact Hmax].
        - exfalso. destruct Hmax' as [->|Hmax']; [lia|].
          apply (silent_not_audible (i' - 1)); [apply Hsilent; lia | exact Hmax']. }
      rewrite Hstart.
      eexists. split; [reflexivity|]. simpl.
      destruct (Qlt_le_dec 0.15 (t m - t i)) as [Hlong|Hshort].
      * split; [|split; [|split; [split|]]].
        -- apply Forall_app. split; [auto|]. constructor; [|constructor].
           exists i, m. split; [exact Hrun_im|]. split; [lia|]. split; [exact Hlong|].
           reflexivity.
        -- intros a b ga gb Ha Hb Hab.
           apply lookup_app_Some in Hb as [Hb|[Hlenb Hb]].
           ++ apply lookup_app_Some in Ha as [Ha|[Hlena Ha]].
              ** eapply HB; eauto.
              ** apply lookup_lt_Some in Hb. lia.
           ++ apply lookup_app_Some in Ha as [Ha|[Hlena Ha]].
              ** destruct (b - length (PreciseAnalysis.gaps st))%nat; [|destruct n; discriminate].
                 injection Hb as <-. simpl.
                 rewrite Forall_forall in Hends. apply Hends.
                 eapply list_elem_of_lookup_2. exact Ha.
              ** destruct (a - length (PreciseAnalysis.gaps st))%nat eqn:Ea;
                   [|destruct n; discriminate].
                 destruct (b - length (PreciseAnalysis.gaps st))%nat eqn:Eb;
                   [lia | destruct n; discriminate].
        -- right. simpl. rewrite ?Nat.sub_0_r. exists x. split; assumption.
        -- apply Forall_app. split.
           ++ eapply Forall_impl; [exact Hends|]. intros g Hg. simpl in Hg.
              pose proof (t_lt i m Hi). lra.
           ++ constructor; [simpl; exact Htm | constructor].
        -- intros i' j Hrun' Hj Hlong'. destruct (decide (j = m)) as [->|Hne].
           ++ rewrite (Huniq i' Hrun'). apply elem_of_app. right. left.
           ++ apply elem_of_app. left. apply HD; auto. lia.
      * split; [auto|]. split; [exact HB|]. split; [split|].
        -- right. simpl. rewrite ?Nat.sub_0_r. exists x. split; assumption.
        -- eapply Forall_impl; [exact Hends|]. intros g Hg. simpl in Hg.
           pose proof (t_lt i m Hi). lra.
        -- intros i' j Hrun' Hj Hlong'. destruct (decide (j = m)) as [->|Hne].
           ++ exfalso. rewrite (Huniq i' Hrun') in Hlong'. lra.
           ++ apply HD; auto. lia.
    + (* audible, outside a gap *)
      exists st. rewrite Hin. split; [reflexivity|]. split; [auto|]. split; [exact HB|].
      destruct HC as [Hprev Hends]. split; [split|].
      * right. simpl. rewrite ?Nat.sub_0_r. exists x. split; assumption.
      * eapply Forall_impl; [exact Hends|]. intros g Hg. simpl in Hg. lra.
      * intros i' j Hrun' Hj Hlong'. destruct (decide (j = m)) as [->|Hne].
        -- exfalso. destruct Hrun' as (Hi' & Hsil' & _ & _).
           destruct Hprev as [->|Hprev]; [lia|].
           apply (silent_not_audible (m - 1)); [apply Hsil'; lia | exact Hprev].
        -- apply HD; auto. lia.
Qed.

End Gaps.

(** X6. The silence detection of [analyze_audio_detailed], for a positive
    sample rate, never fails, and its gaps are the maximal runs of
    silent frames (RMS below the threshold) that are followed by an
    audible frame and last more than 0.15 s from the first silent frame to
    that audible frame: every gap is such a run, with these two times and
    their difference; the gaps are in order and apart; and every such
    run is a gap. A silent run that lasts to the end of the audio is not
    reported. *)
Theorem silence_gaps_are_silent_runs (sr : Z) (rms : list Q) (threshold : Q) :
  0 < sr ->
  let t (k : nat) := PreciseAnalysis.frames_to_time sr 512 (Z.of_nat k) in
  let silent (k : nat) := exists x, rms !! k = Some x /\ (x < threshold)%Q in
  let audible (k : nat) := exists x, rms !! k = Some x /\ (threshold <= x)%Q in
  let run (i j : nat) :=
    (i < j)%nat /\ (forall k, (i <= k < j)%nat -> silent k) /\ audible j
    /\ (i = 0%nat \/ audible (i - 1)%nat) in
  exists gs,
    PreciseAnalysis.detect_gaps sr rms threshold = Some gs
    /\ Forall (fun g => exists i j,
                 run i j /\ (0.15 < t j - t i)%Q
                 /\ Trim.sr_start g = t i /\ Trim.sr_end g = t j
                 /\ Trim.sr_duration g = (t j - t i)%Q) gs
    /\ (forall (a b : nat) ga gb,
          gs !! a = Some ga -> gs !! b = Some gb -> (a < b)%nat ->
          (Trim.sr_end ga < Trim.sr_start gb)%Q)
    /\ (forall i j, run i j -> (0.15 < t j - t i)%Q ->
          exists g, g ∈ gs /\ Trim.sr_start g = t i /\ Trim.sr_end g = t j).
Proof.
  intros Hsr t silent audible run.
  destruct (gap_loop_prefix sr rms threshold Hsr (length rms) ltac:(lia))
    as (st & Hrun & HA & HB & _ & HD).
  rewrite take_ge in Hrun by (rewrite length_map; lia).
  exists (PreciseAnalysis.gaps st). split; [|split; [|split]].
  - unfold PreciseAnalysis.detect_gaps. rewrite Hrun. reflexivity.
  - eapply Forall_impl; [exact HA|]. intros g (i & j & H1 & _ & H3 & ->).
    exists i, j. repeat split; try exact H3; apply H1.
  - exact HB.
  - intros i j Hr Hlong. eexists. split; [apply (HD i j Hr)|].
    + destruct Hr as (_ & _ & (x & Hx & _) & _). apply lookup_lt_Some in Hx. exact Hx.
    + exact Hlong.
    + split; reflexivity.
Qed.

(** X6 at four frames, silent, silent, audible, silent, of 0.5 s each:
    the first two frames are a gap. *)
Lemma silence_gaps_are_silent_runs_witness :
  exists gs g,
    PreciseAnalysis.detect_gaps 1024 [0.01; 0.01; 0.5; 0.01]%Q 0.1 = Some gs
    /\ g ∈ gs
    /\ Trim.sr_start g = PreciseAnalysis.frames_to_time 1024 512 0
    /\ Trim.sr_end g = PreciseAnalysis.frames_to_time 1024 512 2.
Proof.
  destruct (silence_gaps_are_silent_runs 1024 [0.01; 0.01; 0.5; 0.01]%Q 0.1
              ltac:(lia)) as (gs & Hrun & _ & _ & Hall).
  destruct (Hall 0%nat 2%nat) as (g & Hg & Hstart & Hend).
  - split; [lia|]. split; [|split].
    + intros [|[|k]] Hk; [| |lia]; (eexists; split; [reflexivity|]);
        vm_compute; reflexivity.
    + eexists. split; [reflexivity|]. vm_compute. discriminate.
    + left. reflexivity.
  - vm_compute. reflexivity.
  - exists gs, g. split; [exact Hrun|]. split; [exact Hg|].
    split; [exact Hstart | exact Hend].
Defined.

(** ** Notes *)












(** ** Word timings of the transcription *)



(** ** Word clips *)

Lemma digit_value_pretty (d : N) :
  (d < 10)%N -> PyStr.digit_value (pretty_N_char d) = Some d.
Proof.
  intros Hd.
  assert (d = 0 \/ d = 1 \/ d = 2 \/ d = 3 \/ d = 4 \/ d = 5 \/ d = 6 \/ d = 7
          \/ d = 8 \/ d = 9)%N as H by lia.
  repeat (destruct H as [->|H]; [reflexivity|]). subst d. reflexivity.
Qed.

Lemma read_decimal_pretty_go (x : N) :
  forall s, PyStr.read_decimal 0 (pretty_N_go x s) = PyStr.read_decimal x s.
Proof.
  induction (N.lt_wf_0 x) as [x _ IH]; intros s.
  destruct (decide (x = 0%N)) as [->|Hx]; [now rewrite pretty_N_go_0|].
  rewrite pretty_N_go_step by lia.
  rewrite IH by (apply N.div_lt; lia).
  simpl. rewrite digit_value_pretty by (apply N.mod_lt; lia).
  f_equal. rewrite N.mul_comm. symmetry. apply N.div_mod. lia.
Qed.

Lemma pretty_N_go_app (x : N) :
  forall s t, pretty_N_go x s +:+ t = pretty_N_go x (s +:+ t).
Proof.
  induction (N.lt_wf_0 x) as [x _ IH]; intros s t.
  destruct (decide (x = 0%N)) as [->|Hx]; [now rewrite !pretty_N_go_0|].
  rewrite (pretty_N_go_step x s), (pretty_N_go_step x (s +:+ t)) by lia.
  rewrite IH by (apply N.div_lt; lia). reflexivity.
Qed.

Lemma read_decimal_zeros (k : nat) (s : string) :
  PyStr.read_decimal 0 (PyStr.zeros k +:+ s) = PyStr.read_decimal 0 s.
Proof. induction k as [|k IH]; simpl; [reflexivity | exact IH]. Qed.

Lemma read_decimal_format (width i : nat) (rest : string) :
  PyStr.read_decimal 0 (PyStr.format_0d width i +:+ String "_" rest) = N.of_nat i.
Proof.
  unfold PyStr.format_0d. rewrite string_app_assoc, read_decimal_zeros.
  unfold pretty, pretty_nat, pretty, pretty_N.
  destruct (decide (N.of_nat i = 0%N)) as [->|Hi]; [reflexivity|].
  rewrite pretty_N_go_app, read_decimal_pretty_go. reflexivity.
Qed.

Lemma word_file_inj (i j : nat) (a b : string) :
  "word_" +:+ PyStr.format_0d 3 i +:+ "_" +:+ a
  = "word_" +:+ PyStr.format_0d 3 j +:+ "_" +:+ b ->
  i = j.
Proof.
  intros H. apply String.app_inj in H.
  apply (f_equal (PyStr.read_decimal 0)) in H.
  change ("_" +:+ a) with (String "_" a) in H.
  change ("_" +:+ b) with (String "_" b) in H.
  rewrite !read_decimal_format in H. lia.
Qed.





Lemma word_segment_fold audio output_dir (words : list Precise.enriched_word) :
  forall (k : nat) acc (files : gmap string (list Z)),
    let r := fold_left
               (fun acc x =>
                  let '(info, clip) :=
                    PreciseAnalysis.word_segment audio output_dir x.1 x.2 in
                  (acc.1 ++ [info], <[PreciseAnalysis.filepath info := clip]> acc.2))
               (imap (fun i w => ((k + i)%nat, w)) words) (acc, files) in
    r.1 = acc ++ imap (fun i w =>
                         (PreciseAnalysis.word_segment audio output_dir (k + i) w).1) words
    /\ (forall (i : nat) w,
          words !! i = Some w ->
          r.2 !! PreciseAnalysis.filepath
                   (PreciseAnalysis.word_segment audio output_dir (k + i) w).1
          = Some (PreciseAnalysis.word_segment audio output_dir (k + i) w).2)
    /\ (forall p,
          (forall (i : nat) w,
             words !! i = Some w ->
             p <> PreciseAnalysis.filepath
                    (PreciseAnalysis.word_segment audio output_dir (k + i) w).1) ->
          r.2 !! p = files !! p).
Proof.
  induction words as [|w words IH]; intros k acc files.
  - simpl. rewrite app_nil_r. split; [reflexivity|]. split; [intros i w [=] | auto].
  - cbn [imap fold_left fst snd].
    assert (Hext : imap ((fun i w => ((k + i)%nat, w)) ∘ S) words
                   = imap (fun i w => ((S k + i)%nat, w)) words).
    { apply imap_ext. intros i y _. simpl. f_equal. lia. }
    rewrite Hext. rewrite Nat.add_0_r.
    destruct (PreciseAnalysis.word_segment audio output_dir k w) as [info clip] eqn:Ew.
    specialize (IH (S k) (acc ++ [info]) (<[PreciseAnalysis.filepath info := clip]> files)).
    cbv zeta in IH. destruct IH as (IH1 & IH2 & IH3).
    assert (Hinj : forall (i : nat) y,
               PreciseAnalysis.filepath info
               <> PreciseAnalysis.filepath
                    (PreciseAnalysis.word_segment audio output_dir (S k + i) y).1).
    { intros i y E. replace info with (PreciseAnalysis.word_segment audio output_dir k w).1 in E
        by (rewrite Ew; reflexivity).
      cbn [PreciseAnalysis.word_segment fst PreciseAnalysis.filepath] in E.
      unfold Py.path_join in E. do 2 apply String.app_inj in E.
      apply word_file_inj in E. lia. }
    split; [|split].
    + rewrite IH1, <- app_assoc. cbn [app]. f_equal. f_equal.
      apply imap_ext. intros i y _. cbn [compose]. do 2 f_equal. lia.
    + intros [|i] w' Hw'.
      * simpl in Hw'. injection Hw' as <-. rewrite Nat.add_0_r, Ew. cbn [fst snd].
        rewrite IH3; [apply lookup_insert_eq|].
        intros i y Hy. apply Hinj.
      * simpl in Hw'. replace (k + S i)%nat with (S k + i)%nat by lia.
        apply IH2. exact Hw'.
    + intros p Hp. rewrite IH3.
      * apply lookup_insert_ne. intros E. symmetry in E. revert E.
        specialize (Hp 0%nat w eq_refl). rewrite Nat.add_0_r, Ew in Hp. exact Hp.
      * intros i y Hy. replace (S k + i)%nat with (k + S i)%nat by lia.
        apply Hp. exact Hy.
Qed.

Lemma create_word_segments_spec (audio_path : string)
    (words : list Precise.enriched_word) (output_dir : string)
    (files : gmap string (list Z)) infos files' :
  PreciseAnalysis.create_word_segments audio_path words output_dir files
  = Some (infos, files') ->
  exists audio,
    files !! audio_path = Some audio
    /\ infos = imap (fun i w => (PreciseAnalysis.word_segment audio output_dir i w).1) words
    /\ (forall (i : nat) w,
          words !! i = Some w ->
          files' !! PreciseAnalysis.filepath
                      (PreciseAnalysis.word_segment audio output_dir i w).1
          = Some (PreciseAnalysis.word_segment audio output_dir i w).2)
    /\ (forall p,
          (forall (i : nat) w,
             words !! i = Some w ->
             p <> PreciseAnalysis.filepath
                    (PreciseAnalysis.word_segment audio output_dir i w).1) ->
          files' !! p = files !! p).
Proof.
  unfold PreciseAnalysis.create_word_segments.
  destruct (files !! audio_path) as [audio|]; [|discriminate].
  cbn [mbind option_bind].
  destruct (word_segment_fold audio output_dir words 0 [] files) as (H1 & H2 & H3).
  change (imap (fun i w => ((0 + i)%nat, w)) words) with (Py.enumerate words)
    in H1, H2, H3.
  match type of H1 with (?r).1 = _ => set (res := r) in * end.
  intros E. assert (E' : res = (infos, files')) by congruence.
  clearbody res. subst res. cbn [fst snd app] in H1, H2, H3.
  exists audio. split; [reflexivity|]. split; [exact H1|]. split; [exact H2 | exact H3].
Qed.


(** ** The analysis report and its trimming *)

Lemma enrich_word_timing hz_to_note pitch_contour rms_times rms_db
    (w : Precise.word_timing) e :
  Precise.enrich_word hz_to_note pitch_contour rms_times rms_db w = Some e ->
  Precise.timing e = w.
Proof.
  unfold Precise.enrich_word.
  destruct (existsb id _); [destruct (Py.mask_select _ _); [|discriminate]|];
    cbn [mbind option_bind]; intros [= <-]; reflexivity.
Qed.

Lemma enrich_timings hz_to_note pitch_contour rms_times rms_db
    (ws : list Precise.word_timing) es :
  Precise.enrich_word_timings_with_features hz_to_note ws pitch_contour rms_times rms_db
  = Some es ->
  map Precise.timing es = ws.
Proof.
  unfold Precise.enrich_word_timings_with_features. intros H.
  apply mapM_Some_1 in H. induction H as [|w e ws es Hw _ IH]; simpl; [reflexivity|].
  rewrite IH. f_equal. eapply enrich_word_timing. exact Hw.
Qed.

(** X10. In the report that [main] builds, the words and the word
    segments are as many as the transcribed words, both are indexed by
    position from 0, and [total_words] is their number. So trimming such
    a report, with its audio on disk, at a target word found at index
    [i] succeeds and keeps the first [i + 1] entries of both lists, with
    [total_words] equal to that number. *)
Theorem report_words_are_indexed librosa_hz_to_note timestamp vocals_file run_folder
    segment_output start_time end_time audio_analysis rms_times rms_db transcription
    (files : gmap string (list Z)) d files' :
  PreciseAnalysis.main_report librosa_hz_to_note timestamp vocals_file run_folder
    segment_output start_time end_time audio_analysis rms_times rms_db transcription files
  = Some (d, files') ->
  let words := Trim.word_timings (Trim.d_transcription d) in
  (forall (k : nat) w, words !! k = Some w -> Trim.index_of w = Z.of_nat k)
  /\ (forall (k : nat) s, Trim.d_word_segments d !! k = Some s ->
        Trim.ws_index s = Z.of_nat k)
  /\ length (Trim.d_word_segments d) = length words
  /\ Trim.total_words (Trim.d_summary d) = Z.of_nat (length words)
  /\ length words = length (default [] (PreciseAnalysis.words transcription))
  /\ (forall lower analysis_folder target_word (st : Trim.state) tw audio,
        Trim.json_files st !! Trim.report_path analysis_folder = Some d ->
        Trim.find_target lower target_word words = Some tw ->
        Trim.wav_files st !! Trim.d_segment_file d = Some audio ->
        exists st' d',
          Trim.trim_segment_to_word lower analysis_folder target_word st
          = Some (Some (Trim.trimmed_wav_path analysis_folder (Trim.d_segment_file d)), st')
          /\ Trim.json_files st' !! Trim.updated_report_path analysis_folder = Some d'
          /\ Trim.word_timings (Trim.d_transcription d')
             = take (Z.to_nat (Trim.index_of tw) + 1) words
          /\ Trim.d_word_segments d'
             = take (Z.to_nat (Trim.index_of tw) + 1) (Trim.d_word_segments d)
          /\ Trim.total_words (Trim.d_summary d')
             = Z.of_nat (length (Trim.d_word_segments d'))).
Proof.
  unfold PreciseAnalysis.main_report.
  destruct (Precise.enrich_word_timings_with_features _ _ _ _ _) as [enriched|] eqn:Een;
    [|discriminate].
  cbn [mbind option_bind].
  destruct (PreciseAnalysis.create_word_segments _ _ _ _) as [[word_files files1]|] eqn:Ews;
    [|discriminate].
  cbn [mbind option_bind]. intros [= <- <-].
  cbn [Trim.d_transcription Trim.word_timings Trim.d_word_segments Trim.d_summary
       Trim.total_words Trim.d_segment_file].
  apply enrich_timings in Een.
  apply create_word_segments_spec in Ews as (audio & _ & Hinfos & _ & _).
  assert (Hwords : forall (k : nat) w, enriched !! k = Some w ->
                                       Trim.index_of w = Z.of_nat k).
  { intros k w Hk. unfold Trim.index_of.
    assert (Ht : map Precise.timing enriched !! k = Some (Precise.timing w))
      by (rewrite list_lookup_fmap, Hk; reflexivity).
    rewrite Een in Ht. unfold PreciseAnalysis.transcribe_with_word_timestamps in Ht.
    cbn [PreciseAnalysis.word_timings] in Ht.
    destruct (PreciseAnalysis.words transcription) as [ws|]; [|discriminate].
    rewrite list_lookup_imap in Ht. destruct (ws !! k) as [ww|]; [|discriminate].
    injection Ht as Ht. rewrite <- Ht. reflexivity. }
  assert (Hsegs : forall (k : nat) s,
             map PreciseAnalysis.as_word_segment word_files !! k = Some s ->
             Trim.ws_index s = Z.of_nat k).
  { intros k s Hk. rewrite Hinfos, list_lookup_fmap, list_lookup_imap in Hk.
    destruct (enriched !! k) as [w|]; [|discriminate]. injection Hk as <-. reflexivity. }
  assert (Hlen : length (map PreciseAnalysis.as_word_segment word_files) = length enriched).
  { rewrite length_map, Hinfos. apply length_imap. }
  split; [exact Hwords|]. split; [exact Hsegs|]. split; [exact Hlen|].
  split; [reflexivity|]. split.
  { rewrite <- (length_map Precise.timing), Een.
    unfold PreciseAnalysis.transcribe_with_word_timestamps.
    cbn [PreciseAnalysis.word_timings].
    destruct (PreciseAnalysis.words transcription); [apply length_imap | reflexivity]. }
  intros lower analysis_folder target_word st tw audio' Hreport Hfind Hwav.
  match type of Hreport with _ = Some ?doc => set (d := doc) in * end.
  destruct (trim_spec lower analysis_folder target_word st d tw audio'
              Hreport Hfind Hwav) as (h' & Hrun).
  destruct (find_target_lookup _ _ _ _ Hfind) as (k & Hk & _).
  pose proof (Hwords k tw Hk) as Hi.
  assert (Hlt : (k < length enriched)%nat) by (eapply lookup_lt_Some; exact Hk).
  eexists _, _. split; [exact Hrun|].
  cbn [Trim.json_files]. split; [apply lookup_insert_eq|].
  cbn [Trim.d_transcription Trim.word_timings Trim.d_word_segments Trim.d_summary
       Trim.total_words d].
  rewrite (filter_contiguous Trim.index_of enriched 0)
    by (intros k' w Hw; rewrite (Hwords k' w Hw); lia).
  rewrite (filter_contiguous Trim.ws_index _ 0)
    by (intros k' s' Hs'; rewrite (Hsegs k' s' Hs'); lia).
  replace (Z.to_nat (Trim.index_of tw - 0 + 1)) with (Z.to_nat (Trim.index_of tw) + 1)%nat
    by lia.
  split; [reflexivity|]. split; [reflexivity|].
  rewrite !length_take, Hlen. reflexivity.
Qed.

(** X10 at a transcription of two words of the sample segment. *)
Lemma report_words_are_indexed_witness :
  exists d files',
    PreciseAnalysis.main_report (fun _ => None) "run" "vocals.wav" "run"
      Sample.segment_wav 5 25 Inputs.audio_analysis [] [] Inputs.transcription
      {[ PreciseAnalysis.path_str Sample.segment_wav := [0; 0; 0] ]}
    = Some (d, files')
    /\ Trim.total_words (Trim.d_summary d)
       = Z.of_nat (length (Trim.word_timings (Trim.d_transcription d))).
Proof.
  assert (H : is_Some
                (PreciseAnalysis.main_report (fun _ => None) "run" "vocals.wav" "run"
                   Sample.segment_wav 5 25 Inputs.audio_analysis [] []
                   Inputs.transcription
                   {[ PreciseAnalysis.path_str Sample.segment_wav := [0; 0; 0] ]}))
    by (apply is_Some_alt; vm_compute; exact I).
  destruct H as [[d files'] H].
  exists d, files'. split; [exact H|].
  exact (proj1 (proj2 (proj2 (proj2
           (report_words_are_indexed _ _ _ _ _ _ _ _ _ _ _ _ d files' H))))).
Defined.

(** ** generate_from_analysis.py: the merged audio *)

Lemma int_of_gap (x : Q) :
  (0 <= x)%Q ->
  0 <= Py.int_of x /\ (inject_Z (Py.int_of x) <= x)%Q /\ (x < inject_Z (Py.int_of x) + 1)%Q.
Proof.
  intros Hx. destruct (int_of_nonneg_bounds x Hx) as [H1 H2].
  split; [|split; assumption].
  assert (H : (inject_Z (-1) < inject_Z (Py.int_of x))%Q).
  { change (inject_Z (-1)) with (-1)%Q. lra. }
  rewrite <- Zlt_Qlt in H. lia.
Qed.

Lemma merge_step_spec files final pos seg final2 pos2 :
  MergeFromAnalysis.merge_step files (final, pos) seg = Some (final2, pos2) ->
  exists (gap : nat) audio,
    files !! MergeFromAnalysis.file seg = Some audio
    /\ final2 = final ++ replicate gap 0 ++ audio
    /\ (pos2 * 1000 - inject_Z (Pydub.len final2)
        == (if Qlt_le_dec pos (MergeFromAnalysis.original_start seg)
            then MergeFromAnalysis.original_start seg else pos) * 1000
           - inject_Z (Pydub.len final) - inject_Z (Z.of_nat gap))%Q
    /\ (if Qlt_le_dec pos (MergeFromAnalysis.original_start seg)
        then (inject_Z (Z.of_nat gap)
              <= (MergeFromAnalysis.original_start seg - pos) * 1000)%Q
             /\ ((MergeFromAnalysis.original_start seg - pos) * 1000
                 < inject_Z (Z.of_nat gap) + 1)%Q
        else gap = 0%nat).
Proof.
  unfold MergeFromAnalysis.merge_step.
  destruct (Qlt_le_dec pos (MergeFromAnalysis.original_start seg)) as [Hlt|Hge].
  - destruct (files !! MergeFromAnalysis.file seg) as [audio|]; [|discriminate].
    cbn [mbind option_bind]. intros [= <- <-].
    destruct (int_of_gap ((MergeFromAnalysis.original_start seg - pos) * 1000))
      as (H0 & H1 & H2); [lra|].
    exists (Z.to_nat (Py.int_of ((MergeFromAnalysis.original_start seg - pos) * 1000))), audio.
    rewrite Z2Nat.id by exact H0.
    split; [reflexivity|]. split.
    { unfold Pydub.append, Pydub.silent. now rewrite <- app_assoc. }
    split; [|split; assumption].
    unfold Pydub.append, Pydub.silent, Pydub.len.
    rewrite !length_app, length_replicate, !Nat2Z.inj_add, !inject_Z_plus.
    rewrite Z2Nat.id by exact H0. field.
  - destruct (files !! MergeFromAnalysis.file seg) as [audio|]; [|discriminate].
    cbn [mbind option_bind]. intros [= <- <-].
    exists 0%nat, audio. split; [reflexivity|]. split; [reflexivity|].
    split; [|reflexivity].
    unfold Pydub.append, Pydub.len. rewrite length_app, Nat2Z.inj_add, inject_Z_plus.
    change (inject_Z (Z.of_nat 0)) with 0%Q. field.
Qed.

Lemma merge_loop_layout files segs :
  forall final pos (m : nat) final' pos',
    (0 <= pos * 1000 - inject_Z (Pydub.len final))%Q ->
    (pos * 1000 - inject_Z (Pydub.len final) <= inject_Z (Z.of_nat m))%Q ->
    MergeFromAnalysis.merge_loop files segs (final, pos) = Some (final', pos') ->
    exists offs : list nat,
      length offs = length segs
      /\ (exists rest, final' = final ++ rest)
      /\ (forall (k : nat) seg,
            segs !! k = Some seg ->
            exists off audio,
              offs !! k = Some off
              /\ files !! MergeFromAnalysis.file seg = Some audio
              /\ (length final <= off)%nat
              /\ take (length audio) (drop off final') = audio
              /\ (off + length audio <= length final')%nat
              /\ (MergeFromAnalysis.original_start seg * 1000
                  - inject_Z (Z.of_nat (m + k + 1)) <= inject_Z (Z.of_nat off))%Q
              /\ ((inject_Z (Z.of_nat off)
                   <= MergeFromAnalysis.original_start seg * 1000)%Q
                  \/ match k with
                     | O => off = length final
                     | S j =>
                         exists seg_p off_p audio_p,
                           segs !! j = Some seg_p /\ offs !! j = Some off_p
                           /\ files !! MergeFromAnalysis.file seg_p = Some audio_p
                           /\ off = (off_p + length audio_p)%nat
                     end)
              /\ (forall (k' : nat) off',
                    (k < k')%nat -> offs !! k' = Some off' ->
                    (off + length audio <= off')%nat)).
Proof.
  induction segs as [|seg segs IH]; intros final pos m final' pos' Hd0 Hdm Hloop.
  - simpl in Hloop. injection Hloop as <- <-. exists []. split; [reflexivity|].
    split; [exists []; now rewrite app_nil_r|]. intros k seg [=].
  - cbn [MergeFromAnalysis.merge_loop] in Hloop.
    destruct (MergeFromAnalysis.merge_step files (final, pos) seg) as [[final2 pos2]|] eqn:Hstep;
      [|discriminate].
    cbn [mbind option_bind] in Hloop.
    apply merge_step_spec in Hstep as (gap & audio & Hfile & Hfinal2 & Hdrift & Hgap).
    assert (Hstart : (MergeFromAnalysis.original_start seg * 1000
                      - inject_Z (Z.of_nat (m + 1))
                      <= inject_Z (Z.of_nat (length final + gap)))%Q
                     /\ ((inject_Z (Z.of_nat (length final + gap))
                          <= MergeFromAnalysis.original_start seg * 1000)%Q
                         \/ (length final + gap)%nat = length final)
                     /\ (0 <= pos2 * 1000 - inject_Z (Pydub.len final2))%Q
                     /\ (pos2 * 1000 - inject_Z (Pydub.len final2)
                         <= inject_Z (Z.of_nat (S m)))%Q).
    { unfold Pydub.len in *.
      assert (E1 : (inject_Z (Z.of_nat (m + 1)) == inject_Z (Z.of_nat m) + 1)%Q)
        by (rewrite Nat2Z.inj_add, inject_Z_plus; reflexivity).
      assert (E2 : (inject_Z (Z.of_nat (S m)) == inject_Z (Z.of_nat m) + 1)%Q)
        by (rewrite Nat2Z.inj_succ; unfold Z.succ; rewrite inject_Z_plus; reflexivity).
      assert (E3 : (inject_Z (Z.of_nat (length final + gap))
                    == inject_Z (Z.of_nat (length final)) + inject_Z (Z.of_nat gap))%Q)
        by (rewrite Nat2Z.inj_add, inject_Z_plus; reflexivity).
      destruct (Qlt_le_dec pos (MergeFromAnalysis.original_start seg)) as [Hlt|Hge].
      - destruct Hgap as [Hg1 Hg2]. split; [lra|]. split; [left; lra|]. split; lra.
      - subst gap. change (inject_Z (Z.of_nat 0)) with 0%Q in *.
        split; [lra|]. split; [right; lia|]. split; lra. }
    destruct Hstart as (Hoff0 & Hadj0 & Hd0' & Hdm').
    destruct (IH final2 pos2 (S m) final' pos' Hd0' Hdm' Hloop)
      as (offs & Hlen & (rest & Hrest) & Hall).
    exists ((length final + gap)%nat :: offs).
    split; [simpl; now rewrite Hlen|].
    split; [exists (replicate gap 0 ++ audio ++ rest); rewrite Hrest, Hfinal2;
            now rewrite <- !app_assoc|].
    assert (Hlen2 : length final2 = (length final + gap + length audio)%nat).
    { rewrite Hfinal2, !length_app, length_replicate. lia. }
    intros [|k] seg' Hseg'.
    + simpl in Hseg'. injection Hseg' as <-.
      exists (length final + gap)%nat, audio.
      split; [reflexivity|]. split; [exact Hfile|]. split; [lia|].
      split; [|split; [|split; [|split]]].
      * rewrite Hrest, Hfinal2.
        replace ((final ++ replicate gap 0 ++ audio) ++ rest)
          with ((final ++ replicate gap 0) ++ audio ++ rest)
          by (now rewrite <- !app_assoc).
        rewrite drop_app_length' by (rewrite length_app, length_replicate; lia).
        apply take_app_length.
      * rewrite Hrest, length_app. lia.
      * replace (m + 0 + 1)%nat with (m + 1)%nat by lia. exact Hoff0.
      * exact Hadj0.
      * intros [|k'] off' Hk Hoff'; [lia|]. simpl in Hoff'.
        destruct (lookup_lt_is_Some_2 segs k') as [seg'' Hseg''];
          [rewrite <- Hlen; eapply lookup_lt_Some; exact Hoff'|].
        destruct (Hall k' seg'' Hseg'') as (off & audio' & Ho & _ & Hge & _).
        rewrite Ho in Hoff'. injection Hoff' as <-. lia.
    + simpl in Hseg'.
      destruct (Hall k seg' Hseg')
        as (off & audio' & Ho & Hf & Hge & Htake & Hend & Hb & Hadj & Hord).
      exists off, audio'. split; [exact Ho|]. split; [exact Hf|]. split; [lia|].
      split; [exact Htake|]. split; [exact Hend|]. split; [|split].
      * replace (m + S k + 1)%nat with (S m + k + 1)%nat by lia. exact Hb.
      * destruct Hadj as [Hadj|Hadj]; [now left | right].
        destruct k as [|j].
        -- exists seg, (length final + gap)%nat, audio.
           split; [reflexivity|]. split; [reflexivity|]. split; [exact Hfile|]. lia.
        -- destruct Hadj as (seg_p & off_p & audio_p & H1 & H2 & H3 & H4).
           exists seg_p, off_p, audio_p. auto.
      * intros [|k'] off' Hk Hoff'; [lia|]. simpl in Hoff'.
        apply (Hord k' off'); [lia | exact Hoff'].
Qed.

Lemma merge_loop_None files segs :
  forall st,
    MergeFromAnalysis.merge_loop files segs st = None ->
    exists seg, seg ∈ segs /\ files !! MergeFromAnalysis.file seg = None.
Proof.
  induction segs as [|seg segs IH]; intros [final pos]; [discriminate|].
  cbn [MergeFromAnalysis.merge_loop].
  destruct (MergeFromAnalysis.merge_step files (final, pos) seg) as [st'|] eqn:Hstep.
  - cbn [mbind option_bind]. intros H. destruct (IH _ H) as (s & Hin & Hs).
    exists s. split; [now right | exact Hs].
  - intros _. exists seg. split; [left|].
    unfold MergeFromAnalysis.merge_step in Hstep.
    destruct (Qlt_le_dec pos (MergeFromAnalysis.original_start seg));
      destruct (files !! MergeFromAnalysis.file seg); try discriminate; reflexivity.
Qed.

(** X11. The merge loop of generate_from_analysis.py fails only on a
    missing segment file. Otherwise every segment's audio is in the
    final audio in one piece at an offset of its own; the pieces follow
    one another in list order without overlap; a piece starts either
    where the previous one ends (at 0 for the first) or no later than the
    segment's [original_start], and never earlier than [original_start]
    by more than [k + 1] ms for the segment of position [k]. The final
    audio is written to [final_path], and no other file changes. *)
Theorem merged_segments_never_overlap (generated_segments : list MergeFromAnalysis.seg_info)
    (final_path : string) (files : gmap string (list Z)) :
  match MergeFromAnalysis.merge_segments generated_segments final_path files with
  | None =>
      exists seg, seg ∈ generated_segments /\ files !! MergeFromAnalysis.file seg = None
  | Some (final_audio, files') =>
      files' = <[final_path := final_audio]> files
      /\ exists offs : list nat,
           length offs = length generated_segments
           /\ forall (k : nat) seg,
                generated_segments !! k = Some seg ->
                exists off audio,
                  offs !! k = Some off
                  /\ files !! MergeFromAnalysis.file seg = Some audio
                  /\ take (length audio) (drop off final_audio) = audio
                  /\ (off + length audio <= length final_audio)%nat
                  /\ (MergeFromAnalysis.original_start seg * 1000
                      - inject_Z (Z.of_nat (k + 1)) <= inject_Z (Z.of_nat off))%Q
                  /\ ((inject_Z (Z.of_nat off)
                       <= MergeFromAnalysis.original_start seg * 1000)%Q
                      \/ match k with
                         | O => off = 0%nat
                         | S j =>
                             exists seg_p off_p audio_p,
                               generated_segments !! j = Some seg_p
                               /\ offs !! j = Some off_p
                               /\ files !! MergeFromAnalysis.file seg_p = Some audio_p
                               /\ off = (off_p + length audio_p)%nat
                         end)
                  /\ (forall (k' : nat) off',
                        (k < k')%nat -> offs !! k' = Some off' ->
                        (off + length audio <= off')%nat)
  end.
Proof.
  unfold MergeFromAnalysis.merge_segments.
  destruct (MergeFromAnalysis.merge_loop files generated_segments (Pydub.silent 0, 0%Q))
    as [[final_audio pos]|] eqn:Hloop; cbn [mbind option_bind].
  - split; [reflexivity|].
    destruct (merge_loop_layout files generated_segments [] 0%Q 0 final_audio pos
                ltac:(discriminate) ltac:(discriminate) Hloop)
      as (offs & Hlen & _ & Hall).
    exists offs. split; [exact Hlen|].
    intros k seg Hseg.
    destruct (Hall k seg Hseg)
      as (off & audio & Ho & Hf & _ & Htake & Hend & Hb & Hadj & Hord).
    exists off, audio. repeat (split; [assumption|]). exact Hord.
  - apply merge_loop_None in Hloop. exact Hloop.
Qed.

(** ** The mix with the instrumental track *)

Lemma clip16_range (x : Z) : -32768 <= Pydub.clip16 x <= 32767.
Proof. unfold Pydub.clip16. lia. Qed.

Lemma padded_lookup (a : list Z) (n : Z) (k : nat) :
  Pydub.len a <= n ->
  (k < Z.to_nat n)%nat ->
  (if Pydub.len a <? n
   then Pydub.append a (Pydub.silent (n - Pydub.len a)) else a) !! k
  = Some (default 0 (a !! k)).
Proof.
  unfold Pydub.len, Pydub.append, Pydub.silent. intros Hle Hk.
  destruct (Z.ltb_spec (Z.of_nat (length a)) n) as [Hlt|Hge].
  - destruct (decide (k < length a)%nat) as [Hin|Hout].
    + rewrite lookup_app_l by exact Hin.
      destruct (lookup_lt_is_Some_2 a k Hin) as [x Hx]. rewrite Hx. reflexivity.
    + rewrite lookup_app_r by lia.
      rewrite (lookup_ge_None_2 a k) by lia.
      rewrite lookup_replicate_2 by lia. reflexivity.
  - assert (Hin : (k < length a)%nat) by lia.
    destruct (lookup_lt_is_Some_2 a k Hin) as [x Hx]. rewrite Hx. reflexivity.
Qed.

Lemma padded_length (a : list Z) (n : Z) :
  Pydub.len a <= n ->
  Pydub.len (if Pydub.len a <? n
             then Pydub.append a (Pydub.silent (n - Pydub.len a)) else a) = n.
Proof.
  unfold Pydub.len, Pydub.append, Pydub.silent. intros Hle.
  destruct (Z.ltb_spec (Z.of_nat (length a)) n) as [Hlt|Hge].
  - rewrite length_app, length_replicate. lia.
  - lia.
Qed.

(** X12. [mix_vocals_with_instrumental] fails only when one of the two
    files is missing. Otherwise the mix is as long as the longer of the
    two tracks, and each of its cells is the 16-bit saturating sum of the
    vocal and the instrumental cell at that time, after the gain (no
    gain applied for a volume of 0), with silence where a track has
    ended; every cell is within the 16-bit range. Only the output file
    is written. *)
Theorem mix_is_as_long_as_the_longer_track (db_to_float : Q -> Q)
    (vocals_path instrumental_path output_path : string)
    (vocals_volume instrumental_volume : Q) (files : gmap string (list Z)) :
  let gained (volume : Q) (track : list Z) :=
    if Qeq_bool volume 0 then track else Mix.apply_gain db_to_float track volume in
  match Mix.mix_vocals_with_instrumental db_to_float vocals_path instrumental_path
          output_path vocals_volume instrumental_volume files with
  | None => files !! vocals_path = None \/ files !! instrumental_path = None
  | Some (out, files') =>
      exists vocals instrumental mixed,
        files !! vocals_path = Some vocals
        /\ files !! instrumental_path = Some instrumental
        /\ out = output_path
        /\ files' = <[output_path := mixed]> files
        /\ Pydub.len mixed = Z.max (Pydub.len vocals) (Pydub.len instrumental)
        /\ (forall k : nat,
              (k < length mixed)%nat ->
              mixed !! k
              = Some (Pydub.mix (default 0 (gained vocals_volume vocals !! k))
                        (default 0 (gained instrumental_volume instrumental !! k))))
        /\ Forall (fun x => -32768 <= x <= 32767) mixed
  end.
Proof.
  intros gained. unfold Mix.mix_vocals_with_instrumental.
  destruct (files !! vocals_path) as [vocals|]; [|left; reflexivity].
  destruct (files !! instrumental_path) as [instrumental|]; [|right; reflexivity].
  cbn [mbind option_bind].
  assert (Hv : (if negb (Qeq_bool vocals_volume 0)
                then Mix.apply_gain db_to_float vocals vocals_volume else vocals)
               = gained vocals_volume vocals)
    by (unfold gained; destruct (Qeq_bool vocals_volume 0); reflexivity).
  assert (Hi : (if negb (Qeq_bool instrumental_volume 0)
                then Mix.apply_gain db_to_float instrumental instrumental_volume
                else instrumental)
               = gained instrumental_volume instrumental)
    by (unfold gained; destruct (Qeq_bool instrumental_volume 0); reflexivity).
  rewrite Hv, Hi.
  assert (Hlv : Pydub.len (gained vocals_volume vocals) = Pydub.len vocals).
  { unfold gained, Mix.apply_gain, Pydub.len.
    destruct (Qeq_bool vocals_volume 0); [reflexivity|]. now rewrite length_map. }
  assert (Hli : Pydub.len (gained instrumental_volume instrumental)
                = Pydub.len instrumental).
  { unfold gained, Mix.apply_gain, Pydub.len.
    destruct (Qeq_bool instrumental_volume 0); [reflexivity|]. now rewrite length_map. }
  set (v := gained vocals_volume vocals) in *.
  set (i := gained instrumental_volume instrumental) in *.
  cbv zeta.
  set (n := Z.max (Pydub.len v) (Pydub.len i)).
  assert (Hnv : Pydub.len v <= n) by lia.
  assert (Hni : Pydub.len i <= n) by lia.
  set (v' := if Pydub.len v <? n then _ else v).
  set (i' := if Pydub.len i <? n then _ else i).
  assert (Hv' : Pydub.len v' = n) by (apply padded_length; exact Hnv).
  assert (Hi' : Pydub.len i' = n) by (apply padded_length; exact Hni).
  assert (Hlen : Pydub.len (Pydub.overlay v' i' 0) = n)
    by (rewrite overlay_length; exact Hv').
  assert (Hcells : forall k : nat,
             (k < length (Pydub.overlay v' i' 0))%nat ->
             Pydub.overlay v' i' 0 !! k
             = Some (Pydub.mix (default 0 (v !! k)) (default 0 (i !! k)))).
  { intros k Hk.
    assert (Hkn : (k < Z.to_nat n)%nat) by (unfold Pydub.len in Hlen; lia).
    unfold Pydub.overlay. change (Z.to_nat 0) with 0%nat.
    rewrite take_0, drop_0. cbn [app].
    rewrite mix_zip_lookup.
    unfold v', i'.
    rewrite (padded_lookup v n k Hnv Hkn), (padded_lookup i n k Hni Hkn).
    reflexivity. }
  exists vocals, instrumental, (Pydub.overlay v' i' 0).
  split; [reflexivity|]. split; [reflexivity|]. split; [reflexivity|].
  split; [reflexivity|]. split; [rewrite Hlen; unfold n; lia|].
  split; [exact Hcells|].
  apply Forall_forall. intros x Hx.
  apply list_elem_of_lookup in Hx as [k Hk].
  rewrite Hcells in Hk by (eapply lookup_lt_Some; exact Hk).
  injection Hk as <-. apply clip16_range.
Qed.

(** ** The ways [trim_segment_to_word] ends *)




(** ** The timeline and the order of discovery *)

Lemma insert_by_start_perm (x : Timeline.segment) (l : list Timeline.segment) :
  Timeline.insert_by_start x l ≡ₚ x :: l.
Proof.
  induction l as [|y l IH]; simpl; [reflexivity|].
  destruct (Qlt_le_dec _ _); [reflexivity|].
  rewrite IH. apply Permutation_swap.
Qed.

Lemma insert_by_start_sorted (x : Timeline.segment) (l : list Timeline.segment) :
  StronglySorted TimelineOrder.starts_le l -> StronglySorted TimelineOrder.starts_le (Timeline.insert_by_start x l).
Proof.
  induction 1 as [|y l Hl IH Hy]; simpl.
  - repeat constructor.
  - destruct (Qlt_le_dec _ _) as [Hlt|Hge].
    + constructor; [constructor; assumption|].
      constructor; [unfold TimelineOrder.starts_le; lra|].
      eapply Forall_impl; [exact Hy|]. unfold TimelineOrder.starts_le. intros z Hz. lra.
    + constructor; [exact IH|].
      rewrite insert_by_start_perm. constructor; [exact Hge | exact Hy].
Qed.

Lemma sort_by_start_spec (l : list Timeline.segment) :
  Timeline.sort_by_start l ≡ₚ l /\ StronglySorted TimelineOrder.starts_le (Timeline.sort_by_start l).
Proof.
  unfold Timeline.sort_by_start.
  assert (H : forall acc,
             StronglySorted TimelineOrder.starts_le acc ->
             fold_left (fun sorted x => Timeline.insert_by_start x sorted) l acc ≡ₚ acc ++ l
             /\ StronglySorted TimelineOrder.starts_le
                  (fold_left (fun sorted x => Timeline.insert_by_start x sorted) l acc)).
  { induction l as [|x l IH]; intros acc Hacc; simpl.
    - rewrite app_nil_r. split; [reflexivity | exact Hacc].
    - destruct (IH _ (insert_by_start_sorted x acc Hacc)) as [Hp Hs].
      split; [|exact Hs].
      rewrite Hp, insert_by_start_perm. apply Permutation_middle. }
  destruct (H [] ltac:(constructor)) as [Hp Hs]. split; assumption.
Qed.

Lemma distinct_starts_perm (l k : list Timeline.segment) :
  l ≡ₚ k -> TimelineOrder.distinct_starts k -> TimelineOrder.distinct_starts l.
Proof.
  intros Hp Hk. apply Permutation_inj in Hp as (_ & f & Hinj & Hf).
  intros i j a b Ha Hb Hij. rewrite Hf in Ha, Hb.
  apply (Hk (f i) (f j) a b Ha Hb). intros E. apply Hij, Hinj, E.
Qed.

Lemma sorted_distinct_strict (l : list Timeline.segment) :
  StronglySorted TimelineOrder.starts_le l -> TimelineOrder.distinct_starts l -> StronglySorted TimelineOrder.starts_lt l.
Proof.
  induction 1 as [|x l Hl IH Hx]; intros Hd; constructor.
  - apply IH. intros i j a b Ha Hb Hij. apply (Hd (S i) (S j) a b Ha Hb). lia.
  - apply Forall_forall. intros y Hy.
    pose proof (proj1 (Forall_forall _ _) Hx y Hy) as Hle.
    apply list_elem_of_lookup in Hy as [j Hj].
    pose proof (Hd 0%nat (S j) x y eq_refl Hj ltac:(lia)) as Hne.
    unfold TimelineOrder.starts_le, TimelineOrder.starts_lt in *.
    destruct (Qlt_le_dec (Timeline.start_time x) (Timeline.start_time y)) as [H|H];
      [exact H|].
    exfalso. apply Hne. apply Qle_antisym; assumption.
Qed.

Lemma sort_by_start_perm_eq (l k : list Timeline.segment) :
  l ≡ₚ k -> TimelineOrder.distinct_starts l ->
  Timeline.sort_by_start l = Timeline.sort_by_start k.
Proof.
  intros Hp Hd.
  destruct (sort_by_start_spec l) as [Hpl Hsl].
  destruct (sort_by_start_spec k) as [Hpk Hsk].
  apply (StronglySorted_unique_strong TimelineOrder.starts_lt).
  - intros a b _ _ Hab Hba. unfold TimelineOrder.starts_lt in *. lra.
  - apply sorted_distinct_strict; [exact Hsl|].
    eapply distinct_starts_perm; [exact Hpl | exact Hd].
  - apply sorted_distinct_strict; [exact Hsk|].
    eapply distinct_starts_perm; [|exact Hd]. rewrite Hpk. symmetry. exact Hp.
  - rewrite Hpl, Hpk. exact Hp.
Qed.

(** X14. When no two placements start at the same time, the timeline
    does not depend on the order in which the segments were found:
    sorting puts the same placements into strictly ascending order of
    start time, and [merge_vocals_to_timeline] gives the same result for
    every reordering of its list. *)
Theorem timeline_ignores_discovery_order
    (speedup : list Z -> Q -> option (list Z)) (workspace_root language : string)
    (segment_info reordered : list Timeline.segment) (files : gmap string (list Z)) :
  segment_info ≡ₚ reordered ->
  (forall (i j : nat) a b,
      segment_info !! i = Some a -> segment_info !! j = Some b -> i <> j ->
      ~ (Timeline.start_time a == Timeline.start_time b)%Q) ->
  Timeline.sort_by_start segment_info = Timeline.sort_by_start reordered
  /\ Timeline.sort_by_start segment_info ≡ₚ segment_info
  /\ (forall (i j : nat) a b,
        (i < j)%nat ->
        Timeline.sort_by_start segment_info !! i = Some a ->
        Timeline.sort_by_start segment_info !! j = Some b ->
        (Timeline.start_time a < Timeline.start_time b)%Q)
  /\ Timeline.merge_vocals_to_timeline speedup workspace_root language segment_info files
     = Timeline.merge_vocals_to_timeline speedup workspace_root language reordered files.
Proof.
  intros Hp Hd.
  pose proof (sort_by_start_perm_eq _ _ Hp Hd) as Heq.
  destruct (sort_by_start_spec segment_info) as [Hps Hs].
  split; [exact Heq|]. split; [exact Hps|]. split.
  - assert (Hstrict : StronglySorted TimelineOrder.starts_lt (Timeline.sort_by_start segment_info)).
    { apply sorted_distinct_strict; [exact Hs|].
      eapply distinct_starts_perm; [exact Hps | exact Hd]. }
    revert Hstrict. generalize (Timeline.sort_by_start segment_info). clear.
    intros l Hl. induction Hl as [|x l Hl IH Hx]; intros i j a b Hij Ha Hb.
    + rewrite lookup_nil in Ha. discriminate.
    + destruct j as [|j]; [lia|]. simpl in Hb. destruct i as [|i]; simpl in Ha.
      * injection Ha as <-.
        apply (proj1 (Forall_forall _ _) Hx b). eapply list_elem_of_lookup_2, Hb.
      * apply (IH i j a b); [lia | exact Ha | exact Hb].
  - unfold Timeline.merge_vocals_to_timeline. rewrite Heq. reflexivity.
Qed.

(** X14 at two placements, found late one first. *)
Lemma timeline_ignores_discovery_order_witness :
  Timeline.merge_vocals_to_timeline (fun a _ => Some a) "." "spanish"
    [Inputs.late; Inputs.early] Inputs.vocals
  = Timeline.merge_vocals_to_timeline (fun a _ => Some a) "." "spanish"
      [Inputs.early; Inputs.late] Inputs.vocals.
Proof.
  refine (proj2 (proj2 (proj2
            (timeline_ignores_discovery_order (fun a _ => Some a) "." "spanish"
               [Inputs.late; Inputs.early] [Inputs.early; Inputs.late]
               Inputs.vocals (perm_swap _ _ _) _)))).
  intros [|[|i]] [|[|j]] a b Ha Hb Hij; simpl in Ha, Hb;
    try discriminate; try lia;
    injection Ha as <-; injection Hb as <-; vm_compute; discriminate.
Defined.

(** ** Silence between the placements of the timeline *)



